(** * gtm: the host-telemetry sampling-and-cache layer ([devices.go])

    A shallow embedding of package [gtm]: the per-family "fetch if stale"
    accessors, the GPU vendor probe, the [nvidia-smi] text parser and the
    virtual-disk classifier, followed by the properties the specification
    states about them.

    Layout:
    - [strings], [strconv], [math], [time]: the parts of the Go standard
      library the package calls, with Go's semantics written out;
    - [Devices]: the package-level variables as a [State] record, the
      operating system and the spawned tools as an [Env] of oracles, and
      every accessor of [devices.go] in a state/panic monad;
    - [Legacy]: the superseded parser and probe of the older source file;
    - the theorems. *)

From Stdlib Require Import ZArith List String Ascii Bool Lia.
From Stdlib Require Import PrimFloat FloatOps SpecFloat.
Import ListNotations.
Set Warnings "-inexact-float".
Open Scope string_scope.
Open Scope Z_scope.

(** A Go [string] (and a [[]byte] converted with [string(b)]) is a sequence of
    bytes: Rocq's [string] of [ascii]. *)
Definition byte (c : ascii) : Z := Z.of_N (N_of_ascii c).

(** [lower(c) = c | ('x' - 'X')] of package [strconv]. *)
Definition lower (c : ascii) : Z := Z.lor (byte c) 32.

Definition string_eqb (a b : string) : bool := String.eqb a b.

(** ** Package [strings] *)
Module strings.

(** [strings.Split(s, sep)] for a non-empty [sep]: [s] is cut at every
    non-overlapping occurrence of [sep], scanning left to right; the result
    always has at least one element.  [skip] counts the bytes of a matched
    separator that are still to be dropped, [cur] is the piece under
    construction. *)
Fixpoint split_from (sep : string) (skip : nat) (cur s : string) : list string :=
  match s with
  | EmptyString => [cur]
  | String c rest =>
      match skip with
      | S k => split_from sep k cur rest
      | O =>
          if String.prefix sep s
          then cur :: split_from sep (String.length sep - 1) "" rest
          else split_from sep 0 (cur ++ String c "") rest
      end
  end.

Definition Split (s sep : string) : list string := split_from sep 0 "" s.

(** [strings.ReplaceAll(s, old, new)] for a non-empty [old]. *)
Fixpoint replace_from (old new : string) (skip : nat) (s : string) : string :=
  match s with
  | EmptyString => ""
  | String c rest =>
      match skip with
      | S k => replace_from old new k rest
      | O =>
          if String.prefix old s
          then new ++ replace_from old new (String.length old - 1) rest
          else String c (replace_from old new 0 rest)
      end
  end.

Definition ReplaceAll (s old new : string) : string := replace_from old new 0 s.

End strings.

(** ** Package [strconv] *)
Module strconv.

(** The [Err] field of a [*strconv.NumError]. *)
Inductive Err := ErrSyntax | ErrRange.

Definition maxUint64 : Z := 2 ^ 64 - 1.

(** The digit loop of [ParseUint] for an explicit base (2..36, so no
    underscores): a byte that is no digit of the base ends the scan with a
    syntax error and value 0; an overflow ends it at once with [maxVal] and
    a range error, whatever follows. *)
Fixpoint parseUint_loop (base maxVal cutoff n : Z) (s : string) : Z * option Err :=
  match s with
  | EmptyString => (n, None)
  | String c rest =>
      let b := byte c in
      let d := if (48 <=? b) && (b <=? 57) then Some (b - 48)
               else if (97 <=? lower c) && (lower c <=? 122) then Some (lower c - 97 + 10)
               else None in
      match d with
      | None => (0, Some ErrSyntax)
      | Some d =>
          if base <=? d then (0, Some ErrSyntax)
          else if cutoff <=? n then (maxVal, Some ErrRange)
          else
            let n' := n * base in
            let n1 := (n' + d) mod 2 ^ 64 in
            if (n1 <? n') || (maxVal <? n1) then (maxVal, Some ErrRange)
            else parseUint_loop base maxVal cutoff n1 rest
      end
  end.

Definition ParseUint (s : string) (base bitSize : Z) : Z * option Err :=
  if string_eqb s "" then (0, Some ErrSyntax)
  else parseUint_loop base (2 ^ bitSize - 1) (maxUint64 / base + 1) 0 s.

(** [strconv.ParseInt(s, base, bitSize)] with [2 <= base <= 36] and
    [1 <= bitSize <= 64].  On a syntax error the value is 0; on a range
    error it is the bound of the [bitSize]-bit signed range. *)
Definition ParseInt (s : string) (base bitSize : Z) : Z * option Err :=
  match s with
  | EmptyString => (0, Some ErrSyntax)
  | String c rest =>
      let neg := byte c =? 45 in
      let s1 := if (byte c =? 43) || neg then rest else s in
      match ParseUint s1 base bitSize with
      | (_, Some ErrSyntax) => (0, Some ErrSyntax)
      | (un, _) =>
          let cutoff := 2 ^ (bitSize - 1) in
          if negb neg && (cutoff <=? un) then (cutoff - 1, Some ErrRange)
          else if neg && (cutoff <? un) then (- cutoff, Some ErrRange)
          else (if neg then - un else un, None)
      end
  end.

(** *** [ParseFloat(s, 64)]

    The library's contract, modelled on its scanner [readFloat]: a decimal
    or hexadecimal literal with an optional sign, or one of the special
    names; the result is the binary64 value nearest to the literal's exact
    value (ties to even), an infinity with a range error on overflow, and 0 with
    a syntax error when [s] is not a literal. *)

Definition is_digit (b : Z) : bool := (48 <=? b) && (b <=? 57).
Definition is_hex_letter (c : ascii) : bool := (97 <=? lower c) && (lower c <=? 102).

(** The exact rational [n / d] ([n >= 0], [d > 0]) rounded to nearest even:
    the quotient is taken with more than 64 bits and a sticky bit, then
    rounded once by [binary_normalize]. *)
Definition round_ratio (neg : bool) (n d : Z) : spec_float :=
  if n =? 0 then S754_zero neg
  else
    let k := Z.max 0 (64 + Z.log2_up d - Z.log2 n) in
    let q := (n * 2 ^ k) / d in
    let sticky := if (n * 2 ^ k) mod d =? 0 then 0 else 1 in
    let m := 2 * q + sticky in
    binary_normalize prec emax (if neg then - m else m) (- k - 1) false.

(** [m * base ^ e] as a binary64 value. *)
Definition scale (neg : bool) (m base e : Z) : float :=
  SF2Prim (if 0 <=? e then round_ratio neg (m * base ^ e) 1
           else round_ratio neg m (base ^ (- e))).

Record mant := mkMant {
  m_val : Z;          (* all the digits read, leading zeros apart *)
  m_nd : Z;           (* how many they are *)
  m_dp : Z;           (* position of the point *)
  m_sawdot : bool;
  m_sawdigits : bool;
  m_underscores : bool
}.

(** The digit loop of [readFloat]; the unread rest of the string is
    returned with the counters. *)
Fixpoint read_mantissa (base : Z) (st : mant) (s : string) : mant * string :=
  match s with
  | EmptyString => (st, s)
  | String c rest =>
      let b := byte c in
      if b =? 95 then
        read_mantissa base
          (mkMant (m_val st) (m_nd st) (m_dp st) (m_sawdot st) (m_sawdigits st) true) rest
      else if b =? 46 then
        if m_sawdot st then (st, s)
        else read_mantissa base
               (mkMant (m_val st) (m_nd st) (m_nd st) true (m_sawdigits st) (m_underscores st)) rest
      else if is_digit b then
        if (b =? 48) && (m_nd st =? 0) then
          read_mantissa base
            (mkMant (m_val st) (m_nd st) (m_dp st - 1) (m_sawdot st) true (m_underscores st)) rest
        else
          read_mantissa base
            (mkMant (m_val st * base + (b - 48)) (m_nd st + 1) (m_dp st) (m_sawdot st) true
                    (m_underscores st)) rest
      else if (base =? 16) && is_hex_letter c then
        read_mantissa base
          (mkMant (m_val st * 16 + (lower c - 97 + 10)) (m_nd st + 1) (m_dp st) (m_sawdot st) true
                  (m_underscores st)) rest
      else (st, s)
  end.

(** The digits of the exponent; the value stops growing at 10000. *)
Fixpoint read_exp_digits (e : Z) (us : bool) (s : string) : Z * bool * string :=
  match s with
  | EmptyString => (e, us, s)
  | String c rest =>
      let b := byte c in
      if b =? 95 then read_exp_digits e true rest
      else if is_digit b then
        read_exp_digits (if e <? 10000 then e * 10 + (b - 48) else e) us rest
      else (e, us, s)
  end.

Record scanned := mkScanned {
  sc_neg : bool; sc_hex : bool; sc_mant : Z; sc_exp : Z;
  sc_underscores : bool; sc_rest : string
}.

(** The exponent part, after the mantissa [st] was read up to [s]. *)
Definition read_exponent (neg hex : bool) (st : mant) (s : string) : option scanned :=
  let dp0 := if m_sawdot st then m_dp st else m_nd st in
  let dp := if hex then dp0 * 4 else dp0 in
  let nd := if hex then m_nd st * 4 else m_nd st in
  let expChar := if hex then 112 else 101 in
  let finish dp us rest :=
    Some (mkScanned neg hex (m_val st) (if m_val st =? 0 then 0 else dp - nd) us rest) in
  match s with
  | String c rest =>
      if lower c =? expChar then
        match rest with
        | EmptyString => None
        | String c1 rest1 =>
            let esign := if byte c1 =? 45 then -1 else 1 in
            let digits := if (byte c1 =? 43) || (byte c1 =? 45) then rest1 else rest in
            match digits with
            | EmptyString => None
            | String c2 _ =>
                if is_digit (byte c2) then
                  let '(e, us, rest2) := read_exp_digits 0 (m_underscores st) digits in
                  finish (dp + e * esign) us rest2
                else None
            end
        end
      else if hex then None
      else finish dp (m_underscores st) s
  | EmptyString => if hex then None else finish dp (m_underscores st) s
  end.

Definition readFloat (s : string) : option scanned :=
  match s with
  | EmptyString => None
  | String c rest =>
      let neg := byte c =? 45 in
      let s1 := if (byte c =? 43) || neg then rest else s in
      let '(hex, s2) :=
        match s1 with
        | String z (String x (String c3 rest3)) =>
            if (byte z =? 48) && (lower x =? 120) then (true, String c3 rest3) else (false, s1)
        | _ => (false, s1)
        end in
      let '(st, s3) := read_mantissa (if hex then 16 else 10)
                         (mkMant 0 0 0 false false false) s2 in
      if m_sawdigits st then read_exponent neg hex st s3 else None
  end.

Inductive Saw := SawStart | SawDigit | SawUnderscore | SawOther.

Fixpoint underscoreOK_loop (hex : bool) (saw : Saw) (s : string) : bool :=
  match s with
  | EmptyString => match saw with SawUnderscore => false | _ => true end
  | String c rest =>
      if is_digit (byte c) || (hex && is_hex_letter c) then underscoreOK_loop hex SawDigit rest
      else if byte c =? 95 then
        match saw with SawDigit => underscoreOK_loop hex SawUnderscore rest | _ => false end
      else
        match saw with SawUnderscore => false | _ => underscoreOK_loop hex SawOther rest end
  end.

Definition underscoreOK (s : string) : bool :=
  let s1 := match s with
            | String c rest => if (byte c =? 45) || (byte c =? 43) then rest else s
            | EmptyString => s
            end in
  match s1 with
  | String z (String x rest) =>
      if (byte z =? 48) && ((lower x =? 98) || (lower x =? 111) || (lower x =? 120))
      then underscoreOK_loop (lower x =? 120) SawDigit rest
      else underscoreOK_loop false SawStart s1
  | _ => underscoreOK_loop false SawStart s1
  end.

(** [special]: [inf], [infinity] (with an optional sign) and [nan] (without
    one), in any letter case. *)
Definition to_lower_ascii (c : ascii) : ascii :=
  if (65 <=? byte c) && (byte c <=? 90) then ascii_of_N (N_of_ascii c + 32) else c.

Fixpoint to_lower (s : string) : string :=
  match s with
  | EmptyString => EmptyString
  | String c rest => String (to_lower_ascii c) (to_lower rest)
  end.

Definition special (s : string) : option float :=
  match s with
  | EmptyString => None
  | String c rest =>
      let signed := (byte c =? 43) || (byte c =? 45) in
      let body := to_lower (if signed then rest else s) in
      if string_eqb body "inf" || string_eqb body "infinity"
      then Some (if byte c =? 45 then neg_infinity else infinity)
      else if negb signed && string_eqb body "nan" then Some nan
      else None
  end.

Definition ParseFloat64 (s : string) : float * option Err :=
  match special s with
  | Some f => (f, None)
  | None =>
      match readFloat s with
      | Some sc =>
          if string_eqb (sc_rest sc) "" && (negb (sc_underscores sc) || underscoreOK s) then
            let v := scale (sc_neg sc) (sc_mant sc) (if sc_hex sc then 2 else 10) (sc_exp sc) in
            (v, if is_infinity v then Some ErrRange else None)
          else (zero, Some ErrSyntax)
      | None => (zero, Some ErrSyntax)
      end
  end.

End strconv.

(** ** Package [math] and numeric conversions *)

(** [float64(n)] for an integer [n]: the nearest binary64 value. *)
Definition float64_of_Z (n : Z) : float :=
  SF2Prim (binary_normalize prec emax n 0 false).

(** [int32(n)]: the low 32 bits of [n], read as a signed number. *)
Definition int32 (n : Z) : Z := (n + 2 ^ 31) mod 2 ^ 32 - 2 ^ 31.

Module math.

(** [math.Round]: the nearest integer, halves away from zero; zeros, infinities
    and [NaN] are returned as they are. *)
Definition Round (x : float) : float :=
  match Prim2SF x with
  | S754_finite s m e =>
      if 0 <=? e then x
      else
        let d := 2 ^ (- e) in
        let q := Zpos m / d in
        let q' := if d <=? 2 * (Zpos m mod d) then q + 1 else q in
        if q' =? 0 then (if s then neg_zero else zero)
        else SF2Prim (binary_normalize prec emax (if s then - q' else q') 0 false)
  | _ => x
  end.

End math.

(** ** Package [time]

    A [time.Time] is a count of nanoseconds since Go's zero time (the value
    of an unset [time.Time] variable); a [time.Duration] is a signed 64-bit
    count of nanoseconds, and a difference that does not fit is clamped. *)
Module time.

Definition Time := Z.
Definition Duration := Z.
Definition zero : Time := 0.

Definition Second : Duration := 1000000000.
Definition Minute : Duration := 60 * Second.

Definition maxDuration : Duration := 2 ^ 63 - 1.
Definition minDuration : Duration := - 2 ^ 63.

(** [t.Sub(u)] *)
Definition Sub (t u : Time) : Duration :=
  Z.max minDuration (Z.min maxDuration (t - u)).

End time.

(** ** The external collaborators' data

    The structs of [gopsutil] that the package receives, with the fields it
    reads and the [float64] fields, on which their [String()] depends.
    [error] is Go's [error]: [None] is [nil], [Some msg] an error
    whose [Error()] text is [msg]. *)

Definition error := option string.

Module cpu.
Record InfoStat := mkInfoStat { ModelName : string; VendorID : string; Cores : Z }.
End cpu.

Module disk.
Record PartitionStat := mkPartitionStat {
  Device : string; Mountpoint : string; Fstype : string; Opts : list string }.
Record UsageStat := mkUsageStat {
  Path : string; UFstype : string; Total : Z; Free : Z; Used : Z; UsedPercent : float;
  InodesUsedPercent : float }.
Record IOCountersStat := mkIOCountersStat { ReadCount : Z; WriteCount : Z; IOName : string }.
End disk.

Module host.
Record InfoStat := mkInfoStat { Hostname : string; Uptime : Z; OS : string; Platform : string }.
End host.

Module mem.
Record VirtualMemoryStat := mkVirtualMemoryStat {
  Total : Z; Available : Z; Used : Z; UsedPercent : float; Free : Z }.
End mem.

Module net.
Record IOCountersStat := mkIOCountersStat { Name : string; BytesSent : Z; BytesRecv : Z }.
End net.

Module windows.
(** The drive types, as the comment in [isVirtualDisk] lists them:
    2 removable, 3 fixed, 4 remote, 5 CD-ROM, 6 RAM disk. *)
Definition DRIVE_REMOVABLE : Z := 2.
Definition DRIVE_FIXED : Z := 3.
Definition DRIVE_REMOTE : Z := 4.
Definition DRIVE_CDROM : Z := 5.
Definition DRIVE_RAMDISK : Z := 6.

Fixpoint has_nul (s : string) : bool :=
  match s with
  | EmptyString => false
  | String c rest => (byte c =? 0) || has_nul rest
  end.

(** [windows.UTF16PtrFromString]: a path with a NUL byte gives a nil
    pointer and an error. *)
Definition UTF16PtrFromString (s : string) : option string * error :=
  if has_nul s then (None, Some "invalid argument") else (Some s, None).
End windows.

(** ** Package [gtm], file [devices.go] *)
Module Devices.

(** *** The package's types *)

Definition FileSystemType := Z.
Definition APFS : FileSystemType := 0.
Definition exFAT : FileSystemType := 1.
Definition FAT : FileSystemType := 2.
Definition FAT32 : FileSystemType := 3.
Definition EXT : FileSystemType := 4.
Definition EXT2 : FileSystemType := 5.
Definition EXT3 : FileSystemType := 6.
Definition EXT4 : FileSystemType := 7.
Definition NTFS : FileSystemType := 8.
Definition JFS : FileSystemType := 9.
Definition ZFS : FileSystemType := 10.

Definition CPU_STATS_UPDATE_INTERVAL : time.Duration := time.Second.
Definition DISK_STATS_UPDATE_INTERVAL : time.Duration := time.Minute.
Definition GPU_STATS_UPDATE_INTERVAL : time.Duration := time.Second.
Definition HOST_INFO_UPDATE_INTERVAL : time.Duration := time.Second.
Definition MEM_STATS_UPDATE_INTERVAL : time.Duration := time.Second.
Definition NET_STATS_UPDATE_INTERVAL : time.Duration := time.Second.

Module CPU.
Record t := mk { Id : Z; Name : string; Vendor : string; CountPhysical : Z; CountLogical : Z }.
End CPU.

Module CPUStats.
Record t := mk { UsagePercent : float }.
End CPUStats.

Module DiskStats.
Record t := mk {
  Mountpoint : string; Device : string; FSType : FileSystemType; IsVirtualDisk : bool;
  Free : Z; Used : Z; UsedPercent : float; Total : Z }.
(** The zero value, as [make([]DiskStats, n)] fills a slice. *)
Definition zero : t := mk "" "" 0 false 0 0 PrimFloat.zero 0.
End DiskStats.

Module GPU.
Record t := mk { Name : string; Vendor : string }.
End GPU.

Module GPUStats.
Record t := mk {
  Id : Z; Load : float; MemoryUsage : float; MemoryTotal : float;
  Power : float; Temperature : Z }.
End GPUStats.

(** A pointer to a struct the provider allocated: [nil], or the address of
    a cell of the matching heap of the [State]. *)
Inductive ptr := nil | addr (a : nat).

Definition ptr_eqb (p q : ptr) : bool :=
  match p, q with
  | nil, nil => true
  | addr a, addr b => Nat.eqb a b
  | _, _ => false
  end.

(** *** What the program does to the outside world *)

Inductive Provider :=
| CpuInfo | CpuPercent
| DiskPartitions | DiskUsage (path : string) | DiskIOCounters (path : string)
| GetDriveType (path : option string)
| HostInfo | VirtualMemory | NetIOCounters.

Inductive Level := LevelDebug | LevelError.

Inductive Event :=
| EvClock                                         (* [time.Now] or [time.Since] reads the clock *)
| EvRun (name : string)                           (* [exec.Command(name).Run()] *)
| EvOutput (name : string) (args : list string)   (* [exec.Command(name, args...).Output()] *)
| EvCall (p : Provider).                          (* a call of the OS telemetry provider *)

(** The outside world: what each external call answers when it is the
    [n]-th external call the program makes ([n] is the length of the trace
    so far).
    [json_*] are the members [encoding/json] renders inside the braces of
    an object, for the structs whose [String()] the program measures. *)
Record Env := mkEnv {
  GOOS : string;
  clock : nat -> time.Time;
  exec_Run : nat -> string -> error;
  exec_Output : nat -> string -> list string -> string * error;
  cpu_Info : nat -> list cpu.InfoStat * error;
  cpu_Percent : nat -> list float * error;
  disk_Partitions : nat -> list disk.PartitionStat * error;
  disk_Usage : nat -> string -> option disk.UsageStat * error;
  disk_IOCounters : nat -> string -> list (string * disk.IOCountersStat) * error;
  windows_GetDriveType : nat -> option string -> Z;
  host_Info : nat -> option host.InfoStat * error;
  mem_VirtualMemory : nat -> option mem.VirtualMemoryStat * error;
  net_IOCounters : nat -> list net.IOCountersStat * error;
  json_host : host.InfoStat -> string;
  json_mem : mem.VirtualMemoryStat -> string
}.

(** *** The package-level variables

    A slice is a list, [nil] and the empty slice being one value: the two
    tests against [nil] in the file ([cpuInfo], [gpuStats]) are on
    variables that only ever hold [nil] or the result of an [append], so
    they are tests for emptiness.  [gpuInfo] points to the one [GPU] struct
    [init] allocates; the struct is stored in its place. *)
Record State := mkState {
  cpuInfo : list CPU.t;
  cpuStats : list CPUStats.t;
  disksStats : list DiskStats.t;
  gpuInfo : GPU.t;
  gpuStats : list GPUStats.t;
  hostInfo : ptr;
  memInfo : ptr;
  netInfo : list net.IOCountersStat;
  lastFetchCPU : time.Time;
  lastFetchDisk : time.Time;
  lastFetchGPU : time.Time;
  lastFetchHost : time.Time;
  lastFetchMem : time.Time;
  lastFetchNet : time.Time;
  hasGPU : bool;
  hostname : string;
  hostHeap : list host.InfoStat;            (* cells of [*host.InfoStat] *)
  memHeap : list mem.VirtualMemoryStat;     (* cells of [*mem.VirtualMemoryStat] *)
  trace : list Event;                       (* the external calls so far, oldest first *)
  logs : list (Level * string)              (* what [slog] was given, oldest first *)
}.

(** The state after [init()]. *)
Definition init : State :=
  mkState [] [] [] (GPU.mk "" "") [] nil nil []
          time.zero time.zero time.zero time.zero time.zero time.zero
          false "" [] [] [] [].

(** Updates of one variable. *)
Definition set_cpuInfo v s :=
  mkState v (cpuStats s) (disksStats s) (gpuInfo s) (gpuStats s)
    (hostInfo s) (memInfo s) (netInfo s)
    (lastFetchCPU s) (lastFetchDisk s) (lastFetchGPU s) (lastFetchHost s) (lastFetchMem s) (lastFetchNet s)
    (hasGPU s) (hostname s) (hostHeap s) (memHeap s) (trace s) (logs s).
Definition set_cpuStats v s :=
  mkState (cpuInfo s) v (disksStats s) (gpuInfo s) (gpuStats s)
    (hostInfo s) (memInfo s) (netInfo s)
    (lastFetchCPU s) (lastFetchDisk s) (lastFetchGPU s) (lastFetchHost s) (lastFetchMem s) (lastFetchNet s)
    (hasGPU s) (hostname s) (hostHeap s) (memHeap s) (trace s) (logs s).
Definition set_disksStats v s :=
  mkState (cpuInfo s) (cpuStats s) v (gpuInfo s) (gpuStats s)
    (hostInfo s) (memInfo s) (netInfo s)
    (lastFetchCPU s) (lastFetchDisk s) (lastFetchGPU s) (lastFetchHost s) (lastFetchMem s) (lastFetchNet s)
    (hasGPU s) (hostname s) (hostHeap s) (memHeap s) (trace s) (logs s).
Definition set_gpuInfo v s :=
  mkState (cpuInfo s) (cpuStats s) (disksStats s) v (gpuStats s)
    (hostInfo s) (memInfo s) (netInfo s)
    (lastFetchCPU s) (lastFetchDisk s) (lastFetchGPU s) (lastFetchHost s) (lastFetchMem s) (lastFetchNet s)
    (hasGPU s) (hostname s) (hostHeap s) (memHeap s) (trace s) (logs s).
Definition set_gpuStats v s :=
  mkState (cpuInfo s) (cpuStats s) (disksStats s) (gpuInfo s) v
    (hostInfo s) (memInfo s) (netInfo s)
    (lastFetchCPU s) (lastFetchDisk s) (lastFetchGPU s) (lastFetchHost s) (lastFetchMem s) (lastFetchNet s)
    (hasGPU s) (hostname s) (hostHeap s) (memHeap s) (trace s) (logs s).
Definition set_hostInfo v s :=
  mkState (cpuInfo s) (cpuStats s) (disksStats s) (gpuInfo s) (gpuStats s)
    v (memInfo s) (netInfo s)
    (lastFetchCPU s) (lastFetchDisk s) (lastFetchGPU s) (lastFetchHost s) (lastFetchMem s) (lastFetchNet s)
    (hasGPU s) (hostname s) (hostHeap s) (memHeap s) (trace s) (logs s).
Definition set_memInfo v s :=
  mkState (cpuInfo s) (cpuStats s) (disksStats s) (gpuInfo s) (gpuStats s)
    (hostInfo s) v (netInfo s)
    (lastFetchCPU s) (lastFetchDisk s) (lastFetchGPU s) (lastFetchHost s) (lastFetchMem s) (lastFetchNet s)
    (hasGPU s) (hostname s) (hostHeap s) (memHeap s) (trace s) (logs s).
Definition set_netInfo v s :=
  mkState (cpuInfo s) (cpuStats s) (disksStats s) (gpuInfo s) (gpuStats s)
    (hostInfo s) (memInfo s) v
    (lastFetchCPU s) (lastFetchDisk s) (lastFetchGPU s) (lastFetchHost s) (lastFetchMem s) (lastFetchNet s)
    (hasGPU s) (hostname s) (hostHeap s) (memHeap s) (trace s) (logs s).
Definition set_lastFetchCPU v s :=
  mkState (cpuInfo s) (cpuStats s) (disksStats s) (gpuInfo s) (gpuStats s)
    (hostInfo s) (memInfo s) (netInfo s)
    v (lastFetchDisk s) (lastFetchGPU s) (lastFetchHost s) (lastFetchMem s) (lastFetchNet s)
    (hasGPU s) (hostname s) (hostHeap s) (memHeap s) (trace s) (logs s).
Definition set_lastFetchDisk v s :=
  mkState (cpuInfo s) (cpuStats s) (disksStats s) (gpuInfo s) (gpuStats s)
    (hostInfo s) (memInfo s) (netInfo s)
    (lastFetchCPU s) v (lastFetchGPU s) (lastFetchHost s) (lastFetchMem s) (lastFetchNet s)
    (hasGPU s) (hostname s) (hostHeap s) (memHeap s) (trace s) (logs s).
Definition set_lastFetchGPU v s :=
  mkState (cpuInfo s) (cpuStats s) (disksStats s) (gpuInfo s) (gpuStats s)
    (hostInfo s) (memInfo s) (netInfo s)
    (lastFetchCPU s) (lastFetchDisk s) v (lastFetchHost s) (lastFetchMem s) (lastFetchNet s)
    (hasGPU s) (hostname s) (hostHeap s) (memHeap s) (trace s) (logs s).
Definition set_lastFetchHost v s :=
  mkState (cpuInfo s) (cpuStats s) (disksStats s) (gpuInfo s) (gpuStats s)
    (hostInfo s) (memInfo s) (netInfo s)
    (lastFetchCPU s) (lastFetchDisk s) (lastFetchGPU s) v (lastFetchMem s) (lastFetchNet s)
    (hasGPU s) (hostname s) (hostHeap s) (memHeap s) (trace s) (logs s).
Definition set_lastFetchMem v s :=
  mkState (cpuInfo s) (cpuStats s) (disksStats s) (gpuInfo s) (gpuStats s)
    (hostInfo s) (memInfo s) (netInfo s)
    (lastFetchCPU s) (lastFetchDisk s) (lastFetchGPU s) (lastFetchHost s) v (lastFetchNet s)
    (hasGPU s) (hostname s) (hostHeap s) (memHeap s) (trace s) (logs s).
Definition set_lastFetchNet v s :=
  mkState (cpuInfo s) (cpuStats s) (disksStats s) (gpuInfo s) (gpuStats s)
    (hostInfo s) (memInfo s) (netInfo s)
    (lastFetchCPU s) (lastFetchDisk s) (lastFetchGPU s) (lastFetchHost s) (lastFetchMem s) v
    (hasGPU s) (hostname s) (hostHeap s) (memHeap s) (trace s) (logs s).
Definition set_hasGPU v s :=
  mkState (cpuInfo s) (cpuStats s) (disksStats s) (gpuInfo s) (gpuStats s)
    (hostInfo s) (memInfo s) (netInfo s)
    (lastFetchCPU s) (lastFetchDisk s) (lastFetchGPU s) (lastFetchHost s) (lastFetchMem s) (lastFetchNet s)
    v (hostname s) (hostHeap s) (memHeap s) (trace s) (logs s).
Definition set_hostname v s :=
  mkState (cpuInfo s) (cpuStats s) (disksStats s) (gpuInfo s) (gpuStats s)
    (hostInfo s) (memInfo s) (netInfo s)
    (lastFetchCPU s) (lastFetchDisk s) (lastFetchGPU s) (lastFetchHost s) (lastFetchMem s) (lastFetchNet s)
    (hasGPU s) v (hostHeap s) (memHeap s) (trace s) (logs s).
Definition set_hostHeap v s :=
  mkState (cpuInfo s) (cpuStats s) (disksStats s) (gpuInfo s) (gpuStats s)
    (hostInfo s) (memInfo s) (netInfo s)
    (lastFetchCPU s) (lastFetchDisk s) (lastFetchGPU s) (lastFetchHost s) (lastFetchMem s) (lastFetchNet s)
    (hasGPU s) (hostname s) v (memHeap s) (trace s) (logs s).
Definition set_memHeap v s :=
  mkState (cpuInfo s) (cpuStats s) (disksStats s) (gpuInfo s) (gpuStats s)
    (hostInfo s) (memInfo s) (netInfo s)
    (lastFetchCPU s) (lastFetchDisk s) (lastFetchGPU s) (lastFetchHost s) (lastFetchMem s) (lastFetchNet s)
    (hasGPU s) (hostname s) (hostHeap s) v (trace s) (logs s).
Definition set_trace v s :=
  mkState (cpuInfo s) (cpuStats s) (disksStats s) (gpuInfo s) (gpuStats s)
    (hostInfo s) (memInfo s) (netInfo s)
    (lastFetchCPU s) (lastFetchDisk s) (lastFetchGPU s) (lastFetchHost s) (lastFetchMem s) (lastFetchNet s)
    (hasGPU s) (hostname s) (hostHeap s) (memHeap s) v (logs s).
Definition set_logs v s :=
  mkState (cpuInfo s) (cpuStats s) (disksStats s) (gpuInfo s) (gpuStats s)
    (hostInfo s) (memInfo s) (netInfo s)
    (lastFetchCPU s) (lastFetchDisk s) (lastFetchGPU s) (lastFetchHost s) (lastFetchMem s) (lastFetchNet s)
    (hasGPU s) (hostname s) (hostHeap s) (memHeap s) (trace s) v.

(** *** The monad: state, and a panic that ends the run

    A Go panic is never recovered in this package, so it ends the calling
    process; the state at the panic is kept for inspection. *)
Inductive Outcome (A : Type) :=
| Done (a : A) (s : State)
| Panic (msg : string) (s : State).
Arguments Done {A} a s.
Arguments Panic {A} msg s.

Definition M (A : Type) := State -> Outcome A.

Definition ret {A} (a : A) : M A := fun s => Done a s.

Definition bind {A B} (m : M A) (k : A -> M B) : M B :=
  fun s => match m s with
           | Done a s' => k a s'
           | Panic msg s' => Panic msg s'
           end.

Notation "x <- m ;; k" := (bind m (fun x => k))
  (at level 61, m at next level, right associativity).
Notation "' pat <- m ;; k" := (bind m (fun x => match x with pat => k end))
  (at level 61, pat pattern, m at next level, right associativity).
Notation "m ;; k" := (bind m (fun _ => k))
  (at level 61, right associativity).

Definition panic {A} (msg : string) : M A := fun s => Panic msg s.
Definition gets {A} (f : State -> A) : M A := fun s => Done (f s) s.
Definition modify (f : State -> State) : M unit := fun s => Done tt (f s).

(** The state an outcome ends in, and its value when there is one. *)
Definition final {A} (o : Outcome A) : State :=
  match o with Done _ s => s | Panic _ s => s end.
Definition value {A} (o : Outcome A) : option A :=
  match o with Done a _ => Some a | Panic _ _ => None end.
Definition panics {A} (o : Outcome A) : bool :=
  match o with Done _ _ => false | Panic _ _ => true end.

(** Go's run-time checks. *)
Definition index {A} (l : list A) (i : nat) : M A :=
  match nth_error l i with
  | Some a => ret a
  | None => panic "runtime error: index out of range"
  end.

Definition deref {A} (heap : State -> list A) (p : ptr) : M A :=
  match p with
  | nil => panic "runtime error: invalid memory address or nil pointer dereference"
  | addr a =>
      h <- gets heap ;;
      match nth_error h a with
      | Some v => ret v
      | None => panic "runtime error: invalid memory address or nil pointer dereference"
      end
  end.

Definition when (b : bool) (m : M unit) : M unit := if b then m else ret tt.

(** [err != nil] *)
Definition is_err {E} (e : option E) : bool := match e with Some _ => true | None => false end.
Definition Error (e : error) : string := match e with Some msg => msg | None => "" end.

Definition LF : string := String (ascii_of_nat 10) EmptyString.   (* "\n" *)
Definition CR : string := String (ascii_of_nat 13) EmptyString.   (* "\r" *)

Fixpoint update_nth {A} (i : nat) (v : A) (l : list A) : list A :=
  match l, i with
  | [], _ => []
  | _ :: r, O => v :: r
  | x :: r, S j => x :: update_nth j v r
  end.

(** [for _, x := range l { body }] and [for i, x := range l { body }] *)
Fixpoint for_each {A} (l : list A) (body : A -> M unit) : M unit :=
  match l with
  | [] => ret tt
  | x :: r => body x ;; for_each r body
  end.

Fixpoint for_each_i {A} (i : nat) (l : list A) (body : nat -> A -> M unit) : M unit :=
  match l with
  | [] => ret tt
  | x :: r => body i x ;; for_each_i (S i) r body
  end.

Definition convertFSType (fsType : string) : FileSystemType :=
  if string_eqb fsType "APFS" then APFS
  else if string_eqb fsType "exFAT" then exFAT
  else if string_eqb fsType "FAT" then FAT
  else if string_eqb fsType "FAT32" then FAT32
  else if string_eqb fsType "EXT" then EXT
  else if string_eqb fsType "EXT2" then EXT2
  else if string_eqb fsType "EXT3" then EXT3
  else if string_eqb fsType "EXT4" then EXT4
  else if string_eqb fsType "NTFS" then NTFS
  else if string_eqb fsType "JFS" then JFS
  else if string_eqb fsType "ZFS" then ZFS
  else -1.

Section WithEnv.

Variable env : Env.

(** An external call: the oracle answers for this point of the trace,
    and the call is appended to the trace. *)
Definition ask {A} (e : Event) (oracle : nat -> A) : M A :=
  fun s => Done (oracle (List.length (trace s))) (set_trace (trace s ++ [e])%list s).

(** [slog.Error], [slog.Debug].  The message is recorded up to the text
    the source builds from literals and [err.Error()]; the rendering of a
    struct appended to it is left out. *)
Definition slog_Error (msg : string) : M unit :=
  modify (fun s => set_logs (logs s ++ [(LevelError, msg)])%list s).
Definition slog_Debug (msg : string) : M unit :=
  modify (fun s => set_logs (logs s ++ [(LevelDebug, msg)])%list s).

Definition time_Now : M time.Time := ask EvClock (clock env).

(** [time.Since(v)] for a package variable [v]. *)
Definition time_Since (v : State -> time.Time) : M time.Duration :=
  t <- gets v ;;
  now <- time_Now ;;
  ret (time.Sub now t).

(** The methods [String()] of [host.InfoStat] and
    [mem.VirtualMemoryStat] have value receivers and return
    [json.Marshal] of the struct with the error dropped: the JSON object,
    or the empty string when the encoding fails.  It fails on a [float64]
    that is NaN or infinite: [UsedPercent] is the one [float64] of
    [mem.VirtualMemoryStat], and [host.InfoStat] has none.  Called through
    a pointer the methods dereference it first. *)
Definition host_String (p : ptr) : M string :=
  h <- deref hostHeap p ;;
  ret ("{" ++ json_host env h ++ "}").

Definition VirtualMemoryStat_String (m : mem.VirtualMemoryStat) : string :=
  if PrimFloat.is_finite (mem.UsedPercent m) then "{" ++ json_mem env m ++ "}" else "".

Definition mem_String (p : ptr) : M string :=
  m <- deref memHeap p ;;
  ret (VirtualMemoryStat_String m).

(** The provider hands out a pointer to a struct of its own making. *)
Definition new_host (v : option host.InfoStat) : M ptr :=
  match v with
  | None => ret nil
  | Some h =>
      hp <- gets hostHeap ;;
      modify (set_hostHeap (hp ++ [h])%list) ;;
      ret (addr (List.length hp))
  end.

Definition new_mem (v : option mem.VirtualMemoryStat) : M ptr :=
  match v with
  | None => ret nil
  | Some m =>
      hp <- gets memHeap ;;
      modify (set_memHeap (hp ++ [m])%list) ;;
      ret (addr (List.length hp))
  end.

(** **** CPU *)

Definition GetCPUInfo : M (list CPU.t) :=
  ci <- gets cpuInfo ;;
  if negb (Nat.eqb (List.length ci) 0) then ret ci
  else
    ' (cInfo, err) <- ask (EvCall CpuInfo) (cpu_Info env) ;;
    when (is_err err) (slog_Error ("Failed to retrieve cpu.Info()! " ++ Error err)) ;;
    for_each cInfo (fun c =>
      slog_Debug "cpu.Info(): " ;;
      let info := CPU.mk 0 (cpu.ModelName c) (cpu.VendorID c) (cpu.Cores c) 0 in
      modify (fun s => set_cpuInfo (cpuInfo s ++ [info])%list s)) ;;
    gets cpuInfo.

Definition formatCPUModelName (cpuName : string) : M string :=
  ci <- gets cpuInfo ;;
  c0 <- index ci 0 ;;
  if string_eqb (CPU.Vendor c0) "GenuineIntel" then
    let cpuName := strings.ReplaceAll cpuName "(R)" "" in
    let cpuName := strings.ReplaceAll cpuName "(TM)" "" in
    let cpuName := strings.ReplaceAll cpuName "CPU @ " "@" in
    let cpuName := strings.ReplaceAll cpuName "Core " "" in
    ret cpuName
  else ret cpuName.

Definition GetCPUModelName : M string :=
  ci <- gets cpuInfo ;;
  when (Nat.eqb (List.length ci) 0) (_ <- GetCPUInfo ;; ret tt) ;;
  ci <- gets cpuInfo ;;
  c0 <- index ci 0 ;;
  formatCPUModelName (CPU.Name c0).

Definition GetCPUStats : M (list CPUStats.t) :=
  cs <- gets cpuStats ;;
  fresh <- (if negb (Nat.eqb (List.length cs) 0)
            then since <- time_Since lastFetchCPU ;;
                 ret (since <? CPU_STATS_UPDATE_INTERVAL)
            else ret false) ;;
  if fresh then gets cpuStats
  else
    ' (cpuPct, err) <- ask (EvCall CpuPercent) (cpu_Percent env) ;;
    when (is_err err) (slog_Error ("Failed to fetch cpu.Percent() !" ++ Error err)) ;;
    now <- time_Now ;;
    modify (set_lastFetchCPU now) ;;
    pct <- index cpuPct 0 ;;
    let stats := CPUStats.mk pct in
    modify (fun s => set_cpuStats (cpuStats s ++ [stats])%list s) ;;
    gets cpuStats.

(** **** Disks *)

Definition isVirtualDisk (path : string) : M bool :=
  if string_eqb (GOOS env) "windows" then
    let '(d, err) := windows.UTF16PtrFromString path in
    when (is_err err)
      (slog_Error ("Failed to get UTF16 pointer from string: " ++ path ++ "! " ++ Error err)) ;;
    driveType <- ask (EvCall (GetDriveType d)) (fun n => windows_GetDriveType env n d) ;;
    if driveType =? windows.DRIVE_RAMDISK then
      slog_Debug (path ++ " is a RAMDISK") ;;
      ret true
    else if driveType =? windows.DRIVE_FIXED then
      ' (io, _) <- ask (EvCall (DiskIOCounters path)) (fun n => disk_IOCounters env n path) ;;
      match List.length io with
      | O =>
          slog_Debug ("drive " ++ path ++ " IS a RAMDISK") ;;
          ret true
      | S _ =>
          slog_Debug ("disk.IOCounters(" ++ path ++ "): ") ;;
          ret false
      end
    else
      slog_Debug (path ++ " is not a RAMDISK") ;;
      ret false
  else
    slog_Debug "Not on windows... ignoring RAMDISK check ..." ;;
    ret false.

Definition GetDisksStats : M (list DiskStats.t) :=
  since <- time_Since lastFetchDisk ;;
  ds <- gets disksStats ;;
  if (since <? DISK_STATS_UPDATE_INTERVAL) && negb (Nat.eqb (List.length ds) 0) then gets disksStats
  else
    ' (dInfo, err) <- ask (EvCall DiskPartitions) (disk_Partitions env) ;;
    when (is_err err) (slog_Error ("Failed to retrieve disk.Partitions()! " ++ Error err)) ;;
    now <- time_Now ;;
    modify (set_lastFetchDisk now) ;;
    modify (set_disksStats (repeat DiskStats.zero (List.length dInfo))) ;;
    for_each_i 0 dInfo (fun i dsk =>
      let mp := disk.Mountpoint dsk in
      ' (usage, err) <- ask (EvCall (DiskUsage mp)) (fun n => disk_Usage env n mp) ;;
      when (is_err err)
        (slog_Error ("Failed to retrieve disk.Usage(" ++ mp ++ ")! " ++ Error err)) ;;
      slog_Debug "disk: " ;;
      (* [usage.String()] has a value receiver: a nil [usage] panics here *)
      u <- match usage with
           | Some u => ret u
           | None => panic "runtime error: invalid memory address or nil pointer dereference"
           end ;;
      slog_Debug "usage: " ;;
      let fsType := convertFSType (disk.UFstype u) in
      isVDisk <- isVirtualDisk mp ;;
      let usedPercent :=
        PrimFloat.div
          (math.Round (PrimFloat.div (PrimFloat.mul (disk.UsedPercent u) 100) 100)) 100 in
      let stats := DiskStats.mk mp (disk.Device dsk) fsType isVDisk
                     (disk.Free u) (disk.Used u) usedPercent (disk.Total u) in
      modify (fun s => set_disksStats (update_nth i stats (disksStats s)) s)) ;;
    gets disksStats.

(** **** GPU *)

Definition set_gpuName (name : string) (s : State) : State :=
  set_gpuInfo (GPU.mk name (GPU.Vendor (gpuInfo s))) s.
Definition set_gpuVendor (vendor : string) (s : State) : State :=
  set_gpuInfo (GPU.mk (GPU.Name (gpuInfo s)) vendor) s.

Definition HasGPU : M bool :=
  h <- gets hasGPU ;;
  if h then gets hasGPU
  else
    err <- ask (EvRun "nvidia-smi") (fun n => exec_Run env n "nvidia-smi") ;;
    if negb (is_err err) then
      modify (set_gpuVendor "nvidia") ;;
      modify (set_hasGPU true) ;;
      gets hasGPU
    else
      err <- ask (EvRun "rocm-smi") (fun n => exec_Run env n "rocm-smi") ;;
      if negb (is_err err) then
        modify (set_gpuVendor "amd") ;;
        modify (set_hasGPU true) ;;
        gets hasGPU
      else
        slog_Error "HasGPU(): Could not find NVIDIA or AMD GPUs installed using SMI" ;;
        gets hasGPU.

(** One non-empty line of the tool's output.  The source declares [id],
    [load], ... before the loop; every pass assigns each of them before
    it builds the record, so a pass depends on its line alone. *)
Definition parseGPUNvidiaStats_line (line : string) : M unit :=
  let data := strings.Split line ", " in
  name <- index data 1 ;;
  modify (set_gpuName name) ;;
  d0 <- index data 0 ;;
  let '(id, err) := strconv.ParseInt d0 10 32 in
  when (is_err err) (slog_Error "Failed to parse GPU Id from string -> int ! ") ;;
  d2 <- index data 2 ;;
  let '(load, err) := strconv.ParseInt d2 10 32 in
  when (is_err err) (slog_Error "Failed to parse GPU Load from string -> int ! ") ;;
  d3 <- index data 3 ;;
  let '(memoryUsage, err) := strconv.ParseFloat64 d3 in
  when (is_err err) (slog_Error "Failed to parse float: memory.usage !") ;;
  let memoryUsage := if is_err err then PrimFloat.zero else memoryUsage in
  d4 <- index data 4 ;;
  let '(memoryTotal, err) := strconv.ParseFloat64 d4 in
  when (is_err err) (slog_Error "Failed to parse float: memory.total !") ;;
  let memoryTotal := if is_err err then PrimFloat.zero else memoryTotal in
  d5 <- index data 5 ;;
  let '(power, err) := strconv.ParseFloat64 d5 in
  when (is_err err) (slog_Error "Failed to parse float: power !") ;;
  d6 <- index data 6 ;;
  let t := strings.ReplaceAll d6 CR "" in
  let '(temp, err) := strconv.ParseInt t 10 32 in
  when (is_err err) (slog_Error "Failed to parse float: temp !") ;;
  let gpu := GPUStats.mk (int32 id) (PrimFloat.div (float64_of_Z load) 100)
               memoryUsage memoryTotal power (int32 temp) in
  modify (fun s => set_gpuStats (gpuStats s ++ [gpu])%list s).

(** The records are appended to the package variable [gpuStats] itself. *)
Definition parseGPUNvidiaStats (output : string) : M (list GPUStats.t) :=
  let info := strings.Split output LF in
  for_each info (fun line =>
    if negb (string_eqb line "") then parseGPUNvidiaStats_line line else ret tt) ;;
  gets gpuStats.

Definition nvidia_query : list string :=
  [ "--query-gpu=index,name,utilization.gpu,memory.used,memory.total,power.draw,temperature.gpu";
    "--format=csv,noheader,nounits" ].

Definition GetGPUStats : M (list GPUStats.t) :=
  since <- time_Since lastFetchGPU ;;
  g <- gets gpuStats ;;
  if (since <? GPU_STATS_UPDATE_INTERVAL) && negb (Nat.eqb (List.length g) 0) then gets gpuStats
  else
    vendor <- gets (fun s => GPU.Vendor (gpuInfo s)) ;;
    if string_eqb vendor "nvidia" then
      ' (data, err) <- ask (EvOutput "nvidia-smi" nvidia_query)
                           (fun n => exec_Output env n "nvidia-smi" nvidia_query) ;;
      if is_err err then
        slog_Error ("Failed to retrieve NVIDIA GPU data from nvidia-smi ! " ++ Error err) ;;
        ret []
      else
        parsed <- parseGPUNvidiaStats data ;;
        modify (set_gpuStats parsed) ;;
        now <- time_Now ;;
        modify (set_lastFetchGPU now) ;;
        gets gpuStats
    else if string_eqb vendor "amd" then
      slog_Error "AMD GPU not implemented yet !" ;;
      now <- time_Now ;;
      modify (set_lastFetchGPU now) ;;
      gets gpuStats
    else gets gpuStats.

Definition GPUName : M string := gets (fun s => GPU.Name (gpuInfo s)).

(** **** Host *)

Definition GetHostInfo : M ptr :=
  since <- time_Since lastFetchHost ;;
  fresh <- (if since <? HOST_INFO_UPDATE_INTERVAL
            then hi <- gets hostInfo ;;
                 str <- host_String hi ;;
                 ret (negb (Nat.eqb (String.length str) 0))
            else ret false) ;;
  if fresh then gets hostInfo
  else
    ' (h, err) <- ask (EvCall HostInfo) (host_Info env) ;;
    hInfo <- new_host h ;;
    when (is_err err) (slog_Error ("Failed to retrieve host.Info()! " ++ Error err)) ;;
    now <- time_Now ;;
    modify (set_lastFetchHost now) ;;
    modify (set_hostInfo hInfo) ;;
    hi <- gets hostInfo ;;
    _ <- host_String hi ;;
    slog_Debug "host.Info(): " ;;
    hv <- deref hostHeap hi ;;
    modify (set_hostname (host.Hostname hv)) ;;
    gets hostInfo.

Definition GetHostname : M string :=
  hn <- gets hostname ;;
  if negb (string_eqb hn "") then gets hostname
  else
    _ <- GetHostInfo ;;
    gets hostname.

(** **** Memory *)

Definition GetMemoryStats : M ptr :=
  since <- time_Since lastFetchMem ;;
  fresh <- (if since <? MEM_STATS_UPDATE_INTERVAL
            then mi <- gets memInfo ;;
                 str <- mem_String mi ;;
                 ret (negb (Nat.eqb (String.length str) 0))
            else ret false) ;;
  if fresh then gets memInfo
  else
    ' (m, err) <- ask (EvCall VirtualMemory) (mem_VirtualMemory env) ;;
    mInfo <- new_mem m ;;
    when (is_err err) (slog_Error ("Failed to retrieve mem.VirtualMemory()! " ++ Error err)) ;;
    now <- time_Now ;;
    modify (set_lastFetchMem now) ;;
    mi <- gets memInfo ;;
    if ptr_eqb mi nil then
      modify (set_memInfo mInfo) ;;
      gets memInfo
    else
      old <- deref memHeap mi ;;
      let oldUsedPercent := mem.UsedPercent old in
      cur <- deref memHeap mInfo ;;
      let currentUsedPercent := mem.UsedPercent cur in
      (* Go's [==] on [float64] *)
      if PrimFloat.eqb oldUsedPercent currentUsedPercent then gets memInfo
      else
        modify (set_memInfo mInfo) ;;
        mi' <- gets memInfo ;;
        _ <- mem_String mi' ;;
        slog_Debug "mem.VirtualMemory(): " ;;
        gets memInfo.

(** **** Network *)

Definition GetNetworkStats : M (list net.IOCountersStat) :=
  since <- time_Since lastFetchNet ;;
  ni <- gets netInfo ;;
  if (since <? NET_STATS_UPDATE_INTERVAL) && negb (Nat.eqb (List.length ni) 0) then gets netInfo
  else
    ' (nInfo, err) <- ask (EvCall NetIOCounters) (net_IOCounters env) ;;
    when (is_err err) (slog_Error ("Failed to retrieve net.IOCounters()! " ++ Error err)) ;;
    now <- time_Now ;;
    modify (set_lastFetchNet now) ;;
    modify (set_netInfo nInfo) ;;
    ni' <- gets netInfo ;;
    for_each_i 0 ni' (fun i iface =>
      slog_Debug "net.IOCounters(), interface #") ;;
    gets netInfo.

End WithEnv.

(** *** The package seen from a caller

    The exported functions, and the states a process can be in: those
    reached from [init] by calls that returned (a panic ends the
    process). *)
Inductive Op :=
| OpGetCPUInfo | OpGetCPUModelName | OpGetCPUStats | OpGetDisksStats
| OpHasGPU | OpGetGPUStats | OpGPUName
| OpGetHostInfo | OpGetHostname | OpGetMemoryStats | OpGetNetworkStats.

Definition discard {A} (m : M A) : M unit := _ <- m ;; ret tt.

Definition call (env : Env) (op : Op) : M unit :=
  match op with
  | OpGetCPUInfo => discard (GetCPUInfo env)
  | OpGetCPUModelName => discard (GetCPUModelName env)
  | OpGetCPUStats => discard (GetCPUStats env)
  | OpGetDisksStats => discard (GetDisksStats env)
  | OpHasGPU => discard (HasGPU env)
  | OpGetGPUStats => discard (GetGPUStats env)
  | OpGPUName => discard GPUName
  | OpGetHostInfo => discard (GetHostInfo env)
  | OpGetHostname => discard (GetHostname env)
  | OpGetMemoryStats => discard (GetMemoryStats env)
  | OpGetNetworkStats => discard (GetNetworkStats env)
  end.

(** [later env s s']: [s'] is [s] after some calls, all of which returned. *)
Inductive later (env : Env) : State -> State -> Prop :=
| later_refl s : later env s s
| later_call s s1 s2 op :
    later env s s1 -> call env op s1 = Done tt s2 -> later env s s2.

Definition reachable (env : Env) (s : State) : Prop := later env init s.

(** A non-nil pointer held by the package points into its heap. *)
Definition valid {A} (heap : list A) (p : ptr) : Prop :=
  match p with
  | nil => True
  | addr a => (a < List.length heap)%nat
  end.

Definition wf (s : State) : Prop :=
  valid (hostHeap s) (hostInfo s) /\ valid (memHeap s) (memInfo s).

(** *** The metric families with a refresh interval *)
Inductive Family := FCPU | FDisk | FGPU | FHost | FMem | FNet.

Inductive Value :=
| VCPU (v : list CPUStats.t)
| VDisk (v : list DiskStats.t)
| VGPU (v : list GPUStats.t)
| VHost (v : ptr)
| VMem (v : ptr)
| VNet (v : list net.IOCountersStat).

Definition accessor (env : Env) (f : Family) : M Value :=
  match f with
  | FCPU => v <- GetCPUStats env ;; ret (VCPU v)
  | FDisk => v <- GetDisksStats env ;; ret (VDisk v)
  | FGPU => v <- GetGPUStats env ;; ret (VGPU v)
  | FHost => v <- GetHostInfo env ;; ret (VHost v)
  | FMem => v <- GetMemoryStats env ;; ret (VMem v)
  | FNet => v <- GetNetworkStats env ;; ret (VNet v)
  end.

Definition interval (f : Family) : time.Duration :=
  match f with
  | FCPU => CPU_STATS_UPDATE_INTERVAL
  | FDisk => DISK_STATS_UPDATE_INTERVAL
  | FGPU => GPU_STATS_UPDATE_INTERVAL
  | FHost => HOST_INFO_UPDATE_INTERVAL
  | FMem => MEM_STATS_UPDATE_INTERVAL
  | FNet => NET_STATS_UPDATE_INTERVAL
  end.

Definition lastFetch (f : Family) (s : State) : time.Time :=
  match f with
  | FCPU => lastFetchCPU s
  | FDisk => lastFetchDisk s
  | FGPU => lastFetchGPU s
  | FHost => lastFetchHost s
  | FMem => lastFetchMem s
  | FNet => lastFetchNet s
  end.

(** The family's cache slot, and whether it holds a value. *)
Definition cache (f : Family) (s : State) : Value :=
  match f with
  | FCPU => VCPU (cpuStats s)
  | FDisk => VDisk (disksStats s)
  | FGPU => VGPU (gpuStats s)
  | FHost => VHost (hostInfo s)
  | FMem => VMem (memInfo s)
  | FNet => VNet (netInfo s)
  end.

Definition cached (f : Family) (s : State) : bool :=
  match cache f s with
  | VCPU v => negb (Nat.eqb (List.length v) 0)
  | VDisk v => negb (Nat.eqb (List.length v) 0)
  | VGPU v => negb (Nat.eqb (List.length v) 0)
  | VHost p => negb (ptr_eqb p nil)
  | VMem p => negb (ptr_eqb p nil)
  | VNet v => negb (Nat.eqb (List.length v) 0)
  end.

(** The cached value prints: its [String()] is not empty.  Only a memory
    record can fail to, when its used-percent is NaN or infinite. *)
Definition printable (f : Family) (s : State) : bool :=
  match f, memInfo s with
  | FMem, addr a =>
      match nth_error (memHeap s) a with
      | Some m => PrimFloat.is_finite (mem.UsedPercent m)
      | None => true
      end
  | _, _ => true
  end.

(** The family's underlying provider: the OS call or the spawned process
    that fetches its data. *)
Definition provider (f : Family) : Event :=
  match f with
  | FCPU => EvCall CpuPercent
  | FDisk => EvCall DiskPartitions
  | FGPU => EvOutput "nvidia-smi" nvidia_query
  | FHost => EvCall HostInfo
  | FMem => EvCall VirtualMemory
  | FNet => EvCall NetIOCounters
  end.

(** The time since the family's last recorded fetch, on the clock as the
    next call of the accessor reads it. *)
Definition elapsed (env : Env) (f : Family) (s : State) : time.Duration :=
  time.Sub (clock env (List.length (trace s))) (lastFetch f s).

(** An external process was spawned. *)
Definition is_process (e : Event) : bool :=
  match e with
  | EvRun _ | EvOutput _ _ => true
  | _ => false
  end.


(** The state after the clock was read and nothing else happened. *)
Definition ticked (s : State) : State := set_trace (trace s ++ [EvClock])%list s.

(** *** Relations between the state before and after a run *)

(** [keeps R m]: [R] relates every state to the state [m] ends in, returned
    or panicked. *)
Definition keeps (R : State -> State -> Prop) {A} (m : M A) : Prop :=
  forall s, R s (final (m s)).

(** The trace only grows. *)
Definition grows (s s' : State) : Prop := exists tr, trace s' = (trace s ++ tr)%list.

(** The vendor state is as it was. *)
Definition gpu_identity_kept (s s' : State) : Prop :=
  hasGPU s' = hasGPU s /\ GPU.Vendor (gpuInfo s') = GPU.Vendor (gpuInfo s).

(** *** The record of a line, field by field

    What [parseGPUNvidiaStats] builds from the fields [d0], [d2] ... [d6] of
    a line (the name [d1] goes to [gpuInfo]): each field is what [strconv]
    returned for it, the two memory fields being reset to 0 on an error. *)
Definition or_zero (r : float * option strconv.Err) : float :=
  if is_err (snd r) then PrimFloat.zero else fst r.

Definition record_of_fields (d0 d2 d3 d4 d5 d6 : string) : GPUStats.t :=
  GPUStats.mk
    (int32 (fst (strconv.ParseInt d0 10 32)))
    (PrimFloat.div (float64_of_Z (fst (strconv.ParseInt d2 10 32))) 100)
    (or_zero (strconv.ParseFloat64 d3))
    (or_zero (strconv.ParseFloat64 d4))
    (fst (strconv.ParseFloat64 d5))
    (int32 (fst (strconv.ParseInt (strings.ReplaceAll d6 CR "") 10 32))).

(** The names [convertFSType] knows. *)
Definition known_fs_types : list (string * FileSystemType) :=
  [ ("APFS", APFS); ("exFAT", exFAT); ("FAT", FAT); ("FAT32", FAT32); ("EXT", EXT);
    ("EXT2", EXT2); ("EXT3", EXT3); ("EXT4", EXT4); ("NTFS", NTFS); ("JFS", JFS);
    ("ZFS", ZFS) ].

(** The two heaps and the pointers into them are as they were. *)
Definition pointers_kept (s s' : State) : Prop :=
  hostInfo s' = hostInfo s /\ hostHeap s' = hostHeap s
  /\ memInfo s' = memInfo s /\ memHeap s' = memHeap s.

(** [hoare P m Q]: from a state in [P], if [m] returns, it returns a value
    and a state in [Q]. *)
Definition hoare (P : State -> Prop) {A} (m : M A) (Q : A -> State -> Prop) : Prop :=
  forall s, P s -> forall a s', m s = Done a s' -> Q a s'.

(** The invariant while a fetched pointer [p] waits to be stored. *)
Definition holding_host (p : ptr) (s : State) : Prop := wf s /\ valid (hostHeap s) p.
Definition holding_mem (p : ptr) (s : State) : Prop := wf s /\ valid (memHeap s) p.

(** The record of a line with seven fields or more, and the records of a
    whole output: one per non-empty line, in order. *)
Definition line_record (line : string) : option GPUStats.t :=
  match strings.Split line ", " with
  | d0 :: _ :: d2 :: d3 :: d4 :: d5 :: d6 :: _ => Some (record_of_fields d0 d2 d3 d4 d5 d6)
  | _ => None
  end.

Fixpoint records_of_lines (info : list string) : list GPUStats.t :=
  match info with
  | [] => []
  | line :: rest =>
      match (if string_eqb line "" then None else line_record line) with
      | Some r => r :: records_of_lines rest
      | None => records_of_lines rest
      end
  end.

Definition records (output : string) : list GPUStats.t :=
  records_of_lines (strings.Split output LF).

(** Every non-empty line of the output has its seven fields. *)
Definition complete_line (line : string) : bool :=
  string_eqb line "" || match line_record line with Some _ => true | None => false end.

Definition complete (output : string) : bool :=
  forallb complete_line (strings.Split output LF).

(** The pieces of state the parser leaves alone, and the samples it grows. *)
Definition parsed_onto (s s' : State) (rs : list GPUStats.t) : Prop :=
  gpuStats s' = (gpuStats s ++ rs)%list
  /\ GPU.Vendor (gpuInfo s') = GPU.Vendor (gpuInfo s)
  /\ lastFetchGPU s' = lastFetchGPU s
  /\ trace s' = trace s.

End Devices.

(** ** Package [gtm], the older source file

    The superseded version of the GPU functions.  It keeps the same data
    under other names, and is modelled over the same [State] with this
    renaming: its strings [gpuName] and [GPUVendor] are the fields [Name]
    and [Vendor] of [gpuInfo], its slice [gpuInfo []GPUData] is [gpuStats]
    ([GPUData] has the fields of [GPUStats]).  It has no [hasGPU] flag. *)
Module Legacy.
Import Devices.

Section WithEnv.

Variable env : Env.

Definition HasGPU : M bool :=
  err <- ask (EvRun "nvidia-smi") (fun n => exec_Run env n "nvidia-smi") ;;
  if negb (is_err err) then
    modify (set_gpuVendor "nvidia") ;;
    ret true
  else
    err <- ask (EvRun "rocm-smi") (fun n => exec_Run env n "rocm-smi") ;;
    if negb (is_err err) then
      modify (set_gpuVendor "amd") ;;
      ret true
    else
      slog_Error "HasGPU(): Could not find NVIDIA or AMD GPUs installed using SMI" ;;
      ret false.

(** One non-empty line; [gpuData] is the function's local slice, and the
    value returned is the slice after the [append]. *)
Definition parseGPUNvidiaData_line (line : string) (gpuData : list GPUStats.t)
  : M (list GPUStats.t) :=
  let data := strings.Split line ", " in
  name <- index data 1 ;;
  modify (set_gpuName name) ;;
  d0 <- index data 0 ;;
  let '(id, err) := strconv.ParseInt d0 10 32 in
  when (is_err err) (slog_Error "Failed to parse GPU Id from string -> int ! ") ;;
  d2 <- index data 2 ;;
  let '(load, err) := strconv.ParseInt d2 10 32 in
  when (is_err err) (slog_Error "Failed to parse GPU Load from string -> int ! ") ;;
  d3 <- index data 3 ;;
  let '(memoryUsage, err) := strconv.ParseFloat64 d3 in
  when (is_err err) (slog_Error "Failed to parse float: memory.usage !") ;;
  let memoryUsage := if is_err err then PrimFloat.zero else memoryUsage in
  d4 <- index data 4 ;;
  let '(memoryTotal, err) := strconv.ParseFloat64 d4 in
  when (is_err err) (slog_Error "Failed to parse float: memory.total !") ;;
  let memoryTotal := if is_err err then PrimFloat.zero else memoryTotal in
  d5 <- index data 5 ;;
  let '(power, err) := strconv.ParseFloat64 d5 in
  when (is_err err) (slog_Error "Failed to parse float: power !") ;;
  d6 <- index data 6 ;;
  let t := strings.ReplaceAll d6 CR "" in
  let '(temp, err) := strconv.ParseInt t 10 32 in
  when (is_err err) (slog_Error "Failed to parse float: temp !") ;;
  let gpu := GPUStats.mk (int32 id) (PrimFloat.div (float64_of_Z load) 100)
               memoryUsage memoryTotal power (int32 temp) in
  ret (gpuData ++ [gpu])%list.

Fixpoint parseGPUNvidiaData_lines (info : list string) (gpuData : list GPUStats.t)
  : M (list GPUStats.t) :=
  match info with
  | [] => ret gpuData
  | line :: rest =>
      gpuData' <- (if negb (string_eqb line "") then parseGPUNvidiaData_line line gpuData
                   else ret gpuData) ;;
      parseGPUNvidiaData_lines rest gpuData'
  end.

(** [var gpuData []GPUData] starts empty at every call. *)
Definition parseGPUNvidiaData (output : string) : M (list GPUStats.t) :=
  parseGPUNvidiaData_lines (strings.Split output LF) [].

Definition GetGPUInfo : M (list GPUStats.t) :=
  has <- HasGPU ;;
  if negb has then ret []
  else
    since <- time_Since env lastFetchGPU ;;
    g <- gets gpuStats ;;
    if (since <=? time.Second) && negb (Nat.eqb (List.length g) 0) then gets gpuStats
    else
      vendor <- gets (fun s => GPU.Vendor (gpuInfo s)) ;;
      if string_eqb vendor "nvidia" then
        ' (data, err) <- ask (EvOutput "nvidia-smi" nvidia_query)
                             (fun n => exec_Output env n "nvidia-smi" nvidia_query) ;;
        if is_err err then
          slog_Error ("Failed to retrieve NVIDIA GPU data from nvidia-smi ! " ++ Error err) ;;
          ret []
        else
          parsed <- parseGPUNvidiaData data ;;
          modify (set_gpuStats parsed) ;;
          now <- time_Now env ;;
          modify (set_lastFetchGPU now) ;;
          gets gpuStats
      else if string_eqb vendor "amd" then
        slog_Error "AMD GPU not implemented yet !" ;;
        ret []
      else ret [].

End WithEnv.

End Legacy.

(** ** Sample machines

    Concrete environments and inputs on which the definitions are run. *)
Module Samples.
Import Devices.

(** A clock that starts in the present and advances two seconds from one
    external call to the next. *)
Definition epoch : time.Time := 63900000000 * time.Second.
Definition slow_clock (n : nat) : time.Time := epoch + Z.of_nat n * (2 * time.Second).

(** A clock that advances one millisecond from one call to the next. *)
Definition fast_clock (n : nat) : time.Time := epoch + Z.of_nat n * 1000000.

Definition not_found : error := Some "executable file not found in $PATH".

(** A machine on which every provider fails and no vendor tool exists. *)
Definition broken (clk : nat -> time.Time) : Env :=
  mkEnv "linux" clk
    (fun _ _ => not_found)
    (fun _ _ _ => ("", not_found))
    (fun _ => ([], Some "cpu.Info: not implemented"))
    (fun _ => ([], Some "cpu.Percent: not implemented"))
    (fun _ => ([], Some "disk.Partitions: not implemented"))
    (fun _ _ => (None, Some "disk.Usage: not implemented"))
    (fun _ _ => ([], Some "disk.IOCounters: not implemented"))
    (fun _ _ => 1)
    (fun _ => (None, Some "host.Info: not implemented"))
    (fun _ => (None, Some "mem.VirtualMemory: not implemented"))
    (fun _ => ([], Some "net.IOCounters: not implemented"))
    (fun _ => "")
    (fun _ => "").

(** The line of the specification's parsing example, with the carriage
    return a Windows tool leaves at its end. *)
Definition rtx3080_line : string :=
  "0, NVIDIA GeForce RTX 3080, 42, 1024, 10240, 215.50, 65" ++ CR.

Definition rtx3080 : GPUStats.t :=
  GPUStats.mk 0 0.42%float 1024%float 10240%float 215.5%float 65.

(** A machine with one NVIDIA card: the tool is found and prints [out] for
    every query; the OS providers answer with fixed data. *)
Definition memory_sample (usedPercent : float) : mem.VirtualMemoryStat :=
  mem.mkVirtualMemoryStat 17179869184 8589934592 8589934592 usedPercent 4294967296.

Definition with_nvidia (clk : nat -> time.Time) (out : string) (usedPercent : nat -> float) : Env :=
  mkEnv "windows" clk
    (fun _ name => if string_eqb name "nvidia-smi" then None else not_found)
    (fun _ name _ => if string_eqb name "nvidia-smi" then (out, None) else ("", not_found))
    (fun _ => ([cpu.mkInfoStat "Intel(R) Core(TM) i7-9700K CPU @ 3.60GHz" "GenuineIntel" 8], None))
    (fun _ => ([12.5%float], None))
    (fun _ => ([disk.mkPartitionStat "C:" "C:" "NTFS" ["rw"]], None))
    (fun _ path => (Some (disk.mkUsageStat path "NTFS" 1000 400 600 60%float 0%float), None))
    (fun _ path => ([(path, disk.mkIOCountersStat 10 20 path)], None))
    (fun _ _ => windows.DRIVE_FIXED)
    (fun _ => (Some (host.mkInfoStat "workstation" 3600 "windows" "Microsoft Windows 11"), None))
    (fun n => (Some (memory_sample (usedPercent n)), None))
    (fun _ => ([net.mkIOCountersStat "all" 1000 2000], None))
    (fun h => host.Hostname h)
    (fun _ => "").

Definition nvidia_box : Env :=
  with_nvidia slow_clock (rtx3080_line ++ LF) (fun _ => 50%float).

(** The same machine with the fast clock, and its state after the memory
    accessor was called once. *)
Definition fast_box : Env := with_nvidia fast_clock (rtx3080_line ++ LF) (fun _ => 50%float).
Definition warm : State := final (GetMemoryStats fast_box init).

(** The state after a successful probe on [nvidia_box]. *)
Definition probed : State := final (HasGPU nvidia_box init).


(** The tool's answer when it finds no card: text without a comma. *)
Definition no_devices_output : string := "No devices were found" ++ LF.

(** A line whose load field does not fit 32 bits. *)
Definition overflowing_line : string :=
  "0, NVIDIA GeForce RTX 3080, 4294967296, 1024, 10240, 215.50, 65".

(** A machine whose network provider answers once and fails afterwards. *)
Definition flaky_net : Env :=
  mkEnv "linux" slow_clock
    (fun _ _ => not_found)
    (fun _ _ _ => ("", not_found))
    (fun _ => ([], None))
    (fun _ => ([12.5%float], None))
    (fun _ => ([], None))
    (fun _ _ => (None, Some "no such file or directory"))
    (fun _ _ => ([], None))
    (fun _ _ => 1)
    (fun _ => (Some (host.mkInfoStat "workstation" 3600 "linux" "debian"), None))
    (fun _ => (Some (memory_sample 50%float), None))
    (fun n => if (n <? 2)%nat then ([net.mkIOCountersStat "all" 1000 2000], None)
              else ([], Some "open /proc/net/dev: too many open files"))
    (fun h => host.Hostname h)
    (fun _ => "").

End Samples.

(** ** Vocabulary for the properties of the other accessors *)

Import Devices.

(** The [CPU] record [GetCPUInfo] builds for one socket of [cpu.Info()]. *)
Definition cpu_of (c : cpu.InfoStat) : CPU.t :=
  CPU.mk 0 (cpu.ModelName c) (cpu.VendorID c) (cpu.Cores c) 0.

(** The slot and the timestamp of family [g] are as they were. *)
Definition slot_kept (g : Family) (s s' : State) : Prop :=
  cache g s' = cache g s /\ lastFetch g s' = lastFetch g s.

(** The host variables are as they were. *)
Definition host_kept (s s' : State) : Prop :=
  hostInfo s' = hostInfo s /\ hostHeap s' = hostHeap s /\ hostname s' = hostname s.

(** The cached hostname is the one of the cached host record. *)
Definition hostname_consistent (s : State) : Prop :=
  match hostInfo s with
  | nil => hostname s = ""
  | addr a => exists h, nth_error (hostHeap s) a = Some h /\ hostname s = host.Hostname h
  end.

(** The disk variables are as they were. *)
Definition disks_kept (s s' : State) : Prop :=
  disksStats s' = disksStats s /\ lastFetchDisk s' = lastFetchDisk s.

(** [st] is a record [GetDisksStats] can build for the partition [dsk]:
    mount point and device are the partition's, the rest comes from an
    answer of [disk.Usage] for the mount point (the used share rounded to
    a whole percent and divided by 100), and off windows the disk is not
    virtual. *)
Definition disk_record (env : Env) (dsk : disk.PartitionStat) (st : DiskStats.t) : Prop :=
  DiskStats.Mountpoint st = disk.Mountpoint dsk
  /\ DiskStats.Device st = disk.Device dsk
  /\ (exists n u e,
        disk_Usage env n (disk.Mountpoint dsk) = (Some u, e)
        /\ DiskStats.FSType st = convertFSType (disk.UFstype u)
        /\ DiskStats.Free st = disk.Free u
        /\ DiskStats.Used st = disk.Used u
        /\ DiskStats.Total st = disk.Total u
        /\ DiskStats.UsedPercent st
           = PrimFloat.div
               (math.Round (PrimFloat.div (PrimFloat.mul (disk.UsedPercent u) 100) 100)) 100)
  /\ (GOOS env <> "windows" -> DiskStats.IsVirtualDisk st = false).

(** The body of the loop of [GetDisksStats]. *)
Abbreviation disk_step env :=
  (fun (i : nat) (dsk : disk.PartitionStat) =>
     let mp := disk.Mountpoint dsk in
     ' (usage, err) <- ask (EvCall (DiskUsage mp)) (fun n => disk_Usage env n mp) ;;
     when (is_err err)
       (slog_Error ("Failed to retrieve disk.Usage(" ++ mp ++ ")! " ++ Error err)) ;;
     slog_Debug "disk: " ;;
     u <- match usage with
          | Some u => ret u
          | None => panic "runtime error: invalid memory address or nil pointer dereference"
          end ;;
     slog_Debug "usage: " ;;
     let fsType := convertFSType (disk.UFstype u) in
     isVDisk <- isVirtualDisk env mp ;;
     let usedPercent :=
       PrimFloat.div
         (math.Round (PrimFloat.div (PrimFloat.mul (disk.UsedPercent u) 100) 100)) 100 in
     let stats := DiskStats.mk mp (disk.Device dsk) fsType isVDisk
                    (disk.Free u) (disk.Used u) usedPercent (disk.Total u) in
     modify (fun s => set_disksStats (update_nth i stats (disksStats s)) s)).

(** The name [gpuInfo.Name] holds after the lines [info] were parsed, [name]
    being the one before: field 1 of the last non-empty line. *)
Fixpoint last_card_name (info : list string) (name : string) : string :=
  match info with
  | [] => name
  | line :: rest =>
      last_card_name rest
        (if string_eqb line "" then name
         else match strings.Split line ", " with
              | _ :: d1 :: _ => d1
              | _ => name
              end)
  end.

(** The family whose slot a call may write. *)
Definition owner (op : Op) : option Family :=
  match op with
  | OpGetCPUStats => Some FCPU
  | OpGetDisksStats => Some FDisk
  | OpGetGPUStats => Some FGPU
  | OpGetHostInfo | OpGetHostname => Some FHost
  | OpGetMemoryStats => Some FMem
  | OpGetNetworkStats => Some FNet
  | OpGetCPUInfo | OpGetCPUModelName | OpHasGPU | OpGPUName => None
  end.

(** ** The older file's disk usage cache

    [GetDiskUsage] of the older source file keeps one [disk.UsageStat] by
    value in [diskUsage], a variable the current file no longer has: it is
    modelled over a store of its own, with the same environment, events
    and log entries. *)
Module LegacyDisk.

Definition Hour : time.Duration := 60 * time.Minute.

Record Store := mkStore {
  diskUsage : disk.UsageStat;
  lastFetchDisk : time.Time;
  events : list Event;
  messages : list (Level * string)
}.

(** [disk.UsageStat{}] *)
Definition zeroUsage : disk.UsageStat := disk.mkUsageStat "" "" 0 0 0 0 0.

Definition start : Store := mkStore zeroUsage time.zero [] [].

Inductive Result (A : Type) :=
| Returned (a : A) (st : Store)
| Panicked (msg : string) (st : Store).
Arguments Returned {A} a st.
Arguments Panicked {A} msg st.

Definition record_event (e : Event) (st : Store) : Store :=
  mkStore (diskUsage st) (lastFetchDisk st) (events st ++ [e])%list (messages st).
Definition record_message (l : Level) (msg : string) (st : Store) : Store :=
  mkStore (diskUsage st) (lastFetchDisk st) (events st) (messages st ++ [(l, msg)])%list.

(** [json.Marshal] encodes the struct: neither of its two [float64]
    fields is NaN or infinite. *)
Definition encodable (u : disk.UsageStat) : bool :=
  PrimFloat.is_finite (disk.UsedPercent u) && PrimFloat.is_finite (disk.InodesUsedPercent u).

Section WithEnv.

Variable env : Env.

(** The members [encoding/json] renders inside the braces of a
    [disk.UsageStat]. *)
Variable json_usage : disk.UsageStat -> string.

(** [disk.UsageStat.String()] is [json.Marshal] with the error dropped:
    the empty string when a percent is NaN or infinite. *)
Definition usage_String (u : disk.UsageStat) : string :=
  if encodable u then "{" ++ json_usage u ++ "}" else "".

(** The function from [disk.Usage(path)] on. *)
Definition GetDiskUsage_fetch (path : string) (st : Store)
  : Result (disk.UsageStat * error) :=
  let '(dUsage, err) := disk_Usage env (List.length (events st)) path in
  let st := record_event (EvCall (DiskUsage path)) st in
  if is_err err then
    let st := record_message LevelError
                ("Failed to retrieve disk.Usage(" ++ path ++ ")! " ++ Error err) st in
    Returned (zeroUsage, err) st
  else
    match dUsage with
    | None => Panicked "runtime error: invalid memory address or nil pointer dereference" st
    | Some u =>
        let st := record_message LevelDebug ("disk.Usage(" ++ path ++ "): " ++ usage_String u) st in
        let now := clock env (List.length (events st)) in
        let st := record_event EvClock st in
        Returned (u, err) (mkStore u now (events st) (messages st))
    end.

(** [&&] reads the clock only when the first operand holds. *)
Definition GetDiskUsage (path : string) (st : Store) : Result (disk.UsageStat * error) :=
  if (0 <? String.length (usage_String (diskUsage st)))%nat then
    let now := clock env (List.length (events st)) in
    let st := record_event EvClock st in
    if time.Sub now (lastFetchDisk st) <? Hour then Returned (diskUsage st, None) st
    else GetDiskUsage_fetch path st
  else GetDiskUsage_fetch path st.

End WithEnv.

End LegacyDisk.

(** ** More sample machines *)
Module Machines.

(** A machine with one drive whose usage cannot be read. *)
Definition no_usage_box : Env :=
  mkEnv "linux" Samples.slow_clock
    (fun _ _ => Samples.not_found)
    (fun _ _ _ => ("", Samples.not_found))
    (fun _ => ([], None))
    (fun _ => ([12.5%float], None))
    (fun _ => ([disk.mkPartitionStat "/dev/sr0" "/media/cdrom" "udf" ["ro"]], None))
    (fun _ _ => (None, Some "no medium found"))
    (fun _ _ => ([], None))
    (fun _ _ => 1)
    (fun _ => (Some (host.mkInfoStat "workstation" 3600 "linux" "debian"), None))
    (fun _ => (Some (Samples.memory_sample 50%float), None))
    (fun _ => ([net.mkIOCountersStat "all" 1000 2000], None))
    (fun h => host.Hostname h)
    (fun _ => "").

(** A machine with two cards. *)
Definition two_cards_output : string :=
  Samples.rtx3080_line ++ LF
  ++ "1, NVIDIA GeForce GTX 1050, 3, 256, 4096, 30.00, 41" ++ CR ++ LF.

Definition two_cards_box : Env :=
  Samples.with_nvidia Samples.slow_clock two_cards_output (fun _ => 50%float).

(** A machine that reports no memory at all, with the fast clock: the
    used-percent it samples is not a number. *)
Definition no_memory_fast_box : Env :=
  Samples.with_nvidia Samples.fast_clock (Samples.rtx3080_line ++ LF)
    (fun _ => PrimFloat.mul (PrimFloat.div 0 0) 100).

End Machines.

(** * Properties *)

Import Devices.

(** ** Library facts *)

Lemma string_eqb_eq (a b : string) : string_eqb a b = true <-> a = b.
Proof. unfold string_eqb. apply String.eqb_eq. Qed.

(** The library models on inputs whose results are known from Go. *)

Example Split_fields : strings.Split "0, a b, 42" ", " = ["0"; "a b"; "42"].
Proof. reflexivity. Qed.

Example Split_no_separator : strings.Split "abc" ", " = ["abc"].
Proof. reflexivity. Qed.

Example Split_lines : strings.Split ("a" ++ LF ++ LF ++ "b" ++ LF) LF = ["a"; ""; "b"; ""].
Proof. reflexivity. Qed.

Example Split_overlap : strings.Split "a,,,b" ",," = ["a"; ",b"].
Proof. reflexivity. Qed.

Example ReplaceAll_cr : strings.ReplaceAll ("6" ++ CR ++ "5" ++ CR) CR "" = "65".
Proof. reflexivity. Qed.

Example ParseInt_plain : strconv.ParseInt "42" 10 32 = (42, None).
Proof. reflexivity. Qed.

Example ParseInt_signs :
  strconv.ParseInt "+7" 10 32 = (7, None) /\ strconv.ParseInt "-7" 10 32 = (-7, None).
Proof. split; reflexivity. Qed.

Example ParseInt_bounds :
  strconv.ParseInt "2147483647" 10 32 = (2147483647, None)
  /\ strconv.ParseInt "2147483648" 10 32 = (2147483647, Some strconv.ErrRange)
  /\ strconv.ParseInt "-2147483648" 10 32 = (-2147483648, None)
  /\ strconv.ParseInt "-2147483649" 10 32 = (-2147483648, Some strconv.ErrRange)
  /\ strconv.ParseInt "99999999999999999999999" 10 32 = (2147483647, Some strconv.ErrRange).
Proof. repeat split; reflexivity. Qed.

Example ParseInt_syntax :
  strconv.ParseInt "" 10 32 = (0, Some strconv.ErrSyntax)
  /\ strconv.ParseInt "-" 10 32 = (0, Some strconv.ErrSyntax)
  /\ strconv.ParseInt " 42" 10 32 = (0, Some strconv.ErrSyntax)
  /\ strconv.ParseInt "4_2" 10 32 = (0, Some strconv.ErrSyntax)
  /\ strconv.ParseInt "[N/A]" 10 32 = (0, Some strconv.ErrSyntax).
Proof. repeat split; reflexivity. Qed.

Example ParseFloat64_decimal :
  strconv.ParseFloat64 "215.50" = (215.5%float, None)
  /\ strconv.ParseFloat64 "0.1" = (0.1%float, None)
  /\ strconv.ParseFloat64 "-0" = (neg_zero, None)
  /\ strconv.ParseFloat64 ".5" = (0.5%float, None)
  /\ strconv.ParseFloat64 "1e23" = (0x1.52d02c7e14af6p+76%float, None)
  /\ strconv.ParseFloat64 "1_000.5" = (1000.5%float, None)
  /\ strconv.ParseFloat64 "0x1.8p1" = (3%float, None).
Proof. vm_compute. repeat split; reflexivity. Qed.

Example ParseFloat64_limits :
  strconv.ParseFloat64 "1.7976931348623157e308" = (0x1.fffffffffffffp+1023%float, None)
  /\ strconv.ParseFloat64 "1.7976931348623159e308" = (infinity, Some strconv.ErrRange)
  /\ strconv.ParseFloat64 "-1e999" = (neg_infinity, Some strconv.ErrRange)
  /\ strconv.ParseFloat64 "5e-324" = (0x1p-1074%float, None)
  /\ strconv.ParseFloat64 "2e-324" = (zero, None).
Proof. vm_compute. repeat split; reflexivity. Qed.

Example ParseFloat64_special :
  strconv.ParseFloat64 "NaN" = (nan, None)
  /\ strconv.ParseFloat64 "-Inf" = (neg_infinity, None)
  /\ strconv.ParseFloat64 "+Infinity" = (infinity, None).
Proof. vm_compute. repeat split; reflexivity. Qed.

Example ParseFloat64_syntax :
  strconv.ParseFloat64 "" = (zero, Some strconv.ErrSyntax)
  /\ strconv.ParseFloat64 "[N/A]" = (zero, Some strconv.ErrSyntax)
  /\ strconv.ParseFloat64 "1.5 W" = (zero, Some strconv.ErrSyntax)
  /\ strconv.ParseFloat64 "1e" = (zero, Some strconv.ErrSyntax)
  /\ strconv.ParseFloat64 "_1" = (zero, Some strconv.ErrSyntax)
  /\ strconv.ParseFloat64 "0x1" = (zero, Some strconv.ErrSyntax).
Proof. vm_compute. repeat split; reflexivity. Qed.

Example Round_halves :
  math.Round 2.5%float = 3%float /\ math.Round (-2.5)%float = (-3)%float
  /\ math.Round 0.49999999999999994%float = zero /\ math.Round (-0.3)%float = neg_zero.
Proof. vm_compute. repeat split; reflexivity. Qed.

Example Since_zero_time_saturates :
  time.Sub (Samples.slow_clock 0) time.zero = time.maxDuration.
Proof. reflexivity. Qed.

(** ** Framing: what a run leaves alone

    For a reflexive and transitive [R], [keeps R m] follows from the same
    fact about the primitive steps of [m]. *)
Section Keeps.

Variable R : State -> State -> Prop.

Hypothesis R_refl : forall s, R s s.
Hypothesis R_trans : forall a b c, R a b -> R b c -> R a c.

Lemma keeps_ret {A} (a : A) : keeps R (ret a).
Proof. intro s. apply R_refl. Qed.

Lemma keeps_panic {A} (msg : string) : keeps R (@panic A msg).
Proof. intro s. apply R_refl. Qed.

Lemma keeps_gets {A} (f : State -> A) : keeps R (gets f).
Proof. intro s. apply R_refl. Qed.

Lemma keeps_modify (f : State -> State) : (forall s, R s (f s)) -> keeps R (modify f).
Proof. intros H s. apply H. Qed.

Lemma keeps_ask {A} (e : Event) (o : nat -> A) :
  (forall s, R s (set_trace (trace s ++ [e])%list s)) -> keeps R (ask e o).
Proof. intros H s. apply H. Qed.

Lemma keeps_bind {A B} (m : M A) (k : A -> M B) :
  keeps R m -> (forall a, keeps R (k a)) -> keeps R (bind m k).
Proof.
  intros Hm Hk s. unfold bind. specialize (Hm s).
  destruct (m s) as [a s'|msg s']; simpl in *.
  - eapply R_trans; [exact Hm | apply Hk].
  - exact Hm.
Qed.

Lemma keeps_when (b : bool) (m : M unit) : keeps R m -> keeps R (when b m).
Proof. intro H. destruct b; simpl; [exact H | apply keeps_ret]. Qed.

Lemma keeps_index {A} (l : list A) (i : nat) : keeps R (index l i).
Proof. unfold index. destruct (nth_error l i); [apply keeps_ret | apply keeps_panic]. Qed.

Lemma keeps_deref {A} (heap : State -> list A) (p : ptr) : keeps R (deref heap p).
Proof.
  destruct p as [|a]; simpl; [apply keeps_panic|].
  apply keeps_bind; [apply keeps_gets|]. intro h.
  destruct (nth_error h a); [apply keeps_ret | apply keeps_panic].
Qed.

Lemma keeps_for_each {A} (l : list A) (body : A -> M unit) :
  (forall x, keeps R (body x)) -> keeps R (for_each l body).
Proof.
  intro H. induction l as [|x r IH]; simpl; [apply keeps_ret|].
  apply keeps_bind; [apply H | intros _; exact IH].
Qed.

Lemma keeps_for_each_i {A} (l : list A) (body : nat -> A -> M unit) :
  (forall i x, keeps R (body i x)) -> forall i, keeps R (for_each_i i l body).
Proof.
  intro H. induction l as [|x r IH]; intro i; simpl; [apply keeps_ret|].
  apply keeps_bind; [apply H | intros _; apply IH].
Qed.

Lemma keeps_discard {A} (m : M A) : keeps R m -> keeps R (discard m).
Proof. intro H. apply keeps_bind; [exact H | intro; apply keeps_ret]. Qed.

End Keeps.

(** One step of a framing proof; [leaf] closes the goals about primitive
    updates. *)
Ltac keeps_step Hrefl Htrans leaf :=
  lazymatch goal with
  | |- keeps _ (bind _ _) => apply (keeps_bind _ Htrans); [|intro]
  | |- keeps _ (ret _) => apply (keeps_ret _ Hrefl)
  | |- keeps _ (gets _) => apply (keeps_gets _ Hrefl)
  | |- keeps _ (panic _) => apply (keeps_panic _ Hrefl)
  | |- keeps _ (when _ _) => apply (keeps_when _ Hrefl)
  | |- keeps _ (index _ _) => apply (keeps_index _ Hrefl)
  | |- keeps _ (deref _ _) => apply (keeps_deref _ Hrefl Htrans)
  | |- keeps _ (for_each _ _) => apply (keeps_for_each _ Hrefl Htrans); intro
  | |- keeps _ (for_each_i _ _ _) => apply (keeps_for_each_i _ Hrefl Htrans); intros
  | |- keeps _ (discard _) => apply (keeps_discard _ Hrefl Htrans)
  | |- keeps _ (modify _) => apply keeps_modify; intro; leaf
  | |- keeps _ (ask _ _) => apply keeps_ask; intro; leaf
  | |- keeps _ (if ?b then _ else _) => destruct b
  | |- keeps _ (match ?x with _ => _ end) => destruct x
  end.

Ltac keeps_run Hrefl Htrans leaf := repeat keeps_step Hrefl Htrans leaf.

(** The accessors, unfolded down to the primitive steps. *)
Ltac unfold_accessors :=
  unfold call, accessor, GetCPUModelName, formatCPUModelName, GetCPUInfo, GetCPUStats,
    GetDisksStats, isVirtualDisk, HasGPU, GetGPUStats, parseGPUNvidiaStats, parseGPUNvidiaStats_line, GPUName,
    GetHostname, GetHostInfo, GetMemoryStats, GetNetworkStats,
    host_String, mem_String, new_host, new_mem, time_Since, time_Now,
    slog_Error, slog_Debug.

(** *** The trace only grows *)

Lemma grows_refl s : grows s s.
Proof. exists []. symmetry. apply app_nil_r. Qed.

Lemma grows_trans a b c : grows a b -> grows b c -> grows a c.
Proof.
  intros [t1 H1] [t2 H2]. exists (t1 ++ t2)%list.
  rewrite H2, H1. symmetry. apply app_assoc.
Qed.

Ltac grows_leaf :=
  first [ exists []; simpl; symmetry; apply app_nil_r
        | eexists; simpl; reflexivity ].

Lemma grows_call env op : keeps grows (call env op).
Proof.
  destruct op; unfold_accessors; keeps_run grows_refl grows_trans grows_leaf.
Qed.

(** *** Only [HasGPU] writes the vendor state *)

Lemma gpu_identity_kept_refl s : gpu_identity_kept s s.
Proof. split; reflexivity. Qed.

Lemma gpu_identity_kept_trans a b c :
  gpu_identity_kept a b -> gpu_identity_kept b c -> gpu_identity_kept a c.
Proof. intros [H1 H2] [H3 H4]. split; congruence. Qed.

Ltac gpu_identity_leaf := split; reflexivity.

Lemma gpu_identity_kept_call env op :
  op <> OpHasGPU -> keeps gpu_identity_kept (call env op).
Proof.
  intro Hop. destruct op; try congruence; unfold_accessors;
    keeps_run gpu_identity_kept_refl gpu_identity_kept_trans gpu_identity_leaf.
Qed.

(** ** Running a computation step by step *)

Lemma bind_Done {A B} (m : M A) (k : A -> M B) s a s' :
  m s = Done a s' -> bind m k s = k a s'.
Proof. intro H. unfold bind. rewrite H. reflexivity. Qed.

Lemma final_bind_ret {A B} (m : M A) (g : A -> B) s :
  final (bind m (fun v => ret (g v)) s) = final (m s).
Proof. unfold bind. destruct (m s); reflexivity. Qed.

Lemma grows_from {A} (m : M A) s0 pre s :
  keeps grows m -> trace s = (trace s0 ++ pre)%list ->
  exists tr, trace (final (m s)) = (trace s0 ++ pre ++ tr)%list.
Proof.
  intros Hm Hs. destruct (Hm s) as [tr Htr]. exists tr.
  rewrite Htr, Hs. symmetry. apply app_assoc.
Qed.

(** The freshness test of an accessor, decided from the hypotheses. *)
Ltac decide_test Hc :=
  match goal with
  | |- context [if ?c then _ else _] => assert (Hc : c = false); [|rewrite Hc; clear Hc]
  end.

Ltac after_provider s pre :=
  erewrite bind_Done by reflexivity;
  apply (grows_from _ s pre);
  [ unfold_accessors; keeps_run grows_refl grows_trans grows_leaf
  | simpl; rewrite <- ?app_assoc; reflexivity ].

Lemma GetNetworkStats_fetch env s :
  NET_STATS_UPDATE_INTERVAL <= elapsed env FNet s \/ cached FNet s = false ->
  exists tr, trace (final (GetNetworkStats env s))
             = (trace s ++ [EvClock] ++ EvCall NetIOCounters :: tr)%list.
Proof.
  intro H. unfold GetNetworkStats.
  do 2 erewrite bind_Done by reflexivity.
  decide_test Hc.
  { apply andb_false_iff. destruct H as [H|H]; [left; apply Z.ltb_ge; exact H | right; exact H]. }
  after_provider s [EvClock; EvCall NetIOCounters].
Qed.

Lemma GetDisksStats_fetch env s :
  DISK_STATS_UPDATE_INTERVAL <= elapsed env FDisk s \/ cached FDisk s = false ->
  exists tr, trace (final (GetDisksStats env s))
             = (trace s ++ [EvClock] ++ EvCall DiskPartitions :: tr)%list.
Proof.
  intro H. unfold GetDisksStats.
  do 2 erewrite bind_Done by reflexivity.
  decide_test Hc.
  { apply andb_false_iff. destruct H as [H|H]; [left; apply Z.ltb_ge; exact H | right; exact H]. }
  after_provider s [EvClock; EvCall DiskPartitions].
Qed.

Lemma GetGPUStats_fetch env s :
  GPU.Vendor (gpuInfo s) = "nvidia" ->
  GPU_STATS_UPDATE_INTERVAL <= elapsed env FGPU s \/ cached FGPU s = false ->
  exists tr, trace (final (GetGPUStats env s))
             = (trace s ++ [EvClock] ++ EvOutput "nvidia-smi" nvidia_query :: tr)%list.
Proof.
  intros Hv H. unfold GetGPUStats.
  do 2 erewrite bind_Done by reflexivity.
  decide_test Hc.
  { apply andb_false_iff. destruct H as [H|H]; [left; apply Z.ltb_ge; exact H | right; exact H]. }
  erewrite bind_Done by reflexivity.
  cbn [gpuInfo set_trace]. rewrite Hv. change (string_eqb "nvidia" "nvidia") with true. cbv iota.
  after_provider s [EvClock; EvOutput "nvidia-smi" nvidia_query].
Qed.

Lemma GetCPUStats_fetch_empty env s :
  cached FCPU s = false ->
  exists tr, trace (final (GetCPUStats env s)) = (trace s ++ [] ++ EvCall CpuPercent :: tr)%list.
Proof.
  intro H. unfold GetCPUStats.
  erewrite bind_Done by reflexivity.
  change (negb (Nat.eqb (List.length (cpuStats s)) 0)) with (cached FCPU s). rewrite H.
  erewrite bind_Done by reflexivity. cbv iota.
  after_provider s [EvCall CpuPercent].
Qed.

Lemma GetCPUStats_fetch_stale env s :
  cached FCPU s = true ->
  CPU_STATS_UPDATE_INTERVAL <= elapsed env FCPU s ->
  exists tr, trace (final (GetCPUStats env s))
             = (trace s ++ [EvClock] ++ EvCall CpuPercent :: tr)%list.
Proof.
  intros Hc H. unfold GetCPUStats.
  erewrite bind_Done by reflexivity.
  change (negb (Nat.eqb (List.length (cpuStats s)) 0)) with (cached FCPU s). rewrite Hc.
  erewrite bind_Done by (erewrite bind_Done by reflexivity; reflexivity).
  decide_test Ht.
  { apply Z.ltb_ge. exact H. }
  after_provider s [EvClock; EvCall CpuPercent].
Qed.

Lemma GetHostInfo_fetch env s :
  HOST_INFO_UPDATE_INTERVAL <= elapsed env FHost s ->
  exists tr, trace (final (GetHostInfo env s))
             = (trace s ++ [EvClock] ++ EvCall HostInfo :: tr)%list.
Proof.
  intro H. unfold GetHostInfo.
  erewrite bind_Done by reflexivity.
  decide_test Hc.
  { apply Z.ltb_ge. exact H. }
  erewrite bind_Done by reflexivity. cbv iota.
  after_provider s [EvClock; EvCall HostInfo].
Qed.

Lemma GetMemoryStats_fetch env s :
  MEM_STATS_UPDATE_INTERVAL <= elapsed env FMem s ->
  exists tr, trace (final (GetMemoryStats env s))
             = (trace s ++ [EvClock] ++ EvCall VirtualMemory :: tr)%list.
Proof.
  intro H. unfold GetMemoryStats.
  erewrite bind_Done by reflexivity.
  decide_test Hc.
  { apply Z.ltb_ge. exact H. }
  erewrite bind_Done by reflexivity. cbv iota.
  after_provider s [EvClock; EvCall VirtualMemory].
Qed.

Ltac test_true Hc :=
  match goal with
  | |- context [if ?c then _ else _] => assert (Hc : c = true); [|rewrite Hc; clear Hc]
  end.

Lemma GetCPUStats_fresh env s :
  cached FCPU s = true -> elapsed env FCPU s < CPU_STATS_UPDATE_INTERVAL ->
  GetCPUStats env s = Done (cpuStats s) (ticked s).
Proof.
  intros Hc H. unfold GetCPUStats.
  erewrite bind_Done by reflexivity.
  change (negb (Nat.eqb (List.length (cpuStats s)) 0)) with (cached FCPU s). rewrite Hc.
  erewrite bind_Done by (erewrite bind_Done by reflexivity; reflexivity).
  test_true Ht.
  { apply Z.ltb_lt. exact H. }
  reflexivity.
Qed.

Lemma GetDisksStats_fresh env s :
  cached FDisk s = true -> elapsed env FDisk s < DISK_STATS_UPDATE_INTERVAL ->
  GetDisksStats env s = Done (disksStats s) (ticked s).
Proof.
  intros Hc H. unfold GetDisksStats.
  do 2 erewrite bind_Done by reflexivity.
  test_true Ht.
  { apply andb_true_iff. split; [apply Z.ltb_lt; exact H | exact Hc]. }
  reflexivity.
Qed.

Lemma GetGPUStats_fresh env s :
  cached FGPU s = true -> elapsed env FGPU s < GPU_STATS_UPDATE_INTERVAL ->
  GetGPUStats env s = Done (gpuStats s) (ticked s).
Proof.
  intros Hc H. unfold GetGPUStats.
  do 2 erewrite bind_Done by reflexivity.
  test_true Ht.
  { apply andb_true_iff. split; [apply Z.ltb_lt; exact H | exact Hc]. }
  reflexivity.
Qed.

Lemma GetNetworkStats_fresh env s :
  cached FNet s = true -> elapsed env FNet s < NET_STATS_UPDATE_INTERVAL ->
  GetNetworkStats env s = Done (netInfo s) (ticked s).
Proof.
  intros Hc H. unfold GetNetworkStats.
  do 2 erewrite bind_Done by reflexivity.
  test_true Ht.
  { apply andb_true_iff. split; [apply Z.ltb_lt; exact H | exact Hc]. }
  reflexivity.
Qed.

Lemma valid_lookup {A} (heap : list A) a :
  valid heap (addr a) -> exists v, nth_error heap a = Some v.
Proof.
  simpl. intro H. destruct (nth_error heap a) eqn:E; [eauto|].
  apply nth_error_None in E. lia.
Qed.

Lemma deref_Done {A} (heap : State -> list A) a v s :
  nth_error (heap s) a = Some v -> deref heap (addr a) s = Done v s.
Proof. intro H. unfold deref, bind, gets. rewrite H. reflexivity. Qed.

Lemma host_String_Done env a h s :
  nth_error (hostHeap s) a = Some h ->
  host_String env (addr a) s = Done ("{" ++ json_host env h ++ "}") s.
Proof. intro H. unfold host_String. erewrite bind_Done by (apply deref_Done; exact H). reflexivity. Qed.

Lemma mem_String_Done env a m s :
  nth_error (memHeap s) a = Some m ->
  mem_String env (addr a) s = Done (VirtualMemoryStat_String env m) s.
Proof. intro H. unfold mem_String. erewrite bind_Done by (apply deref_Done; exact H). reflexivity. Qed.

Lemma GetHostInfo_fresh env s :
  wf s -> cached FHost s = true -> elapsed env FHost s < HOST_INFO_UPDATE_INTERVAL ->
  GetHostInfo env s = Done (hostInfo s) (ticked s).
Proof.
  intros [Hv _] Hc H. unfold cached in Hc. simpl in Hc.
  destruct (hostInfo s) as [|a] eqn:Hp; [discriminate|].
  destruct (valid_lookup _ _ Hv) as [h Hh].
  unfold GetHostInfo.
  erewrite bind_Done by reflexivity.
  apply Z.ltb_lt in H. unfold elapsed in H. simpl in H. rewrite H.
  erewrite bind_Done.
  2:{ erewrite bind_Done by reflexivity. cbn [hostInfo set_trace]. rewrite Hp.
      erewrite bind_Done by (apply host_String_Done; exact Hh).
      reflexivity. }
  simpl. unfold gets. cbn [hostInfo set_trace]. rewrite Hp. reflexivity.
Qed.

Lemma GetMemoryStats_fresh env s :
  wf s -> cached FMem s = true -> printable FMem s = true ->
  elapsed env FMem s < MEM_STATS_UPDATE_INTERVAL ->
  GetMemoryStats env s = Done (memInfo s) (ticked s).
Proof.
  intros [_ Hv] Hc Hpr H. unfold cached in Hc. simpl in Hc. unfold printable in Hpr.
  destruct (memInfo s) as [|a] eqn:Hp; [discriminate|].
  destruct (valid_lookup _ _ Hv) as [h Hh]. rewrite Hh in Hpr.
  unfold GetMemoryStats.
  erewrite bind_Done by reflexivity.
  apply Z.ltb_lt in H. unfold elapsed in H. simpl in H. rewrite H.
  erewrite bind_Done.
  2:{ erewrite bind_Done by reflexivity. cbn [memInfo set_trace]. rewrite Hp.
      erewrite bind_Done by (apply mem_String_Done; exact Hh).
      unfold VirtualMemoryStat_String. rewrite Hpr. reflexivity. }
  simpl. unfold gets. cbn [memInfo set_trace]. rewrite Hp. reflexivity.
Qed.

(** A memory record that does not print counts as absent: the accessor
    fetches whatever the time. *)
Lemma GetMemoryStats_unprintable_fetch env s :
  wf s -> cached FMem s = true -> printable FMem s = false ->
  exists tr, trace (final (GetMemoryStats env s))
             = (trace s ++ [EvClock] ++ EvCall VirtualMemory :: tr)%list.
Proof.
  intros [_ Hv] Hc Hpr.
  destruct (Z_lt_le_dec (elapsed env FMem s) MEM_STATS_UPDATE_INTERVAL) as [H|H];
    [|apply GetMemoryStats_fetch; exact H].
  unfold cached in Hc. simpl in Hc. unfold printable in Hpr.
  destruct (memInfo s) as [|a] eqn:Hp; [discriminate|].
  destruct (valid_lookup _ _ Hv) as [h Hh]. rewrite Hh in Hpr.
  unfold GetMemoryStats.
  erewrite bind_Done by reflexivity.
  apply Z.ltb_lt in H. unfold elapsed in H. simpl in H. rewrite H.
  erewrite bind_Done.
  2:{ erewrite bind_Done by reflexivity. cbn [memInfo set_trace]. rewrite Hp.
      erewrite bind_Done by (apply mem_String_Done; exact Hh).
      unfold VirtualMemoryStat_String. rewrite Hpr. reflexivity. }
  cbn [String.length Nat.eqb negb].
  after_provider s [EvClock; EvCall VirtualMemory].
Qed.

(** ** Cache freshness *)

(** C3, as the specification states it, fails for the GPU family: on a
    machine without a vendor tool the slot is empty and more than the
    interval has passed, yet the accessor returns without spawning the
    sampling process. *)
Lemma cache_freshness_gpu_counterexample :
  let env := Samples.broken Samples.slow_clock in
  cached FGPU init = false /\
  interval FGPU <= elapsed env FGPU init /\
  accessor env FGPU init = Done (VGPU []) (ticked init) /\
  ~ In (provider FGPU) (trace (ticked init)).
Proof.
  simpl. repeat split.
  - vm_compute. discriminate.
  - intros [H|[]]. discriminate.
Qed.

(** A stale slot, or an empty slot of a slice-valued family, is fetched. *)
Lemma stale_or_empty_fetches env f s :
  (f = FGPU -> GPU.Vendor (gpuInfo s) = "nvidia") ->
  interval f <= elapsed env f s \/ (cached f s = false /\ f <> FHost /\ f <> FMem) ->
  exists pre tr, (pre = [] \/ pre = [EvClock]) /\
    trace (final (accessor env f s)) = (trace s ++ pre ++ provider f :: tr)%list.
Proof.
  intros Hv H.
  assert (H' : interval f <= elapsed env f s \/ cached f s = false) by tauto.
  destruct f; unfold accessor; rewrite final_bind_ret.
  - destruct (cached FCPU s) eqn:Hc.
    + destruct H' as [H'|H']; [|discriminate].
      destruct (GetCPUStats_fetch_stale env s Hc H') as [tr Htr].
      exists [EvClock], tr. split; [right; reflexivity | exact Htr].
    + destruct (GetCPUStats_fetch_empty env s Hc) as [tr Htr].
      exists [], tr. split; [left; reflexivity | exact Htr].
  - destruct (GetDisksStats_fetch env s H') as [tr Htr].
    exists [EvClock], tr. split; [right; reflexivity | exact Htr].
  - destruct (GetGPUStats_fetch env s (Hv eq_refl) H') as [tr Htr].
    exists [EvClock], tr. split; [right; reflexivity | exact Htr].
  - assert (He : interval FHost <= elapsed env FHost s) by (destruct H as [H|[_ [H _]]]; congruence).
    destruct (GetHostInfo_fetch env s He) as [tr Htr].
    exists [EvClock], tr. split; [right; reflexivity | exact Htr].
  - assert (He : interval FMem <= elapsed env FMem s) by (destruct H as [H|[_ [_ H]]]; congruence).
    destruct (GetMemoryStats_fetch env s He) as [tr Htr].
    exists [EvClock], tr. split; [right; reflexivity | exact Htr].
  - destruct (GetNetworkStats_fetch env s H') as [tr Htr].
    exists [EvClock], tr. split; [right; reflexivity | exact Htr].
Qed.

(** C3 (amended): for every family with a refresh interval, in a
    well-formed state, (1) when the slot holds a value that prints (a memory
    record whose used-percent is NaN or infinite has an empty [String()],
    which the accessor takes for no value) and less than the interval has
    passed since the recorded fetch, the accessor returns the slot's value
    and does nothing but read the clock; (2) when at least the interval has
    passed, or the slot of a slice-valued family is empty, or the memory
    record does not print, the accessor calls the family's provider, at
    once or after the clock read, for the GPU family provided the detected
    vendor is nvidia. *)
Theorem cache_freshness env f s :
  wf s ->
  (cached f s = true -> printable f s = true -> elapsed env f s < interval f ->
     accessor env f s = Done (cache f s) (ticked s))
  /\
  ((f = FGPU -> GPU.Vendor (gpuInfo s) = "nvidia") ->
   interval f <= elapsed env f s
   \/ (cached f s = false /\ f <> FHost /\ f <> FMem)
   \/ (cached f s = true /\ printable f s = false) ->
     exists pre tr, (pre = [] \/ pre = [EvClock]) /\
       trace (final (accessor env f s)) = (trace s ++ pre ++ provider f :: tr)%list).
Proof.
  intro Hwf. split.
  - intros Hc Hpr He. destruct f; unfold accessor.
    + erewrite bind_Done by (apply GetCPUStats_fresh; assumption). reflexivity.
    + erewrite bind_Done by (apply GetDisksStats_fresh; assumption). reflexivity.
    + erewrite bind_Done by (apply GetGPUStats_fresh; assumption). reflexivity.
    + erewrite bind_Done by (apply GetHostInfo_fresh; assumption). reflexivity.
    + erewrite bind_Done by (apply GetMemoryStats_fresh; assumption). reflexivity.
    + erewrite bind_Done by (apply GetNetworkStats_fresh; assumption). reflexivity.
  - intros Hv [H|[H|[Hc Hpr]]].
    + apply stale_or_empty_fetches; [exact Hv | left; exact H].
    + apply stale_or_empty_fetches; [exact Hv | right; exact H].
    + destruct f; try (unfold printable in Hpr; destruct (memInfo s); discriminate).
      unfold accessor. rewrite final_bind_ret.
      destruct (GetMemoryStats_unprintable_fetch env s Hwf Hc Hpr) as [tr Htr].
      exists [EvClock], tr. split; [right; reflexivity | exact Htr].
Qed.

Lemma wf_init : wf init.
Proof. split; exact I. Qed.

(** On the sample machine with a fast clock, the memory accessor fetches on
    the first call and serves the second one from the slot. *)
Lemma cache_freshness_witness :
  wf init /\
  (exists pre tr, (pre = [] \/ pre = [EvClock]) /\
     trace (final (accessor Samples.fast_box FMem init))
     = (trace init ++ pre ++ provider FMem :: tr)%list) /\
  wf Samples.warm /\
  accessor Samples.fast_box FMem Samples.warm
  = Done (cache FMem Samples.warm) (ticked Samples.warm).
Proof.
  split; [exact wf_init|]. split.
  - apply (proj2 (cache_freshness Samples.fast_box FMem init wf_init)).
    + discriminate.
    + left. vm_compute. discriminate.
  - assert (W : wf Samples.warm) by (split; vm_compute; auto).
    split; [exact W|].
    apply (proj1 (cache_freshness Samples.fast_box FMem Samples.warm W)).
    + reflexivity.
    + reflexivity.
    + vm_compute. reflexivity.
Defined.

(** On a machine whose used-percent is not a number the cached record does
    not print, and the slot counts as empty: one millisecond after the
    first fetch the memory accessor calls the provider again. *)
Example memory_nan_refetches_within_interval :
  let env := Machines.no_memory_fast_box in
  let s1 := final (GetMemoryStats env init) in
  cached FMem s1 = true
  /\ printable FMem s1 = false
  /\ elapsed env FMem s1 < interval FMem
  /\ trace s1 = [EvClock; EvCall VirtualMemory; EvClock]
  /\ trace (final (GetMemoryStats env s1))
     = [EvClock; EvCall VirtualMemory; EvClock; EvClock; EvCall VirtualMemory; EvClock].
Proof. vm_compute. repeat split; reflexivity. Qed.

(** ** The GPU accessor without a vendor *)

Lemma filter_process_ticked s :
  filter is_process (trace (ticked s)) = filter is_process (trace s).
Proof. simpl. rewrite filter_app. simpl. apply app_nil_r. Qed.

(** C10: while the vendor is unset, a call of [GetGPUStats] returns the
    cached samples and changes nothing but the trace, to which it adds one
    clock read: no process is spawned, and the samples, the fetch timestamp
    and the vendor stay as they were. *)
Theorem GetGPUStats_without_vendor env s :
  GPU.Vendor (gpuInfo s) = "" ->
  GetGPUStats env s = Done (gpuStats s) (ticked s)
  /\ filter is_process (trace (ticked s)) = filter is_process (trace s)
  /\ gpuStats (ticked s) = gpuStats s
  /\ lastFetchGPU (ticked s) = lastFetchGPU s
  /\ GPU.Vendor (gpuInfo (ticked s)) = "".
Proof.
  intro Hv. split; [|split; [apply filter_process_ticked | repeat split; exact Hv]].
  unfold GetGPUStats.
  do 2 erewrite bind_Done by reflexivity.
  match goal with |- context [if ?c then _ else _] => destruct c end.
  - reflexivity.
  - erewrite bind_Done by reflexivity.
    cbn [gpuInfo set_trace]. rewrite Hv. reflexivity.
Qed.

Lemma GetGPUStats_without_vendor_witness :
  GPU.Vendor (gpuInfo init) = "" /\
  GetGPUStats (Samples.broken Samples.slow_clock) init = Done [] (ticked init).
Proof.
  split; [reflexivity|].
  apply (GetGPUStats_without_vendor (Samples.broken Samples.slow_clock) init).
  reflexivity.
Defined.

(** ** The vendor probe *)

Lemma HasGPU_known env s : hasGPU s = true -> HasGPU env s = Done true s.
Proof.
  intro H. unfold HasGPU. erewrite bind_Done by reflexivity.
  rewrite H. unfold gets. rewrite H. reflexivity.
Qed.

(** A probe from an unset state: it returns the flag it leaves behind, its
    first external call is the NVIDIA presence check, and when it leaves the
    flag unset it has left the GPU identity alone. *)
Lemma HasGPU_unknown env s :
  hasGPU s = false ->
  exists s', HasGPU env s = Done (hasGPU s') s' /\
    (exists tr, trace s' = (trace s ++ EvRun "nvidia-smi" :: tr)%list) /\
    (hasGPU s' = false -> gpuInfo s' = gpuInfo s).
Proof.
  intro H. unfold HasGPU. erewrite bind_Done by reflexivity. rewrite H.
  erewrite bind_Done by reflexivity.
  destruct (exec_Run env (List.length (trace s)) "nvidia-smi") as [e1|]; cbn [is_err negb].
  - erewrite bind_Done by reflexivity.
    destruct (exec_Run env _ "rocm-smi") as [e2|]; cbn [is_err negb].
    + eexists. split; [reflexivity|]. split.
      * eexists. simpl. rewrite <- app_assoc. reflexivity.
      * reflexivity.
    + eexists. split; [reflexivity|]. split.
      * eexists. simpl. rewrite <- app_assoc. reflexivity.
      * simpl. discriminate.
  - eexists. split; [reflexivity|]. split.
    + eexists. simpl. reflexivity.
    + simpl. discriminate.
Qed.

Lemma call_final env op s s' : call env op s = Done tt s' -> final (call env op s) = s'.
Proof. intro H. rewrite H. reflexivity. Qed.

Lemma call_HasGPU env s s' :
  call env OpHasGPU s = Done tt s' -> exists b, HasGPU env s = Done b s'.
Proof.
  unfold call, discard, bind. destruct (HasGPU env s) as [b s1|msg s1]; simpl; intro H.
  - exists b. inversion H. reflexivity.
  - discriminate.
Qed.

Lemma call_keeps_gpu_identity env op s s' :
  op <> OpHasGPU -> call env op s = Done tt s' -> gpu_identity_kept s s'.
Proof.
  intros Hop H. rewrite <- (call_final _ _ _ _ H).
  apply gpu_identity_kept_call. exact Hop.
Qed.

Ltac identity_kept Hcall E1 E2 :=
  match type of Hcall with
  | call ?e ?o ?a = Done tt ?b =>
      destruct (call_keeps_gpu_identity e o a b ltac:(discriminate) Hcall) as [E1 E2]
  end.

Lemma later_hasGPU env s s' : later env s s' -> hasGPU s = true -> hasGPU s' = true.
Proof.
  induction 1 as [|s s1 s2 op _ IH Hcall]; intro H; [exact H|].
  specialize (IH H).
  destruct op; try (identity_kept Hcall E1 E2; congruence).
  destruct (call_HasGPU _ _ _ Hcall) as [b Hb].
  rewrite (HasGPU_known env s1 IH) in Hb. congruence.
Qed.

(** The vendor is set only together with the flag. *)
Lemma reachable_vendor env s :
  reachable env s -> hasGPU s = false -> GPU.Vendor (gpuInfo s) = "".
Proof.
  unfold reachable. intro H. remember init as s0 eqn:E.
  induction H as [|s s1 s2 op _ IH Hcall]; intro Hf; [subst; reflexivity|].
  specialize (IH E).
  destruct op; try (identity_kept Hcall E1 E2; rewrite E2; apply IH; congruence).
  destruct (call_HasGPU _ _ _ Hcall) as [b Hb].
  destruct (hasGPU s1) eqn:H1.
  - rewrite (HasGPU_known env s1 H1) in Hb. congruence.
  - destruct (HasGPU_unknown env s1 H1) as [s' [Hrun [_ Hid]]].
    rewrite Hrun in Hb. inversion Hb; subst s'. rewrite (Hid Hf). apply IH. reflexivity.
Qed.

(** C8: in a reachable state, (a) once [HasGPU] has returned true, every
    later call of it returns true at once and leaves the state, trace
    included, as it found it: the presence checks are not run again; (b) a
    call that returned false leaves the flag and the vendor unset, and as
    long as the flag is unset the next call starts by running the NVIDIA
    presence check again. *)
Theorem HasGPU_memoized env s :
  reachable env s ->
  (forall s1, HasGPU env s = Done true s1 ->
     forall s2, later env s1 s2 -> HasGPU env s2 = Done true s2)
  /\
  (forall s1, HasGPU env s = Done false s1 ->
     hasGPU s1 = false /\ GPU.Vendor (gpuInfo s1) = "" /\
     forall s2, later env s1 s2 -> hasGPU s2 = false ->
       exists tr, trace (final (HasGPU env s2)) = (trace s2 ++ EvRun "nvidia-smi" :: tr)%list).
Proof.
  intro Hr. split.
  - intros s1 Hrun s2 Hl. apply HasGPU_known. apply (later_hasGPU env s1 s2 Hl).
    destruct (hasGPU s) eqn:H.
    + rewrite (HasGPU_known env s H) in Hrun. congruence.
    + destruct (HasGPU_unknown env s H) as [s' [Hrun' _]]. rewrite Hrun' in Hrun.
      inversion Hrun; subst s'. congruence.
  - intros s1 Hrun.
    assert (Hf : hasGPU s1 = false).
    { destruct (hasGPU s) eqn:H.
      - rewrite (HasGPU_known env s H) in Hrun. discriminate.
      - destruct (HasGPU_unknown env s H) as [s' [Hrun' _]]. rewrite Hrun' in Hrun.
        inversion Hrun; subst s'. congruence. }
    split; [exact Hf|]. split.
    + apply (reachable_vendor env); [|exact Hf].
      apply later_call with (s1 := s) (op := OpHasGPU); [exact Hr|].
      unfold call, discard. erewrite bind_Done by exact Hrun. reflexivity.
    + intros s2 _ H2. destruct (HasGPU_unknown env s2 H2) as [s' [Hrun' [Htr _]]].
      rewrite Hrun'. exact Htr.
Qed.

(** On the machine with an NVIDIA card the first probe succeeds and is
    never repeated; on the machine without tools the probe fails and is
    tried again. *)
Lemma HasGPU_memoized_witness :
  reachable Samples.nvidia_box init /\
  (forall s2, later Samples.nvidia_box Samples.probed s2 ->
     HasGPU Samples.nvidia_box s2 = Done true s2) /\
  reachable (Samples.broken Samples.slow_clock) init /\
  hasGPU (final (HasGPU (Samples.broken Samples.slow_clock) init)) = false.
Proof.
  split; [apply later_refl|]. split.
  - apply (proj1 (HasGPU_memoized Samples.nvidia_box init (later_refl _ _))).
    reflexivity.
  - split; [apply later_refl|].
    apply (proj2 (HasGPU_memoized (Samples.broken Samples.slow_clock) init (later_refl _ _))).
    reflexivity.
Defined.

(** ** The virtual-disk classifier *)

(** C9: [isVirtualDisk] always returns; it returns true exactly when the
    platform is windows and the drive type the platform reports is RAM disk,
    or is fixed disk with an I/O-counters query that yields no entry.  A
    fixed disk with entries, every other drive type and every other
    platform give false. *)
Theorem isVirtualDisk_spec env path s :
  let n := List.length (trace s) in
  let driveType := windows_GetDriveType env n (fst (windows.UTF16PtrFromString path)) in
  let io := fst (disk_IOCounters env (S n) path) in
  exists b s', isVirtualDisk env path s = Done b s' /\
    (b = true <->
       GOOS env = "windows" /\
       (driveType = windows.DRIVE_RAMDISK \/
        (driveType = windows.DRIVE_FIXED /\ List.length io = 0%nat))).
Proof.
  intros n driveType io. subst n driveType io.
  unfold isVirtualDisk.
  destruct (string_eqb (GOOS env) "windows") eqn:Hos.
  - apply string_eqb_eq in Hos.
    destruct (windows.UTF16PtrFromString path) as [d err]. cbn [fst].
    assert (Hlog : exists s0, when (is_err err)
                     (slog_Error ("Failed to get UTF16 pointer from string: " ++ path ++ "! "
                                  ++ Error err)) s = Done tt s0 /\ trace s0 = trace s).
    { destruct (is_err err); eexists; split; reflexivity. }
    destruct Hlog as [s0 [Hlog Htr]].
    erewrite bind_Done by exact Hlog.
    erewrite bind_Done by reflexivity.
    rewrite Htr.
    destruct (windows_GetDriveType env (List.length (trace s)) d =? windows.DRIVE_RAMDISK) eqn:Hram.
    { apply Z.eqb_eq in Hram. do 2 eexists. split; [reflexivity|].
      split; [intros _; split; [exact Hos | left; exact Hram] | reflexivity]. }
    apply Z.eqb_neq in Hram.
    destruct (windows_GetDriveType env (List.length (trace s)) d =? windows.DRIVE_FIXED) eqn:Hfix.
    + apply Z.eqb_eq in Hfix. erewrite bind_Done by reflexivity.
      cbn [trace set_trace]. rewrite ?Htr, length_app, Nat.add_comm. cbn [List.length Nat.add].
      destruct (disk_IOCounters env (S (List.length (trace s))) path) as [io e]. cbn [fst].
      destruct io as [|x r]; cbn [List.length]; do 2 eexists; (split; [reflexivity|]); split.
      * intros _. split; [exact Hos | right; split; [exact Hfix | reflexivity]].
      * reflexivity.
      * discriminate.
      * intros [_ [H|[_ H]]]; [congruence | discriminate].
    + apply Z.eqb_neq in Hfix. do 2 eexists. split; [reflexivity|]. split.
      * discriminate.
      * intros [_ [H|[H _]]]; congruence.
  - do 2 eexists. split; [reflexivity|]. split; [discriminate|].
    intros [H _]. apply string_eqb_eq in H. congruence.
Qed.

(** ** The parser of the NVIDIA tool's output *)

(** C7 (the code fails the claim): the fields of the specification's
    example line are parsed as the claim says: index 0, load 0.42 (42
    divided by 100), memory 1024 of 10240, power 215.5, temperature 65, the
    carriage return being removed before the temperature is parsed (with it
    the field would not parse) and nothing being logged.  But the parser
    yields exactly one record only while the package holds no sample: it
    appends to the package variable [gpuStats] (the defect of C2), so from
    any state it returns the samples held before followed by the record,
    and parsing the line a second time returns two records.  The older
    parser, with its local slice, returns the one record from every
    state. *)
Theorem parse_rtx3080_line :
  (let first := parseGPUNvidiaStats Samples.rtx3080_line init in
   let second := parseGPUNvidiaStats Samples.rtx3080_line (final first) in
   first = Done [Samples.rtx3080]
             (set_gpuStats [Samples.rtx3080] (set_gpuName "NVIDIA GeForce RTX 3080" init))
   /\ value second = Some [Samples.rtx3080; Samples.rtx3080])
  /\ (forall s,
        parseGPUNvidiaStats Samples.rtx3080_line s
        = Done (gpuStats s ++ [Samples.rtx3080])%list
               (set_gpuStats (gpuStats s ++ [Samples.rtx3080])%list
                  (set_gpuName "NVIDIA GeForce RTX 3080" s)))
  /\ (forall s,
        value (Legacy.parseGPUNvidiaData Samples.rtx3080_line s) = Some [Samples.rtx3080])
  /\ GPUStats.Load Samples.rtx3080 = PrimFloat.div (float64_of_Z 42) 100
  /\ strconv.ParseInt ("65" ++ CR) 10 32 = (0, Some strconv.ErrSyntax).
Proof.
  split; [vm_compute; split; reflexivity|].
  split; [intro s; vm_compute; reflexivity|].
  split; [intro s; vm_compute; reflexivity|].
  split; vm_compute; reflexivity.
Qed.

Lemma bind_Panic {A B} (m : M A) (k : A -> M B) s msg s' :
  m s = Panic msg s' -> bind m k s = Panic msg s'.
Proof. intro H. unfold bind. rewrite H. reflexivity. Qed.

(** A non-empty line with fewer than seven fields makes the parser panic,
    whatever the fields it has hold. *)
Lemma short_line_panics line s :
  (List.length (strings.Split line ", ") < 7)%nat ->
  panics (parseGPUNvidiaStats_line line s) = true.
Proof.
  intro H. unfold parseGPUNvidiaStats_line.
  destruct (strings.Split line ", ") as [|d0 [|d1 [|d2 [|d3 [|d4 [|d5 [|d6 rest]]]]]]];
    [ | | | | | | | simpl in H; lia ];
    cbn [index nth_error]; cbv zeta;
    repeat first
      [ erewrite bind_Done by reflexivity
      | erewrite bind_Panic by reflexivity
      | match goal with
        | |- context [strconv.ParseInt ?a ?b ?c] =>
            destruct (strconv.ParseInt a b c) as [? [?|]]
        | |- context [strconv.ParseFloat64 ?a] =>
            destruct (strconv.ParseFloat64 a) as [? [?|]]
        end; cbn [fst snd is_err when] ];
    reflexivity.
Qed.

(** C5 (the code fails the claim): on output whose line has no [", "] the
    parser panics at [data[1]]; and so does it on every non-empty line with
    fewer than seven fields, at the first index past the fields it has. *)
Theorem parse_short_line_panics :
  parseGPUNvidiaStats Samples.no_devices_output init
  = Panic "runtime error: index out of range" init
  /\ forall line s,
       (List.length (strings.Split line ", ") < 7)%nat ->
       panics (parseGPUNvidiaStats_line line s) = true.
Proof. split; [vm_compute; reflexivity | exact short_line_panics]. Qed.

Lemma ParseInt_range_bound s v :
  strconv.ParseInt s 10 32 = (v, Some strconv.ErrRange) ->
  v = 2147483647 \/ v = -2147483648.
Proof.
  unfold strconv.ParseInt. destruct s as [|c rest]; [congruence|].
  match goal with |- context [strconv.ParseUint ?a ?b ?c] =>
    destruct (strconv.ParseUint a b c) as [un [[|]|]] end;
  repeat match goal with |- context [if ?b then _ else _] => destruct b end;
  intro H; inversion H; auto.
Qed.

(** C6 (the code fails the claim): a load field outside the 32-bit range
    fails to parse, and the record holds the bound of the range divided by
    100 instead of a zero; the failure is logged, the other fields are
    parsed.  It is so for every line: a load field that fails with a range
    error leaves the bound in the record. *)
Theorem parse_overflowing_load :
  (exists s',
     parseGPUNvidiaStats Samples.overflowing_line init
     = Done [GPUStats.mk 0 21474836.47%float 1024%float 10240%float 215.5%float 65] s'
     /\ logs s' = [(LevelError, "Failed to parse GPU Load from string -> int ! ")]
     /\ strconv.ParseInt "4294967296" 10 32 = (2147483647, Some strconv.ErrRange))
  /\ forall d0 d2 d3 d4 d5 d6 v,
       strconv.ParseInt d2 10 32 = (v, Some strconv.ErrRange) ->
       (v = 2147483647 \/ v = -2147483648)
       /\ GPUStats.Load (record_of_fields d0 d2 d3 d4 d5 d6)
          = PrimFloat.div (float64_of_Z v) 100.
Proof.
  split.
  - eexists. split; [vm_compute; reflexivity|]. split; reflexivity.
  - intros d0 d2 d3 d4 d5 d6 v H. split; [exact (ParseInt_range_bound _ _ H)|].
    unfold record_of_fields. cbn [GPUStats.Load]. rewrite H. reflexivity.
Qed.

(** ** Failing providers *)

(** Whenever [GetCPUStats] fetches and the provider hands back no sample
    (as it does with an error), the call panics. *)
Lemma GetCPUStats_without_sample_panics env s e :
  cached FCPU s = false ->
  cpu_Percent env (List.length (trace s)) = ([], e) ->
  panics (GetCPUStats env s) = true.
Proof.
  intros Hc Hp. unfold GetCPUStats.
  erewrite bind_Done by reflexivity.
  change (negb (Nat.eqb (List.length (cpuStats s)) 0)) with (cached FCPU s). rewrite Hc.
  erewrite bind_Done by reflexivity. cbv iota.
  erewrite bind_Done by reflexivity. rewrite Hp.
  destruct e; cbn [is_err when];
    do 3 erewrite bind_Done by reflexivity; reflexivity.
Qed.

(** C1 (the code fails the claim): with a CPU provider that fails,
    [GetCPUStats] panics at [cpuPct[0]], and it does so whenever it fetches
    and gets no sample; with a host provider that fails, [GetHostInfo]
    panics at the nil [hostInfo]; after a failed memory fetch the next call
    of [GetMemoryStats] within the interval panics; and a failed network
    fetch empties the slot instead of serving the cached counters. *)
Theorem fetch_failure_panics :
  let env := Samples.broken Samples.slow_clock in
  panics (GetCPUStats env init) = true
  /\ (forall env s e,
        cached FCPU s = false ->
        cpu_Percent env (List.length (trace s)) = ([], e) ->
        panics (GetCPUStats env s) = true)
  /\ panics (GetHostInfo env init) = true
  /\ (let env' := Samples.broken Samples.fast_clock in
      value (GetMemoryStats env' init) = Some nil
      /\ panics (GetMemoryStats env' (final (GetMemoryStats env' init))) = true)
  /\ (let s1 := final (GetNetworkStats Samples.flaky_net init) in
      netInfo s1 = [net.mkIOCountersStat "all" 1000 2000]
      /\ value (GetNetworkStats Samples.flaky_net s1) = Some []).
Proof.
  cbv zeta. split; [vm_compute; reflexivity|].
  split; [exact GetCPUStats_without_sample_panics|].
  vm_compute. repeat split; reflexivity.
Qed.

(** ** Memory change detection *)



Lemma nth_error_snoc {A} (l : list A) (x : A) : nth_error (l ++ [x]) (List.length l) = Some x.
Proof. rewrite nth_error_app2 by lia. rewrite Nat.sub_diag. reflexivity. Qed.




(** ** More about the parser: a line with seven fields is never dropped *)

Lemma ParseInt_syntax_zero s base bitSize v :
  strconv.ParseInt s base bitSize = (v, Some strconv.ErrSyntax) -> v = 0.
Proof.
  unfold strconv.ParseInt. destruct s as [|c rest]; [congruence|].
  match goal with |- context [strconv.ParseUint ?a ?b ?c] =>
    destruct (strconv.ParseUint a b c) as [un [[|]|]] end;
  repeat match goal with |- context [if ?b then _ else _] => destruct b end; congruence.
Qed.

Lemma ParseFloat64_syntax_zero s v :
  strconv.ParseFloat64 s = (v, Some strconv.ErrSyntax) -> v = PrimFloat.zero.
Proof.
  unfold strconv.ParseFloat64.
  destruct (strconv.special s); [congruence|].
  destruct (strconv.readFloat s) as [sc|]; [|congruence].
  repeat match goal with |- context [if ?b then _ else _] => destruct b end; congruence.
Qed.

(** A line that splits into seven fields or more returns and appends the
    record of its fields. *)
Lemma parse_line_appends line s d0 d1 d2 d3 d4 d5 d6 rest :
  strings.Split line ", " = d0 :: d1 :: d2 :: d3 :: d4 :: d5 :: d6 :: rest ->
  exists s',
    parseGPUNvidiaStats_line line s = Done tt s'
    /\ gpuStats s' = (gpuStats s ++ [record_of_fields d0 d2 d3 d4 d5 d6])%list
    /\ GPU.Name (gpuInfo s') = d1
    /\ GPU.Vendor (gpuInfo s') = GPU.Vendor (gpuInfo s)
    /\ trace s' = trace s
    /\ lastFetchGPU s' = lastFetchGPU s.
Proof.
  intro H. unfold parseGPUNvidiaStats_line, record_of_fields, or_zero. rewrite H.
  cbn [index nth_error]. cbv zeta.
  repeat first
    [ erewrite bind_Done by reflexivity
    | match goal with
      | E : strconv.ParseInt ?a ?b ?c = _ |- context [strconv.ParseInt ?a ?b ?c] => rewrite E
      | E : strconv.ParseFloat64 ?a = _ |- context [strconv.ParseFloat64 ?a] => rewrite E
      | |- context [strconv.ParseInt ?a ?b ?c] =>
          destruct (strconv.ParseInt a b c) as [? [?|]] eqn:?
      | |- context [strconv.ParseFloat64 ?a] =>
          destruct (strconv.ParseFloat64 a) as [? [?|]] eqn:?
      end; cbn [fst snd is_err when] ].
  all: eexists; (split; [reflexivity|]); repeat split; reflexivity.
Qed.

(** X1: every line that splits into seven fields or more returns, appends
    exactly one record to the samples and stores the name; it calls nothing
    outside and leaves the vendor and the fetch timestamp alone.  Whatever
    the fields hold, the row is kept.  The record is [record_of_fields]: the
    memory fields are 0 when they fail to parse, and the other fields are
    what [strconv] returned. *)
Theorem line_is_never_dropped line s d0 d1 d2 d3 d4 d5 d6 rest :
  strings.Split line ", " = d0 :: d1 :: d2 :: d3 :: d4 :: d5 :: d6 :: rest ->
  exists s',
    parseGPUNvidiaStats_line line s = Done tt s'
    /\ gpuStats s' = (gpuStats s ++ [record_of_fields d0 d2 d3 d4 d5 d6])%list
    /\ GPU.Name (gpuInfo s') = d1
    /\ GPU.Vendor (gpuInfo s') = GPU.Vendor (gpuInfo s)
    /\ trace s' = trace s
    /\ lastFetchGPU s' = lastFetchGPU s.
Proof. apply parse_line_appends. Qed.

Lemma line_is_never_dropped_witness :
  strings.Split Samples.overflowing_line ", "
  = ["0"; "NVIDIA GeForce RTX 3080"; "4294967296"; "1024"; "10240"; "215.50"; "65"]
  /\ exists s', parseGPUNvidiaStats_line Samples.overflowing_line init = Done tt s'.
Proof.
  split; [reflexivity|].
  destruct (line_is_never_dropped Samples.overflowing_line init
              "0" "NVIDIA GeForce RTX 3080" "4294967296" "1024" "10240" "215.50" "65" []
              eq_refl) as [s' [H _]].
  exists s'. exact H.
Defined.

(** X2: a field that fails with a syntax error is 0 in the record: for the
    integer fields and the power because [strconv] returns 0 then, for the
    memory fields because the parser resets them. *)
Theorem syntax_failure_defaults_to_zero d0 d2 d3 d4 d5 d6 :
  let r := record_of_fields d0 d2 d3 d4 d5 d6 in
  (snd (strconv.ParseInt d0 10 32) = Some strconv.ErrSyntax -> GPUStats.Id r = 0)
  /\ (snd (strconv.ParseInt d2 10 32) = Some strconv.ErrSyntax ->
      GPUStats.Load r = PrimFloat.div PrimFloat.zero 100)
  /\ (snd (strconv.ParseFloat64 d3) <> None -> GPUStats.MemoryUsage r = PrimFloat.zero)
  /\ (snd (strconv.ParseFloat64 d4) <> None -> GPUStats.MemoryTotal r = PrimFloat.zero)
  /\ (snd (strconv.ParseFloat64 d5) = Some strconv.ErrSyntax -> GPUStats.Power r = PrimFloat.zero)
  /\ (snd (strconv.ParseInt (strings.ReplaceAll d6 CR "") 10 32) = Some strconv.ErrSyntax ->
      GPUStats.Temperature r = 0).
Proof.
  cbv zeta. unfold record_of_fields, or_zero. cbn [GPUStats.Id GPUStats.Load GPUStats.MemoryUsage
    GPUStats.MemoryTotal GPUStats.Power GPUStats.Temperature].
  repeat split.
  - destruct (strconv.ParseInt d0 10 32) as [v e] eqn:E. cbn [fst snd]. intro He. subst e.
    rewrite (ParseInt_syntax_zero _ _ _ _ E). reflexivity.
  - destruct (strconv.ParseInt d2 10 32) as [v e] eqn:E. cbn [fst snd]. intro He. subst e.
    rewrite (ParseInt_syntax_zero _ _ _ _ E). reflexivity.
  - destruct (snd (strconv.ParseFloat64 d3)); [reflexivity | congruence].
  - destruct (snd (strconv.ParseFloat64 d4)); [reflexivity | congruence].
  - destruct (strconv.ParseFloat64 d5) as [v e] eqn:E. cbn [fst snd]. intro He. subst e.
    apply (ParseFloat64_syntax_zero _ _ E).
  - destruct (strconv.ParseInt _ 10 32) as [v e] eqn:E. cbn [fst snd]. intro He. subst e.
    rewrite (ParseInt_syntax_zero _ _ _ _ E). reflexivity.
Qed.

(** ** The filesystem names *)

(** X11: [convertFSType] maps each of the eleven names to its constant, by exact
    match, and every other string to the sentinel -1. *)
Theorem convertFSType_spec name :
  (forall t, In (name, t) known_fs_types -> convertFSType name = t)
  /\ ((forall t, ~ In (name, t) known_fs_types) -> convertFSType name = -1)
  /\ convertFSType "NTFS" = NTFS
  /\ convertFSType "bogus" = -1
  /\ convertFSType "ntfs" = -1.
Proof.
  split; [|split; [|repeat split]].
  - intros t H. simpl in H.
    repeat (destruct H as [H|H]; [inversion H; subst; reflexivity|]). destruct H.
  - intro H. unfold convertFSType.
    repeat match goal with
    | |- context [string_eqb name ?k] =>
        let E := fresh "E" in
        destruct (string_eqb name k) eqn:E;
        [ apply string_eqb_eq in E; exfalso; apply (H (convertFSType k));
          rewrite E; simpl; tauto
        | ]
    end.
    reflexivity.
Qed.

(** ** What a refresh returns, for any output *)

Lemma line_record_fields line r :
  line_record line = Some r ->
  exists d0 d1 d2 d3 d4 d5 d6 rest,
    strings.Split line ", " = d0 :: d1 :: d2 :: d3 :: d4 :: d5 :: d6 :: rest
    /\ r = record_of_fields d0 d2 d3 d4 d5 d6.
Proof.
  unfold line_record.
  destruct (strings.Split line ", ") as [|d0 [|d1 [|d2 [|d3 [|d4 [|d5 [|d6 rest]]]]]]];
    try discriminate.
  intro H. inversion H. repeat eexists.
Qed.

Lemma parse_lines_onto info : forall s,
  forallb complete_line info = true ->
  exists s',
    for_each info (fun line =>
      if negb (string_eqb line "") then parseGPUNvidiaStats_line line else ret tt) s
    = Done tt s'
    /\ parsed_onto s s' (records_of_lines info).
Proof.
  induction info as [|line rest IH]; intros s Hc.
  - exists s. split; [reflexivity|]. unfold parsed_onto. simpl.
    rewrite app_nil_r. repeat split.
  - simpl in Hc. apply andb_true_iff in Hc. destruct Hc as [Hl Hrest].
    simpl. unfold complete_line in Hl.
    destruct (string_eqb line "") eqn:He; cbn [negb].
    + erewrite bind_Done by reflexivity. apply IH. exact Hrest.
    + simpl in Hl. destruct (line_record line) as [r|] eqn:Hr; [|discriminate].
      destruct (line_record_fields _ _ Hr) as (d0 & d1 & d2 & d3 & d4 & d5 & d6 & rst & Hs & Hrec).
      destruct (parse_line_appends line s _ _ _ _ _ _ _ _ Hs)
        as (s1 & Hrun & Hg & _ & Hv & Ht & Hlf).
      erewrite bind_Done by exact Hrun.
      destruct (IH s1 Hrest) as (s2 & Hrun2 & Hg2 & Hv2 & Hl2 & Ht2).
      exists s2. split; [exact Hrun2|]. unfold parsed_onto.
      rewrite Hg2, Hg, Hv2, Hv, Hl2, Hlf, Ht2, Ht, <- Hrec, <- app_assoc.
      repeat split.
Qed.

(** The parser on a complete output. *)
Lemma parse_output_appends output s :
  complete output = true ->
  exists s',
    parseGPUNvidiaStats output s = Done (gpuStats s ++ records output)%list s'
    /\ parsed_onto s s' (records output).
Proof.
  intro Hc. unfold parseGPUNvidiaStats.
  destruct (parse_lines_onto (strings.Split output LF) s Hc) as (s' & Hrun & Hp).
  erewrite bind_Done by exact Hrun.
  exists s'. split; [|exact Hp].
  unfold gets. destruct Hp as [Hg _]. unfold records. rewrite Hg. reflexivity.
Qed.

(** X3: on an output whose non-empty lines all have seven fields the parser
    returns, and what it returns is the samples it found in [gpuStats]
    followed by one record per non-empty line, in order. *)
Theorem parseGPUNvidiaStats_appends output s :
  complete output = true ->
  exists s',
    parseGPUNvidiaStats output s = Done (gpuStats s ++ records output)%list s'
    /\ parsed_onto s s' (records output).
Proof. apply parse_output_appends. Qed.

Lemma parseGPUNvidiaStats_appends_witness :
  complete (Samples.rtx3080_line ++ LF) = true
  /\ records (Samples.rtx3080_line ++ LF) = [Samples.rtx3080]
  /\ exists s', parseGPUNvidiaStats (Samples.rtx3080_line ++ LF) Samples.probed
                = Done [Samples.rtx3080] s'.
Proof.
  split; [reflexivity|]. split; [vm_compute; reflexivity|].
  destruct (parseGPUNvidiaStats_appends (Samples.rtx3080_line ++ LF) Samples.probed eq_refl)
    as (s' & Hrun & _).
  exists s'. rewrite Hrun. vm_compute. reflexivity.
Defined.

(** A refresh that succeeds, for any state and output. *)
Lemma refresh_appends env s output :
  GPU.Vendor (gpuInfo s) = "nvidia" ->
  GPU_STATS_UPDATE_INTERVAL <= elapsed env FGPU s \/ cached FGPU s = false ->
  exec_Output env (S (List.length (trace s))) "nvidia-smi" nvidia_query = (output, None) ->
  complete output = true ->
  exists s',
    GetGPUStats env s = Done (gpuStats s ++ records output)%list s'
    /\ gpuStats s' = (gpuStats s ++ records output)%list
    /\ lastFetchGPU s' = clock env (S (S (List.length (trace s)))).
Proof.
  intros Hv H Hout Hc. unfold GetGPUStats.
  do 2 erewrite bind_Done by reflexivity.
  decide_test Ht.
  { apply andb_false_iff. destruct H as [H|H]; [left; apply Z.ltb_ge; exact H | right; exact H]. }
  erewrite bind_Done by reflexivity.
  cbn [gpuInfo set_trace]. rewrite Hv. change (string_eqb "nvidia" "nvidia") with true. cbv iota.
  erewrite bind_Done by reflexivity.
  cbn [trace set_trace]. rewrite length_app, Nat.add_comm. cbn [List.length Nat.add].
  rewrite Hout. cbn [is_err].
  match goal with |- context [bind (parseGPUNvidiaStats output) _ ?st] =>
    destruct (parse_output_appends output st Hc) as (s1 & Hrun & Hg & _ & _ & Htr)
  end.
  erewrite bind_Done by exact Hrun.
  do 3 erewrite bind_Done by reflexivity.
  eexists. split; [reflexivity|].
  split; [reflexivity|].
  cbn [gpuStats lastFetchGPU set_lastFetchGPU set_gpuStats set_trace trace].
  rewrite Htr. cbn [trace set_trace]. rewrite !length_app. cbn [List.length].
  f_equal. lia.
Qed.

(** X4: a refresh that succeeds, in general: with the vendor nvidia, a stale
    or empty slot and a complete output, [GetGPUStats] returns the samples
    it had followed by the records of the output, and stores that list: the
    records of earlier refreshes are kept, not replaced. *)
Theorem GetGPUStats_refresh env s output :
  GPU.Vendor (gpuInfo s) = "nvidia" ->
  GPU_STATS_UPDATE_INTERVAL <= elapsed env FGPU s \/ cached FGPU s = false ->
  exec_Output env (S (List.length (trace s))) "nvidia-smi" nvidia_query = (output, None) ->
  complete output = true ->
  exists s',
    GetGPUStats env s = Done (gpuStats s ++ records output)%list s'
    /\ gpuStats s' = (gpuStats s ++ records output)%list
    /\ lastFetchGPU s' = clock env (S (S (List.length (trace s)))).
Proof. apply refresh_appends. Qed.

Lemma GetGPUStats_refresh_witness :
  GPU.Vendor (gpuInfo Samples.probed) = "nvidia"
  /\ cached FGPU Samples.probed = false
  /\ complete (Samples.rtx3080_line ++ LF) = true
  /\ exists s', GetGPUStats Samples.nvidia_box Samples.probed = Done [Samples.rtx3080] s'.
Proof.
  split; [reflexivity|]. split; [reflexivity|]. split; [reflexivity|].
  destruct (GetGPUStats_refresh Samples.nvidia_box Samples.probed (Samples.rtx3080_line ++ LF)
              eq_refl (or_intror eq_refl) eq_refl eq_refl) as (s' & Hrun & _).
  exists s'. rewrite Hrun. vm_compute. reflexivity.
Defined.

(** ** Successive GPU refreshes *)

(** C2 (the code fails the claim): on the machine with one card, two
    refreshes two seconds apart return first one record and then two, the
    tool having printed the same single line both times.  In general a
    refresh that finds [n] samples in the slot returns them followed by the
    records of the output: more than one record per line whenever the slot
    was not empty. *)
Theorem GetGPUStats_accumulates :
  (let first := GetGPUStats Samples.nvidia_box Samples.probed in
   let second := GetGPUStats Samples.nvidia_box (final first) in
   value first = Some [Samples.rtx3080]
   /\ value second = Some [Samples.rtx3080; Samples.rtx3080]
   /\ records (Samples.rtx3080_line ++ LF) = [Samples.rtx3080]
   /\ filter is_process (trace (final second))
      = [EvRun "nvidia-smi"; EvOutput "nvidia-smi" nvidia_query;
         EvOutput "nvidia-smi" nvidia_query])
  /\ forall env s output,
       GPU.Vendor (gpuInfo s) = "nvidia" ->
       GPU_STATS_UPDATE_INTERVAL <= elapsed env FGPU s ->
       exec_Output env (S (List.length (trace s))) "nvidia-smi" nvidia_query = (output, None) ->
       complete output = true ->
       exists s',
         GetGPUStats env s = Done (gpuStats s ++ records output)%list s'
         /\ List.length (gpuStats s')
            = (List.length (gpuStats s) + List.length (records output))%nat.
Proof.
  split; [vm_compute; repeat split; reflexivity|].
  intros env s output Hv Hstale Hout Hc.
  destruct (refresh_appends env s output Hv (or_introl Hstale) Hout Hc) as (s' & Hrun & Hg & _).
  exists s'. split; [exact Hrun|]. rewrite Hg. apply length_app.
Qed.

(** The older parser threads its local slice through the lines. *)
Lemma legacy_lines info : forall acc s,
  forallb complete_line info = true ->
  exists s',
    Legacy.parseGPUNvidiaData_lines info acc s = Done (acc ++ records_of_lines info)%list s'
    /\ gpuStats s' = gpuStats s /\ trace s' = trace s.
Proof.
  induction info as [|line rest IH]; intros acc s Hc.
  - exists s. simpl. rewrite app_nil_r. repeat split.
  - simpl in Hc. apply andb_true_iff in Hc. destruct Hc as [Hl Hrest].
    simpl. unfold complete_line in Hl.
    destruct (string_eqb line "") eqn:He; cbn [negb].
    + erewrite bind_Done by reflexivity. apply IH. exact Hrest.
    + simpl in Hl. destruct (line_record line) as [r|] eqn:Hr; [|discriminate].
      destruct (line_record_fields _ _ Hr) as (d0 & d1 & d2 & d3 & d4 & d5 & d6 & rst & Hs & Hrec).
      assert (Hline : exists s1,
                 Legacy.parseGPUNvidiaData_line line acc s = Done (acc ++ [r])%list s1
                 /\ gpuStats s1 = gpuStats s /\ trace s1 = trace s).
      { subst r. unfold Legacy.parseGPUNvidiaData_line, record_of_fields, or_zero. rewrite Hs.
        cbn [index nth_error]. cbv zeta.
        repeat first
          [ erewrite bind_Done by reflexivity
          | match goal with
            | E : strconv.ParseInt ?a ?b ?c = _ |- context [strconv.ParseInt ?a ?b ?c] => rewrite E
            | E : strconv.ParseFloat64 ?a = _ |- context [strconv.ParseFloat64 ?a] => rewrite E
            | |- context [strconv.ParseInt ?a ?b ?c] =>
                destruct (strconv.ParseInt a b c) as [? [?|]] eqn:?
            | |- context [strconv.ParseFloat64 ?a] =>
                destruct (strconv.ParseFloat64 a) as [? [?|]] eqn:?
            end; cbn [fst snd is_err when] ].
        all: eexists; (split; [reflexivity|]); split; reflexivity. }
      destruct Hline as (s1 & Hrun & Hg & Ht).
      erewrite bind_Done by exact Hrun.
      destruct (IH (acc ++ [r])%list s1 Hrest) as (s2 & Hrun2 & Hg2 & Ht2).
      exists s2. rewrite Hrun2, <- app_assoc. simpl. repeat split; congruence.
Qed.

(** X5: the older parser starts from an empty local slice: on a complete
    output it returns the records of the output and nothing else, and
    leaves the cached samples alone. *)
Theorem legacy_parser_replaces output s :
  complete output = true ->
  exists s',
    Legacy.parseGPUNvidiaData output s = Done (records output) s'
    /\ gpuStats s' = gpuStats s.
Proof.
  intro Hc. unfold Legacy.parseGPUNvidiaData.
  destruct (legacy_lines (strings.Split output LF) [] s Hc) as (s' & Hrun & Hg & _).
  exists s'. split; [exact Hrun | exact Hg].
Qed.

Lemma legacy_parser_replaces_witness :
  complete (Samples.rtx3080_line ++ LF) = true
  /\ exists s', Legacy.parseGPUNvidiaData (Samples.rtx3080_line ++ LF)
                  (set_gpuStats [Samples.rtx3080] Samples.probed)
                = Done [Samples.rtx3080] s'.
Proof.
  split; [reflexivity|].
  destruct (legacy_parser_replaces (Samples.rtx3080_line ++ LF)
              (set_gpuStats [Samples.rtx3080] Samples.probed) eq_refl) as (s' & Hrun & _).
  exists s'. rewrite Hrun. vm_compute. reflexivity.
Defined.

(** ** Reachable states are well formed *)

Lemma pointers_kept_refl s : pointers_kept s s.
Proof. repeat split. Qed.

Lemma pointers_kept_trans a b c : pointers_kept a b -> pointers_kept b c -> pointers_kept a c.
Proof. intros (H1 & H2 & H3 & H4) (H5 & H6 & H7 & H8). repeat split; congruence. Qed.

Ltac pointers_leaf := solve [repeat split].

Ltac pointers_run :=
  unfold_accessors; keeps_run pointers_kept_refl pointers_kept_trans pointers_leaf.

Lemma pointers_kept_wf s s' : pointers_kept s s' -> wf s -> wf s'.
Proof. intros (H1 & H2 & H3 & H4) [Hh Hm]. unfold wf. rewrite H1, H2, H3, H4. split; assumption. Qed.

Lemma hoare_ret {A} (P : State -> Prop) (a : A) : hoare P (ret a) (fun _ => P).
Proof. intros s H b s' E. injection E as _ Es. subst s'. exact H. Qed.

Lemma hoare_bind {A B} (P : State -> Prop) (Q : A -> State -> Prop) (R : B -> State -> Prop)
      (m : M A) (k : A -> M B) :
  hoare P m Q -> (forall a, hoare (Q a) (k a) R) -> hoare P (bind m k) R.
Proof.
  intros Hm Hk s HP b s' E. unfold bind in E.
  destruct (m s) as [a s1|msg s1] eqn:Em; [|discriminate].
  exact (Hk a s1 (Hm s HP a s1 Em) b s' E).
Qed.

Lemma hoare_weaken {A} (P P' : State -> Prop) (Q Q' : A -> State -> Prop) (m : M A) :
  hoare P m Q -> (forall s, P' s -> P s) -> (forall a s, Q a s -> Q' a s) -> hoare P' m Q'.
Proof. intros H HP HQ s HP' a s' E. apply HQ. exact (H s (HP s HP') a s' E). Qed.

(** A run that keeps the pointers keeps every property that depends on
    them only. *)
Lemma hoare_frame {A} (P : State -> Prop) (m : M A) :
  keeps pointers_kept m ->
  (forall s s', pointers_kept s s' -> P s -> P s') ->
  hoare P m (fun _ => P).
Proof.
  intros Hk HP s H a s' E. specialize (Hk s). rewrite E in Hk. exact (HP s s' Hk H).
Qed.

Lemma holding_host_kept p s s' : pointers_kept s s' -> holding_host p s -> holding_host p s'.
Proof.
  intros Hk [Hw Hv]. split; [exact (pointers_kept_wf _ _ Hk Hw)|].
  destruct Hk as (_ & H2 & _). rewrite H2. exact Hv.
Qed.

Lemma holding_mem_kept p s s' : pointers_kept s s' -> holding_mem p s -> holding_mem p s'.
Proof.
  intros Hk [Hw Hv]. split; [exact (pointers_kept_wf _ _ Hk Hw)|].
  destruct Hk as (_ & _ & _ & H4). rewrite H4. exact Hv.
Qed.

Lemma valid_snoc {A} (heap : list A) (x : A) p : valid heap p -> valid (heap ++ [x]) p.
Proof. destruct p as [|a]; simpl; [trivial|]. rewrite length_app. simpl. lia. Qed.

Lemma hoare_new_host v : hoare wf (new_host v) holding_host.
Proof.
  intros s [Hh Hm] p s' E. destruct v as [h|];
    unfold new_host, bind, gets, modify, ret in E; injection E as Ep Es; subst p s'.
  - split; [split|]; simpl.
    + apply valid_snoc. exact Hh.
    + exact Hm.
    + rewrite length_app. simpl. lia.
  - split; [split; assumption | exact I].
Qed.

Lemma hoare_new_mem v : hoare wf (new_mem v) holding_mem.
Proof.
  intros s [Hh Hm] p s' E. destruct v as [m|];
    unfold new_mem, bind, gets, modify, ret in E; injection E as Ep Es; subst p s'.
  - split; [split|]; simpl.
    + exact Hh.
    + apply valid_snoc. exact Hm.
    + rewrite length_app. simpl. lia.
  - split; [split; assumption | exact I].
Qed.

Lemma hoare_store_host p : hoare (holding_host p) (modify (set_hostInfo p)) (fun _ => wf).
Proof. intros s [[Hh Hm] Hv] a s' E. injection E as _ Es. subst s'. split; simpl; assumption. Qed.

Lemma hoare_store_mem p : hoare (holding_mem p) (modify (set_memInfo p)) (fun _ => wf).
Proof. intros s [[Hh Hm] Hv] a s' E. injection E as _ Es. subst s'. split; simpl; assumption. Qed.

Ltac frame_wf := apply hoare_frame; [pointers_run | apply pointers_kept_wf].
Ltac frame_host := apply hoare_frame; [pointers_run | apply holding_host_kept].
Ltac frame_mem := apply hoare_frame; [pointers_run | apply holding_mem_kept].

Lemma wf_GetHostInfo env : hoare wf (GetHostInfo env) (fun _ => wf).
Proof.
  unfold GetHostInfo.
  eapply hoare_bind; [frame_wf|]. intro since. cbv beta.
  eapply hoare_bind; [frame_wf|]. intro fresh. cbv beta.
  destruct fresh; [frame_wf|].
  eapply hoare_bind; [frame_wf|]. intros [h err]. cbv beta iota.
  eapply hoare_bind; [apply hoare_new_host|]. intro hInfo. cbv beta.
  eapply hoare_bind; [frame_host|]. intros ?. cbv beta.
  eapply hoare_bind; [frame_host|]. intro now.
  eapply hoare_bind; [frame_host|]. intros ?. cbv beta.
  eapply hoare_bind; [apply hoare_store_host|]. intros ?. cbv beta.
  frame_wf.
Qed.

Lemma wf_GetMemoryStats env : hoare wf (GetMemoryStats env) (fun _ => wf).
Proof.
  unfold GetMemoryStats.
  eapply hoare_bind; [frame_wf|]. intro since. cbv beta.
  eapply hoare_bind; [frame_wf|]. intro fresh. cbv beta.
  destruct fresh; [frame_wf|].
  eapply hoare_bind; [frame_wf|]. intros [m err]. cbv beta iota.
  eapply hoare_bind; [apply hoare_new_mem|]. intro mInfo. cbv beta.
  eapply hoare_bind; [frame_mem|]. intros ?. cbv beta.
  eapply hoare_bind; [frame_mem|]. intro now.
  eapply hoare_bind; [frame_mem|]. intros ?. cbv beta.
  eapply hoare_bind; [frame_mem|]. intro mi. cbv beta.
  destruct (ptr_eqb mi nil).
  - eapply hoare_bind; [apply hoare_store_mem|]. intros ?. cbv beta. frame_wf.
  - eapply hoare_bind; [frame_mem|]. intro old. cbv beta zeta.
    eapply hoare_bind; [frame_mem|]. intro cur. cbv beta zeta.
    destruct (PrimFloat.eqb (mem.UsedPercent old) (mem.UsedPercent cur)).
    + eapply hoare_weaken; [frame_mem | intros ? HP; exact HP | intros ? ? [HP _]; exact HP].
    + eapply hoare_bind; [apply hoare_store_mem|]. intros ?. cbv beta. frame_wf.
Qed.

Lemma wf_call env op : hoare wf (call env op) (fun _ => wf).
Proof.
  destruct op; try solve [apply (hoare_frame wf); [pointers_run | apply pointers_kept_wf]].
  - unfold call, discard. eapply hoare_bind; [apply wf_GetHostInfo|]. intro. apply hoare_ret.
  - unfold call, discard, GetHostname.
    eapply hoare_bind; [|intro; apply hoare_ret].
    eapply hoare_bind; [frame_wf|]. intro hn. cbv beta.
    destruct (negb (string_eqb hn "")); [frame_wf|].
    eapply hoare_bind; [apply wf_GetHostInfo|]. intros ?. cbv beta. frame_wf.
  - unfold call, discard. eapply hoare_bind; [apply wf_GetMemoryStats|]. intro. apply hoare_ret.
Qed.

(** X10: in every reachable state the pointers the package holds point into its
    heaps: the hypotheses of the freshness and change-detection theorems
    hold wherever a process can be. *)
Theorem reachable_wf env s : reachable env s -> wf s.
Proof.
  unfold reachable. intro H. remember init as s0 eqn:E.
  induction H as [|s s1 s2 op _ IH Hcall]; [subst; exact wf_init|].
  exact (wf_call env op s1 (IH E) tt s2 Hcall).
Qed.

Lemma reachable_wf_witness :
  reachable Samples.fast_box Samples.warm /\ wf Samples.warm.
Proof.
  assert (R : reachable Samples.fast_box Samples.warm).
  { apply later_call with (s1 := init) (op := OpGetMemoryStats); [apply later_refl|].
    vm_compute. reflexivity. }
  split; [exact R | exact (reachable_wf _ _ R)].
Defined.

(** ** The GPU accessor when the tool fails, and on an AMD machine *)

(** X6: when the sampling process fails, [GetGPUStats] logs the failure
    with the process's error and returns no samples ([nil]); the cached
    samples and the fetch timestamp stay as they were, and the one process
    spawned is the sampling process. *)
Theorem GetGPUStats_tool_failure env s out e :
  GPU.Vendor (gpuInfo s) = "nvidia" ->
  GPU_STATS_UPDATE_INTERVAL <= elapsed env FGPU s \/ cached FGPU s = false ->
  exec_Output env (S (List.length (trace s))) "nvidia-smi" nvidia_query = (out, Some e) ->
  exists s',
    GetGPUStats env s = Done [] s'
    /\ gpuStats s' = gpuStats s
    /\ lastFetchGPU s' = lastFetchGPU s
    /\ trace s' = (trace s ++ [EvClock; EvOutput "nvidia-smi" nvidia_query])%list
    /\ logs s'
       = (logs s ++ [(LevelError,
                      ("Failed to retrieve NVIDIA GPU data from nvidia-smi ! " ++ e)%string)])%list.
Proof.
  intros Hv H Hout. unfold GetGPUStats.
  do 2 erewrite bind_Done by reflexivity.
  decide_test Ht.
  { apply andb_false_iff. destruct H as [H|H]; [left; apply Z.ltb_ge; exact H | right; exact H]. }
  erewrite bind_Done by reflexivity.
  cbn [gpuInfo set_trace]. rewrite Hv. change (string_eqb "nvidia" "nvidia") with true. cbv iota.
  erewrite bind_Done by reflexivity.
  cbn [trace set_trace]. rewrite length_app, Nat.add_comm. cbn [List.length Nat.add].
  rewrite Hout. cbn [is_err].
  erewrite bind_Done by reflexivity.
  eexists. split; [reflexivity|].
  split; [reflexivity|]. split; [reflexivity|].
  split; [simpl; rewrite <- app_assoc; reflexivity | reflexivity].
Qed.

Lemma GetGPUStats_tool_failure_witness :
  let s := set_gpuVendor "nvidia" init in
  GPU.Vendor (gpuInfo s) = "nvidia"
  /\ cached FGPU s = false
  /\ exists s', GetGPUStats (Samples.broken Samples.slow_clock) s = Done [] s'.
Proof.
  cbv zeta. split; [reflexivity|]. split; [reflexivity|].
  destruct (GetGPUStats_tool_failure (Samples.broken Samples.slow_clock)
              (set_gpuVendor "nvidia" init) "" "executable file not found in $PATH"
              eq_refl (or_intror eq_refl) eq_refl) as (s' & Hrun & _).
  exists s'. exact Hrun.
Defined.

(** X7: with the vendor amd a refresh spawns nothing: it logs that AMD is not
    implemented, records the time and returns the cached samples. *)
Theorem GetGPUStats_amd env s :
  GPU.Vendor (gpuInfo s) = "amd" ->
  GPU_STATS_UPDATE_INTERVAL <= elapsed env FGPU s \/ cached FGPU s = false ->
  exists s',
    GetGPUStats env s = Done (gpuStats s) s'
    /\ gpuStats s' = gpuStats s
    /\ trace s' = (trace s ++ [EvClock; EvClock])%list
    /\ lastFetchGPU s' = clock env (S (List.length (trace s)))
    /\ logs s' = (logs s ++ [(LevelError, "AMD GPU not implemented yet !")])%list.
Proof.
  intros Hv H. unfold GetGPUStats.
  do 2 erewrite bind_Done by reflexivity.
  decide_test Ht.
  { apply andb_false_iff. destruct H as [H|H]; [left; apply Z.ltb_ge; exact H | right; exact H]. }
  erewrite bind_Done by reflexivity.
  cbn [gpuInfo set_trace]. rewrite Hv.
  change (string_eqb "amd" "nvidia") with false. change (string_eqb "amd" "amd") with true.
  cbv iota.
  do 3 erewrite bind_Done by reflexivity.
  eexists. split; [reflexivity|]. repeat split.
  - simpl. rewrite <- app_assoc. reflexivity.
  - simpl. rewrite length_app, Nat.add_comm. reflexivity.
Qed.

Lemma GetGPUStats_amd_witness :
  let s := set_gpuVendor "amd" init in
  GPU.Vendor (gpuInfo s) = "amd"
  /\ cached FGPU s = false
  /\ exists s', GetGPUStats (Samples.broken Samples.slow_clock) s = Done [] s'.
Proof.
  cbv zeta. split; [reflexivity|]. split; [reflexivity|].
  destruct (GetGPUStats_amd (Samples.broken Samples.slow_clock) (set_gpuVendor "amd" init)
              eq_refl (or_intror eq_refl)) as (s' & Hrun & _).
  exists s'. exact Hrun.
Defined.

(** ** The order of the probe *)

(** X8: from an unset state [HasGPU] runs [nvidia-smi] first; if it exits with
    success the vendor is nvidia and [rocm-smi] is not run; otherwise
    [rocm-smi] is run, and its success makes the vendor amd; if both fail,
    the failure is logged, false is returned, and the flag and the vendor
    are as before. *)
Theorem HasGPU_detection env s :
  hasGPU s = false ->
  let n := List.length (trace s) in
  let s1 := set_trace (trace s ++ [EvRun "nvidia-smi"])%list s in
  let s2 := set_trace (trace s1 ++ [EvRun "rocm-smi"])%list s1 in
  HasGPU env s =
    match exec_Run env n "nvidia-smi" with
    | None => Done true (set_hasGPU true (set_gpuVendor "nvidia" s1))
    | Some _ =>
        match exec_Run env (S n) "rocm-smi" with
        | None => Done true (set_hasGPU true (set_gpuVendor "amd" s2))
        | Some _ =>
            Done false
              (set_logs (logs s2 ++ [(LevelError,
                 "HasGPU(): Could not find NVIDIA or AMD GPUs installed using SMI")])%list s2)
        end
    end.
Proof.
  intros H n s1 s2. subst n s1 s2. unfold HasGPU.
  erewrite bind_Done by reflexivity. rewrite H.
  erewrite bind_Done by reflexivity.
  destruct (exec_Run env (List.length (trace s)) "nvidia-smi") as [e1|]; cbn [is_err negb].
  - erewrite bind_Done by reflexivity.
    cbn [trace set_trace]. rewrite length_app, Nat.add_comm. cbn [List.length Nat.add].
    destruct (exec_Run env (S (List.length (trace s))) "rocm-smi") as [e2|]; cbn [is_err negb].
    + erewrite bind_Done by reflexivity. unfold gets. cbn [hasGPU set_logs set_trace]. rewrite H.
      reflexivity.
    + do 2 erewrite bind_Done by reflexivity. reflexivity.
  - do 2 erewrite bind_Done by reflexivity. reflexivity.
Qed.

Lemma HasGPU_detection_witness :
  hasGPU init = false
  /\ HasGPU Samples.nvidia_box init
     = Done true (set_hasGPU true (set_gpuVendor "nvidia"
                    (set_trace [EvRun "nvidia-smi"] init))).
Proof.
  split; [reflexivity|].
  exact (HasGPU_detection Samples.nvidia_box init eq_refl).
Defined.

(** X9: the older [HasGPU] has no flag: every call runs the NVIDIA presence
    check, whatever the state. *)
Theorem legacy_HasGPU_always_probes env s :
  exists tr, trace (final (Legacy.HasGPU env s)) = (trace s ++ EvRun "nvidia-smi" :: tr)%list.
Proof.
  unfold Legacy.HasGPU.
  erewrite bind_Done by reflexivity.
  destruct (exec_Run env (List.length (trace s)) "nvidia-smi") as [e1|]; cbn [is_err negb].
  - erewrite bind_Done by reflexivity.
    destruct (exec_Run env _ "rocm-smi") as [e2|]; cbn [is_err negb];
      eexists; simpl; rewrite <- app_assoc; reflexivity.
  - eexists. simpl. reflexivity.
Qed.

(** * The other accessors *)

(** ** Steps that return *)

Lemma when_log_Done b msg s :
  exists s', when b (slog_Error msg) s = Done tt s'
    /\ s' = (if b then set_logs (logs s ++ [(LevelError, msg)])%list s else s).
Proof. destruct b; eexists; split; reflexivity. Qed.

(** ** CPU identity *)

Lemma GetCPUInfo_loop cInfo : forall s,
  exists s',
    for_each cInfo (fun c =>
      slog_Debug "cpu.Info(): " ;;
      let info := CPU.mk 0 (cpu.ModelName c) (cpu.VendorID c) (cpu.Cores c) 0 in
      modify (fun s => set_cpuInfo (cpuInfo s ++ [info])%list s)) s = Done tt s'
    /\ cpuInfo s' = (cpuInfo s ++ map cpu_of cInfo)%list
    /\ trace s' = trace s.
Proof.
  induction cInfo as [|c rest IH]; intro s.
  - exists s. simpl. rewrite app_nil_r. repeat split.
  - cbn [for_each]. erewrite bind_Done by reflexivity.
    match goal with |- context [for_each rest _ ?st] => destruct (IH st) as (s' & Hrun & Hc & Ht) end.
    exists s'. split; [exact Hrun|]. rewrite Hc, Ht. simpl. rewrite <- app_assoc. split; reflexivity.
Qed.

(** X12: [GetCPUInfo] always returns.  With a filled slot it returns the
    slot and does nothing else; with an empty slot it calls [cpu.Info()]
    once and returns one record per socket, in order, with the name, vendor
    and core count copied and the logical count 0.  A fetch that yields no
    socket leaves the slot empty, so the next call fetches again. *)
Theorem GetCPUInfo_spec env s :
  exists s',
    GetCPUInfo env s = Done (cpuInfo s') s'
    /\ (cpuInfo s <> [] -> s' = s)
    /\ (cpuInfo s = [] ->
        cpuInfo s' = map cpu_of (fst (cpu_Info env (List.length (trace s))))
        /\ trace s' = (trace s ++ [EvCall CpuInfo])%list).
Proof.
  unfold GetCPUInfo. erewrite bind_Done by reflexivity.
  destruct (cpuInfo s) as [|c0 r0] eqn:Hc; cbn [List.length Nat.eqb negb].
  - erewrite bind_Done by reflexivity.
    destruct (cpu_Info env (List.length (trace s))) as [cInfo err]. cbn [fst].
    destruct (when_log_Done (is_err err) ("Failed to retrieve cpu.Info()! " ++ Error err)
                (set_trace (trace s ++ [EvCall CpuInfo])%list s)) as (s1 & Hrun1 & Hs1).
    erewrite bind_Done by exact Hrun1.
    destruct (GetCPUInfo_loop cInfo s1) as (s2 & Hrun2 & Hc2 & Ht2).
    erewrite bind_Done by exact Hrun2.
    exists s2. split; [reflexivity|]. split; [congruence|]. intros _.
    rewrite Hc2, Ht2, Hs1. destruct (is_err err); simpl; rewrite Hc; split; reflexivity.
  - exists s. split; [unfold ret; rewrite Hc; reflexivity|]. split; [reflexivity | discriminate].
Qed.

(** ** CPU model name *)

Lemma prefix_length a : forall b, String.prefix a b = true -> (String.length a <= String.length b)%nat.
Proof.
  induction a as [|x a IH]; intros b H; simpl; [lia|].
  destruct b as [|y b]; simpl in H; [discriminate|].
  destruct (Ascii.ascii_dec x y); [|discriminate].
  specialize (IH b H). simpl. lia.
Qed.

Lemma string_length_append a b :
  String.length (a ++ b) = (String.length a + String.length b)%nat.
Proof. induction a as [|x a IH]; simpl; [reflexivity | rewrite IH; reflexivity]. Qed.

(** A replacement by a text that is not longer never lengthens. *)
Lemma replace_from_length old new :
  (String.length new <= String.length old)%nat ->
  forall s skip, (skip <= String.length s)%nat ->
    (String.length (strings.replace_from old new skip s) + skip <= String.length s)%nat.
Proof.
  intro Hn. induction s as [|c rest IH]; intros skip Hs.
  - simpl in *. lia.
  - cbn [strings.replace_from]. destruct skip as [|k].
    + destruct (String.prefix old (String c rest)) eqn:Hp.
      * pose proof (prefix_length _ _ Hp) as Hl. rewrite string_length_append.
        cbn [String.length] in *.
        specialize (IH (String.length old - 1)%nat ltac:(lia)). lia.
      * cbn [String.length] in *. specialize (IH 0%nat ltac:(lia)). lia.
    + cbn [String.length] in *. specialize (IH k ltac:(lia)). lia.
Qed.

Lemma ReplaceAll_length s old new :
  (String.length new <= String.length old)%nat ->
  (String.length (strings.ReplaceAll s old new) <= String.length s)%nat.
Proof.
  intro H. unfold strings.ReplaceAll.
  pose proof (replace_from_length old new H s 0%nat ltac:(lia)). lia.
Qed.

Lemma formatCPUModelName_run name c rest s :
  cpuInfo s = c :: rest ->
  exists out,
    formatCPUModelName name s = Done out s
    /\ (String.length out <= String.length name)%nat
    /\ (CPU.Vendor c <> "GenuineIntel" -> out = name).
Proof.
  intro Hc. unfold formatCPUModelName.
  erewrite bind_Done by reflexivity. rewrite Hc. cbn [index nth_error].
  erewrite bind_Done by reflexivity.
  destruct (string_eqb (CPU.Vendor c) "GenuineIntel") eqn:Hv.
  - eexists. split; [reflexivity|]. split.
    + cbv zeta.
      repeat (etransitivity; [apply ReplaceAll_length; simpl; lia|]). lia.
    + intro H. apply string_eqb_eq in Hv. congruence.
  - exists name. split; [reflexivity|]. split; [lia | reflexivity].
Qed.

(** X13: with a filled CPU slot [GetCPUModelName] returns at once and
    leaves the state as it was: the name it returns is never longer than
    the first socket's model name, and is that name itself unless the
    vendor is GenuineIntel. *)
Theorem GetCPUModelName_cached env s c rest :
  cpuInfo s = c :: rest ->
  exists out,
    GetCPUModelName env s = Done out s
    /\ (String.length out <= String.length (CPU.Name c))%nat
    /\ (CPU.Vendor c <> "GenuineIntel" -> out = CPU.Name c).
Proof.
  intro Hc. unfold GetCPUModelName.
  erewrite bind_Done by reflexivity. rewrite Hc. cbn [List.length Nat.eqb when].
  do 2 erewrite bind_Done by reflexivity. rewrite Hc. cbn [index nth_error].
  erewrite bind_Done by reflexivity.
  apply formatCPUModelName_run with (rest := rest). exact Hc.
Qed.

Lemma GetCPUModelName_cached_witness :
  let s := final (GetCPUInfo Samples.nvidia_box init) in
  cpuInfo s = [cpu_of (cpu.mkInfoStat "Intel(R) Core(TM) i7-9700K CPU @ 3.60GHz" "GenuineIntel" 8)]
  /\ GetCPUModelName Samples.nvidia_box s = Done "Intel i7-9700K @3.60GHz" s.
Proof.
  cbv zeta. split; [reflexivity|].
  destruct (GetCPUModelName_cached Samples.nvidia_box (final (GetCPUInfo Samples.nvidia_box init))
              _ _ eq_refl) as (out & Hrun & _).
  rewrite Hrun. f_equal.
  assert (E : value (GetCPUModelName Samples.nvidia_box (final (GetCPUInfo Samples.nvidia_box init)))
              = Some "Intel i7-9700K @3.60GHz") by (vm_compute; reflexivity).
  rewrite Hrun in E. simpl in E. congruence.
Defined.

(** X14: on a machine whose [cpu.Info()] yields no socket,
    [GetCPUModelName] on an empty slot panics at [cpuInfo[0]]. *)
Theorem GetCPUModelName_without_socket_panics env s e :
  cpuInfo s = [] ->
  cpu_Info env (List.length (trace s)) = ([], e) ->
  panics (GetCPUModelName env s) = true.
Proof.
  intros Hc Hp. unfold GetCPUModelName.
  erewrite bind_Done by reflexivity. rewrite Hc. cbn [List.length Nat.eqb when].
  destruct (GetCPUInfo_spec env s) as (s1 & Hrun & _ & Hempty).
  destruct (Hempty Hc) as [Hc1 _]. rewrite Hp in Hc1. simpl in Hc1.
  erewrite bind_Done.
  2:{ erewrite bind_Done by exact Hrun. reflexivity. }
  erewrite bind_Done by reflexivity. rewrite Hc1. reflexivity.
Qed.

Lemma GetCPUModelName_without_socket_panics_witness :
  cpuInfo init = []
  /\ panics (GetCPUModelName (Samples.broken Samples.slow_clock) init) = true.
Proof.
  split; [reflexivity|].
  apply (GetCPUModelName_without_socket_panics (Samples.broken Samples.slow_clock) init
           (Some "cpu.Info: not implemented")); reflexivity.
Defined.

(** ** The families do not interfere *)

Lemma slot_kept_refl g s : slot_kept g s s.
Proof. split; reflexivity. Qed.

Lemma slot_kept_trans g a b c : slot_kept g a b -> slot_kept g b c -> slot_kept g a c.
Proof. intros [H1 H2] [H3 H4]. split; congruence. Qed.

Ltac slot_leaf := solve [split; reflexivity].

(** X15: a call writes no slot and no fetch timestamp but those of its own
    family, whether it returns or panics: the identity functions
    ([GetCPUInfo], [GetCPUModelName], [HasGPU], [GPUName]) write none at
    all. *)
Theorem call_keeps_other_slots env op g :
  owner op <> Some g -> keeps (slot_kept g) (call env op).
Proof.
  intro H.
  destruct op, g; try (exfalso; apply H; reflexivity);
    unfold_accessors;
    match goal with
    | |- keeps (slot_kept ?g) _ => keeps_run (slot_kept_refl g) (slot_kept_trans g) slot_leaf
    end.
Qed.

Lemma call_keeps_other_slots_witness :
  owner OpGetHostname <> Some FMem
  /\ keeps (slot_kept FMem) (call Samples.fast_box OpGetHostname).
Proof.
  split; [discriminate|].
  apply (call_keeps_other_slots Samples.fast_box OpGetHostname FMem). discriminate.
Defined.

(** ** CPU load history *)

(** Closes the goals about the fields of a final state that was computed. *)
Ltac same_state :=
  cbn; rewrite <- ?app_assoc, ?length_app; cbn [List.length];
  repeat split; try reflexivity; try (f_equal; lia).

(** X16: whenever [GetCPUStats] fetches (empty history, or the interval
    has passed) and the provider hands back at least one sample, it appends
    one record holding the first sample to the history and returns the
    whole history: older records are never dropped or replaced.  The fetch
    timestamp becomes the clock reading taken after the provider's call. *)
Theorem GetCPUStats_fetch_appends env s pct more e :
  let pre := if cached FCPU s then [EvClock] else [] in
  let n := List.length (trace s ++ pre)%list in
  cached FCPU s = false \/ CPU_STATS_UPDATE_INTERVAL <= elapsed env FCPU s ->
  cpu_Percent env n = (pct :: more, e) ->
  exists s',
    GetCPUStats env s = Done (cpuStats s ++ [CPUStats.mk pct])%list s'
    /\ cpuStats s' = (cpuStats s ++ [CPUStats.mk pct])%list
    /\ lastFetchCPU s' = clock env (S n)
    /\ trace s' = (trace s ++ pre ++ [EvCall CpuPercent; EvClock])%list.
Proof.
  intros pre n. subst pre n. unfold GetCPUStats.
  erewrite bind_Done by reflexivity.
  change (negb (Nat.eqb (List.length (cpuStats s)) 0)) with (cached FCPU s).
  destruct (cached FCPU s) eqn:Hc; intros H Hp.
  - destruct H as [H|H]; [discriminate|].
    erewrite bind_Done by (erewrite bind_Done by reflexivity; reflexivity).
    decide_test Ht.
    { apply Z.ltb_ge. exact H. }
    erewrite bind_Done by reflexivity. cbn [trace set_trace]. rewrite Hp.
    destruct e; cbn [is_err when];
      do 4 erewrite bind_Done by reflexivity;
      (eexists; split; [reflexivity|]); same_state.
  - rewrite app_nil_r in Hp.
    erewrite bind_Done by reflexivity. cbv iota.
    erewrite bind_Done by reflexivity. rewrite Hp.
    destruct e; cbn [is_err when];
      do 4 erewrite bind_Done by reflexivity;
      (eexists; split; [reflexivity|]); same_state.
Qed.

Lemma GetCPUStats_fetch_appends_witness :
  let s := final (GetCPUStats Samples.nvidia_box init) in
  cached FCPU s = true
  /\ exists s', GetCPUStats Samples.nvidia_box s = Done (cpuStats s ++ cpuStats s)%list s'.
Proof.
  cbv zeta. split; [reflexivity|].
  destruct (GetCPUStats_fetch_appends Samples.nvidia_box
              (final (GetCPUStats Samples.nvidia_box init)) 12.5%float [] None)
    as (s' & Hrun & _).
  - right. vm_compute. discriminate.
  - reflexivity.
  - exists s'. exact Hrun.
Defined.

(** ** Network counters *)

(** A loop that only logs changes nothing but the log. *)
Lemma debug_loop_Done {A} msg (l : list A) : forall i s,
  exists lg, for_each_i i l (fun _ _ => slog_Debug msg) s = Done tt (set_logs lg s).
Proof.
  induction l as [|x r IH]; intros i s.
  - exists (logs s). destruct s; reflexivity.
  - cbn [for_each_i]. erewrite bind_Done by reflexivity.
    destruct (IH (S i) (set_logs (logs s ++ [(LevelDebug, msg)])%list s)) as [lg Hlg].
    exists lg. rewrite Hlg. reflexivity.
Qed.

(** X17: whenever [GetNetworkStats] fetches (the interval has passed, or
    the slot is empty) it returns, and what it returns and stores is exactly
    what [net.IOCounters] handed back: counters fetched earlier are not
    kept, even when the provider fails and hands back nothing. *)
Theorem GetNetworkStats_refresh env s :
  let n := List.length (trace s) in
  NET_STATS_UPDATE_INTERVAL <= elapsed env FNet s \/ cached FNet s = false ->
  exists s',
    GetNetworkStats env s = Done (fst (net_IOCounters env (S n))) s'
    /\ netInfo s' = fst (net_IOCounters env (S n))
    /\ lastFetchNet s' = clock env (S (S n))
    /\ trace s' = (trace s ++ [EvClock; EvCall NetIOCounters; EvClock])%list.
Proof.
  intros n H. subst n. unfold GetNetworkStats.
  do 2 erewrite bind_Done by reflexivity.
  decide_test Hc.
  { apply andb_false_iff. destruct H as [H|H]; [left; apply Z.ltb_ge; exact H | right; exact H]. }
  erewrite bind_Done by reflexivity. cbn [trace set_trace].
  rewrite length_app, Nat.add_1_r. cbn [List.length].
  destruct (net_IOCounters env (S (List.length (trace s)))) as [nInfo err]. cbn [fst].
  destruct (is_err err); cbn [when];
    do 5 erewrite bind_Done by reflexivity;
    match goal with
    | |- context [bind (for_each_i ?i ?l _) _ ?st] =>
        destruct (debug_loop_Done "net.IOCounters(), interface #" l i st) as [lg Hlg]
    end;
    (erewrite bind_Done by exact Hlg);
    (eexists; split; [reflexivity|]); same_state.
Qed.

Lemma GetNetworkStats_refresh_witness :
  let s := final (GetNetworkStats Samples.flaky_net init) in
  netInfo s = [net.mkIOCountersStat "all" 1000 2000]
  /\ NET_STATS_UPDATE_INTERVAL <= elapsed Samples.flaky_net FNet s
  /\ exists s', GetNetworkStats Samples.flaky_net s = Done [] s'.
Proof.
  cbv zeta. split; [reflexivity|]. split; [vm_compute; discriminate|].
  destruct (GetNetworkStats_refresh Samples.flaky_net
              (final (GetNetworkStats Samples.flaky_net init))) as (s' & Hrun & _).
  - left. vm_compute. discriminate.
  - exists s'. exact Hrun.
Defined.

(** ** Disks *)

Lemma disks_kept_refl s : disks_kept s s.
Proof. split; reflexivity. Qed.

Lemma disks_kept_trans a b c : disks_kept a b -> disks_kept b c -> disks_kept a c.
Proof. intros [H1 H2] [H3 H4]. split; congruence. Qed.

(** [isVirtualDisk] always returns, and leaves the disk variables alone. *)
Lemma isVirtualDisk_returns env path s :
  exists b s',
    isVirtualDisk env path s = Done b s'
    /\ disks_kept s s'
    /\ (GOOS env <> "windows" -> b = false).
Proof.
  assert (K : keeps disks_kept (isVirtualDisk env path)).
  { unfold_accessors. keeps_run disks_kept_refl disks_kept_trans ltac:(solve [split; reflexivity]). }
  specialize (K s).
  unfold isVirtualDisk in *.
  destruct (string_eqb (GOOS env) "windows") eqn:Hos.
  - destruct (windows.UTF16PtrFromString path) as [d err].
    destruct (is_err err); cbn [when] in *;
      (erewrite bind_Done in * by reflexivity);
      (erewrite bind_Done in * by reflexivity);
      match goal with
      | |- context [if ?c then _ else _] => destruct c
      end;
      try (do 2 eexists; split; [reflexivity|]; split;
           [exact K | intro H; apply string_eqb_eq in Hos; contradiction]);
      match goal with
      | |- context [if ?c then _ else _] => destruct c
      end;
      try (do 2 eexists; split; [reflexivity|]; split;
           [exact K | intro H; apply string_eqb_eq in Hos; contradiction]);
      (erewrite bind_Done in * by reflexivity);
      match goal with
      | |- context [let '(_, _) := ?x in _] => destruct x as [io e]
      end;
      destruct io; cbn [List.length] in *;
      (do 2 eexists; split; [reflexivity|]; split;
       [exact K | intro H; apply string_eqb_eq in Hos; contradiction]).
  - do 2 eexists. split; [reflexivity|]. split; [exact K | reflexivity].
Qed.

Lemma update_nth_app {A} (d : list A) v x r :
  update_nth (List.length d) v (d ++ x :: r)%list = (d ++ v :: r)%list.
Proof. induction d as [|y d IH]; simpl; [reflexivity | rewrite IH; reflexivity]. Qed.

Lemma disk_step_run env i dsk s :
  (forall k p, fst (disk_Usage env k p) <> None) ->
  exists st s',
    disk_step env i dsk s = Done tt s'
    /\ disksStats s' = update_nth i st (disksStats s)
    /\ disk_record env dsk st
    /\ lastFetchDisk s' = lastFetchDisk s.
Proof.
  intro Hu. cbv beta zeta.
  erewrite bind_Done by reflexivity.
  destruct (disk_Usage env (List.length (trace s)) (disk.Mountpoint dsk)) as [[u|] err] eqn:Eu.
  2:{ exfalso. apply (Hu (List.length (trace s)) (disk.Mountpoint dsk)). rewrite Eu. reflexivity. }
  destruct (is_err err); cbn [when];
    do 4 erewrite bind_Done by reflexivity;
    match goal with
    | |- context [bind (isVirtualDisk env ?p) _ ?st] =>
        destruct (isVirtualDisk_returns env p st) as (b & s1 & Hrun & [Hk1 Hk2] & Hos)
    end;
    (erewrite bind_Done by exact Hrun);
    (eexists; eexists; split; [reflexivity|]);
    cbn; rewrite ?Hk1, ?Hk2; cbn;
    (split; [reflexivity|]); (split; [|reflexivity]);
    (split; [reflexivity|]); (split; [reflexivity|]);
    (split; [|exact Hos]);
    exists (List.length (trace s)), u, err; repeat split; try reflexivity; exact Eu.
Qed.

Lemma disk_loop_run env :
  (forall k p, fst (disk_Usage env k p) <> None) ->
  forall dInfo done s,
    disksStats s = (done ++ repeat DiskStats.zero (List.length dInfo))%list ->
    exists recs s',
      for_each_i (List.length done) dInfo (disk_step env) s = Done tt s'
      /\ disksStats s' = (done ++ recs)%list
      /\ Forall2 (disk_record env) dInfo recs
      /\ lastFetchDisk s' = lastFetchDisk s.
Proof.
  intro Hu. induction dInfo as [|dsk rest IH]; intros done s Hs.
  - exists [], s. simpl in *. repeat split; [exact Hs | constructor].
  - cbn [for_each_i].
    destruct (disk_step_run env (List.length done) dsk s Hu) as (st & s1 & Hrun & Hd & Hrec & Hl).
    erewrite bind_Done by exact Hrun.
    cbn [List.length repeat] in Hs. rewrite Hs, update_nth_app in Hd.
    destruct (IH (done ++ [st])%list s1) as (recs & s' & Hloop & Hd' & Hall & Hl').
    { rewrite Hd, <- app_assoc. reflexivity. }
    rewrite length_app, Nat.add_1_r in Hloop. cbn [List.length] in Hloop.
    exists (st :: recs), s'. split; [exact Hloop|].
    split; [rewrite Hd', <- app_assoc; reflexivity|].
    split; [constructor; assumption | congruence].
Qed.

(** X18: whenever [GetDisksStats] fetches and every [disk.Usage] call
    hands back a usage, it returns and stores exactly one record per
    partition of [disk.Partitions], in the same order, replacing the
    records held before: each has the partition's mount point and device,
    the file-system code, sizes and rounded used share of a usage of that
    mount point, and off windows is never marked virtual. *)
Theorem GetDisksStats_refresh env s :
  let n := List.length (trace s) in
  (forall k p, fst (disk_Usage env k p) <> None) ->
  DISK_STATS_UPDATE_INTERVAL <= elapsed env FDisk s \/ cached FDisk s = false ->
  exists s',
    GetDisksStats env s = Done (disksStats s') s'
    /\ Forall2 (disk_record env) (fst (disk_Partitions env (S n))) (disksStats s')
    /\ lastFetchDisk s' = clock env (S (S n)).
Proof.
  intros n Hu H. subst n. unfold GetDisksStats.
  do 2 erewrite bind_Done by reflexivity.
  decide_test Hc.
  { apply andb_false_iff. destruct H as [H|H]; [left; apply Z.ltb_ge; exact H | right; exact H]. }
  erewrite bind_Done by reflexivity. cbn [trace set_trace].
  rewrite length_app, Nat.add_1_r. cbn [List.length].
  destruct (disk_Partitions env (S (List.length (trace s)))) as [dInfo err]. cbn [fst].
  destruct (is_err err); cbn [when];
    do 4 erewrite bind_Done by reflexivity;
    match goal with
    | |- context [bind (for_each_i _ _ _) _ ?st] =>
        destruct (disk_loop_run env Hu dInfo [] st eq_refl) as (recs & s' & Hloop & Hd & Hall & Hl)
    end;
    cbn [List.length] in Hloop;
    (erewrite bind_Done by exact Hloop);
    exists s'; (split; [reflexivity|]);
    (split; [rewrite Hd; exact Hall|]);
    rewrite Hl; same_state.
Qed.

Lemma GetDisksStats_refresh_witness :
  (forall k p, fst (disk_Usage Samples.nvidia_box k p) <> None)
  /\ cached FDisk init = false
  /\ exists s',
       GetDisksStats Samples.nvidia_box init = Done (disksStats s') s'
       /\ Forall2 (disk_record Samples.nvidia_box)
            [disk.mkPartitionStat "C:" "C:" "NTFS" ["rw"]] (disksStats s').
Proof.
  assert (Hu : forall k p, fst (disk_Usage Samples.nvidia_box k p) <> None)
    by (intros k p; discriminate).
  split; [exact Hu|]. split; [reflexivity|].
  destruct (GetDisksStats_refresh Samples.nvidia_box init Hu (or_intror eq_refl))
    as (s' & Hrun & Hall & _).
  exists s'. split; [exact Hrun | exact Hall].
Defined.

(** X19: when [GetDisksStats] fetches and [disk.Usage] hands back no
    usage for the first partition (as it does with an error), the call
    panics at [usage.String()]: one unreadable mount point takes the whole
    refresh down. *)
Theorem GetDisksStats_nil_usage_panics env s dsk rest e e' :
  let n := List.length (trace s) in
  DISK_STATS_UPDATE_INTERVAL <= elapsed env FDisk s \/ cached FDisk s = false ->
  disk_Partitions env (S n) = (dsk :: rest, e) ->
  disk_Usage env (S (S (S n))) (disk.Mountpoint dsk) = (None, e') ->
  panics (GetDisksStats env s) = true.
Proof.
  intros n H Hp Hu. subst n. unfold GetDisksStats.
  do 2 erewrite bind_Done by reflexivity.
  decide_test Hc.
  { apply andb_false_iff. destruct H as [H|H]; [left; apply Z.ltb_ge; exact H | right; exact H]. }
  erewrite bind_Done by reflexivity. cbn [trace set_trace].
  rewrite length_app, Nat.add_1_r. cbn [List.length]. rewrite Hp.
  destruct (is_err e); cbn [when];
    do 4 erewrite bind_Done by reflexivity;
    cbn [for_each_i]; unfold bind at 1; unfold bind at 1; unfold bind at 1;
    unfold ask at 1; cbn [trace set_trace set_logs set_lastFetchDisk set_disksStats];
    rewrite !length_app, !Nat.add_1_r; cbn [List.length];
    rewrite Hu; destruct (is_err e'); reflexivity.
Qed.

Lemma GetDisksStats_nil_usage_panics_witness :
  cached FDisk init = false
  /\ panics (GetDisksStats Machines.no_usage_box init) = true.
Proof.
  split; [reflexivity|].
  apply (GetDisksStats_nil_usage_panics Machines.no_usage_box init
           (disk.mkPartitionStat "/dev/sr0" "/media/cdrom" "udf" ["ro"]) [] None
           (Some "no medium found"));
    [right; reflexivity | reflexivity | reflexivity].
Defined.

(** ** Host *)

(** X20: whenever the interval has passed and [host.Info] hands back a
    record, [GetHostInfo] returns a pointer to that record, stores it in
    the slot, sets the cached hostname to the record's and the fetch
    timestamp to the clock reading taken after the provider's call. *)
Theorem GetHostInfo_refresh env s h err :
  let n := List.length (trace s) in
  HOST_INFO_UPDATE_INTERVAL <= elapsed env FHost s ->
  host_Info env (S n) = (Some h, err) ->
  exists p s',
    GetHostInfo env s = Done p s'
    /\ hostInfo s' = p
    /\ deref hostHeap p s' = Done h s'
    /\ hostname s' = host.Hostname h
    /\ lastFetchHost s' = clock env (S (S n)).
Proof.
  intros n H Hp. subst n. unfold GetHostInfo.
  erewrite bind_Done by reflexivity.
  decide_test Hc.
  { apply Z.ltb_ge. exact H. }
  erewrite bind_Done by reflexivity. cbv iota.
  erewrite bind_Done by reflexivity.
  cbn [trace set_trace]. rewrite length_app, Nat.add_1_r. cbn [List.length]. rewrite Hp.
  erewrite bind_Done by reflexivity.
  destruct (is_err err); cbn [when];
    do 5 erewrite bind_Done by reflexivity;
    cbn [hostInfo set_hostInfo];
    (erewrite bind_Done by (apply host_String_Done with (h := h); apply nth_error_snoc));
    (erewrite bind_Done by reflexivity);
    (erewrite bind_Done by (apply deref_Done with (v := h); apply nth_error_snoc));
    (erewrite bind_Done by reflexivity);
    (do 2 eexists; split; [reflexivity|]);
    (split; [reflexivity|]);
    (split; [apply deref_Done; apply nth_error_snoc|]);
    same_state.
Qed.

Lemma GetHostInfo_refresh_witness :
  HOST_INFO_UPDATE_INTERVAL <= elapsed Samples.nvidia_box FHost init
  /\ exists s', GetHostInfo Samples.nvidia_box init = Done (addr 0) s'
                /\ hostname s' = "workstation".
Proof.
  assert (H : HOST_INFO_UPDATE_INTERVAL <= elapsed Samples.nvidia_box FHost init)
    by (vm_compute; discriminate).
  split; [exact H|].
  destruct (GetHostInfo_refresh Samples.nvidia_box init _ None H eq_refl)
    as (p & s' & Hrun & _ & _ & Hn & _).
  exists s'. split; [|exact Hn].
  rewrite Hrun. f_equal.
  assert (E : value (GetHostInfo Samples.nvidia_box init) = Some (addr 0)) by reflexivity.
  rewrite Hrun in E. simpl in E. congruence.
Defined.

(** X21: whenever the interval has passed and [host.Info] hands back no
    record (as it does with an error), [GetHostInfo] panics at
    [hostInfo.String()], after it has emptied the slot and moved the fetch
    timestamp; the cached hostname is as it was. *)
Theorem GetHostInfo_failure_panics env s err :
  let n := List.length (trace s) in
  HOST_INFO_UPDATE_INTERVAL <= elapsed env FHost s ->
  host_Info env (S n) = (None, err) ->
  panics (GetHostInfo env s) = true
  /\ hostInfo (final (GetHostInfo env s)) = nil
  /\ lastFetchHost (final (GetHostInfo env s)) = clock env (S (S n))
  /\ hostname (final (GetHostInfo env s)) = hostname s.
Proof.
  intros n H Hp. subst n. unfold GetHostInfo.
  erewrite bind_Done by reflexivity.
  decide_test Hc.
  { apply Z.ltb_ge. exact H. }
  erewrite bind_Done by reflexivity. cbv iota.
  erewrite bind_Done by reflexivity.
  cbn [trace set_trace]. rewrite length_app, Nat.add_1_r. cbn [List.length]. rewrite Hp.
  erewrite bind_Done by reflexivity.
  destruct (is_err err); cbn [when];
    do 5 erewrite bind_Done by reflexivity;
    same_state.
Qed.

Lemma GetHostInfo_failure_panics_witness :
  HOST_INFO_UPDATE_INTERVAL <= elapsed (Samples.broken Samples.slow_clock) FHost Samples.warm
  /\ hostInfo Samples.warm = nil
  /\ panics (GetHostInfo (Samples.broken Samples.slow_clock) Samples.warm) = true.
Proof.
  assert (H : HOST_INFO_UPDATE_INTERVAL
              <= elapsed (Samples.broken Samples.slow_clock) FHost Samples.warm)
    by (vm_compute; discriminate).
  split; [exact H|]. split; [reflexivity|].
  apply (GetHostInfo_failure_panics (Samples.broken Samples.slow_clock) Samples.warm
           (Some "host.Info: not implemented") H eq_refl).
Defined.

(** *** The cached hostname *)

Lemma host_kept_refl s : host_kept s s.
Proof. repeat split. Qed.

Lemma host_kept_trans a b c : host_kept a b -> host_kept b c -> host_kept a c.
Proof. intros (H1 & H2 & H3) (H4 & H5 & H6). repeat split; congruence. Qed.

Lemma host_kept_consistent s s' : host_kept s s' -> hostname_consistent s -> hostname_consistent s'.
Proof. intros (H1 & H2 & H3). unfold hostname_consistent. rewrite H1, H2, H3. trivial. Qed.

Ltac host_run :=
  unfold_accessors; keeps_run host_kept_refl host_kept_trans ltac:(solve [repeat split]).

(** A run that keeps a relation keeps every property the relation carries
    over. *)
Lemma hoare_keeps {A} (R : State -> State -> Prop) (P : State -> Prop) (m : M A) :
  keeps R m -> (forall s s', R s s' -> P s -> P s') -> hoare P m (fun _ => P).
Proof. intros Hk HP s H a s' E. specialize (Hk s). rewrite E in Hk. exact (HP s s' Hk H). Qed.

Lemma hoare_any {A} (P : State -> Prop) (m : M A) : hoare P m (fun _ _ => True).
Proof. intros s _ a s' _. exact I. Qed.

Ltac frame_hostname := apply (hoare_keeps host_kept); [host_run | apply host_kept_consistent].

(** The end of a refresh: the hostname is read through the pointer that was
    just stored. *)
Lemma hostname_stored env :
  hoare (fun _ => True)
    (hi <- gets hostInfo ;;
     _ <- host_String env hi ;;
     slog_Debug "host.Info(): " ;;
     hv <- deref hostHeap hi ;;
     modify (set_hostname (host.Hostname hv)) ;;
     gets hostInfo)
    (fun _ => hostname_consistent).
Proof.
  intros s _ p s' E.
  erewrite bind_Done in E by reflexivity.
  destruct (hostInfo s) as [|a] eqn:Hi; [discriminate|].
  destruct (nth_error (hostHeap s) a) as [hv|] eqn:Hv.
  2:{ erewrite bind_Panic in E; [discriminate|].
      unfold host_String, deref, bind, gets. rewrite Hv. reflexivity. }
  erewrite bind_Done in E by (apply host_String_Done; exact Hv).
  erewrite bind_Done in E by reflexivity.
  erewrite bind_Done in E by (apply deref_Done; exact Hv).
  erewrite bind_Done in E by reflexivity.
  injection E as _ Es. subst s'.
  unfold hostname_consistent. cbn. rewrite Hi. exists hv. split; [exact Hv | reflexivity].
Qed.

Lemma hostname_GetHostInfo env :
  hoare hostname_consistent (GetHostInfo env) (fun _ => hostname_consistent).
Proof.
  unfold GetHostInfo.
  eapply hoare_bind; [frame_hostname|]. intro since. cbv beta.
  eapply hoare_bind; [frame_hostname|]. intro fresh. cbv beta.
  destruct fresh; [frame_hostname|].
  eapply hoare_bind; [apply hoare_any|]. intros [h err]. cbv beta iota.
  eapply hoare_bind; [apply hoare_any|]. intro hInfo. cbv beta.
  eapply hoare_bind; [apply hoare_any|]. intros ?. cbv beta.
  eapply hoare_bind; [apply hoare_any|]. intro now. cbv beta.
  eapply hoare_bind; [apply hoare_any|]. intros ?. cbv beta.
  eapply hoare_bind; [apply hoare_any|]. intros ?. cbv beta.
  apply hostname_stored.
Qed.

Lemma hostname_call env op :
  hoare hostname_consistent (call env op) (fun _ => hostname_consistent).
Proof.
  destruct op;
    try solve [apply (hoare_keeps host_kept); [host_run | apply host_kept_consistent]].
  - unfold call, discard. eapply hoare_bind; [apply hostname_GetHostInfo|]. intro. apply hoare_ret.
  - unfold call, discard, GetHostname.
    eapply hoare_bind; [|intro; apply hoare_ret].
    eapply hoare_bind; [frame_hostname|]. intro hn. cbv beta.
    destruct (negb (string_eqb hn "")); [frame_hostname|].
    eapply hoare_bind; [apply hostname_GetHostInfo|]. intros ?. cbv beta. frame_hostname.
Qed.

(** X22: in every state a process can reach, the cached hostname is the
    [Hostname] of the cached host record (and is empty while there is
    none); and once it is not empty, [GetHostname] returns it at once,
    reading neither the clock nor the provider, however old it is. *)
Theorem reachable_hostname env s :
  reachable env s ->
  hostname_consistent s
  /\ (hostname s <> "" -> forall env', GetHostname env' s = Done (hostname s) s).
Proof.
  intro H. split.
  - unfold reachable in H. remember init as s0 eqn:E.
    induction H as [|s s1 s2 op _ IH Hcall]; [subst; reflexivity|].
    exact (hostname_call env op s1 (IH E) tt s2 Hcall).
  - intros Hn env'. unfold GetHostname.
    erewrite bind_Done by reflexivity.
    destruct (string_eqb (hostname s) "") eqn:Hs; [apply string_eqb_eq in Hs; contradiction|].
    reflexivity.
Qed.

Lemma reachable_hostname_witness :
  let s := final (GetHostInfo Samples.nvidia_box init) in
  reachable Samples.nvidia_box s
  /\ hostname_consistent s
  /\ GetHostname (Samples.broken Samples.slow_clock) s = Done "workstation" s.
Proof.
  cbv zeta.
  assert (R : reachable Samples.nvidia_box (final (GetHostInfo Samples.nvidia_box init))).
  { apply later_call with (s1 := init) (op := OpGetHostInfo); [apply later_refl|].
    vm_compute. reflexivity. }
  split; [exact R|].
  destruct (reachable_hostname _ _ R) as [Hc Hg].
  split; [exact Hc|]. apply Hg. discriminate.
Defined.

(** ** Memory *)

(** X23: with an empty memory slot, once the interval has passed (as it
    has in a fresh process), [GetMemoryStats] returns whatever
    [mem.VirtualMemory] hands back, a pointer to the sample or nil, stores
    it in the slot without looking at it, and moves the fetch timestamp.
    It never panics, even when the provider fails. *)
Theorem GetMemoryStats_first_fetch env s :
  let n := List.length (trace s) in
  memInfo s = nil ->
  MEM_STATS_UPDATE_INTERVAL <= elapsed env FMem s ->
  exists p s',
    GetMemoryStats env s = Done p s'
    /\ memInfo s' = p
    /\ match fst (mem_VirtualMemory env (S n)) with
       | Some m => deref memHeap p s' = Done m s'
       | None => p = nil
       end
    /\ lastFetchMem s' = clock env (S (S n)).
Proof.
  intros n Hnil H. subst n. unfold GetMemoryStats.
  erewrite bind_Done by reflexivity.
  decide_test Hc.
  { apply Z.ltb_ge. exact H. }
  erewrite bind_Done by reflexivity. cbv iota.
  erewrite bind_Done by reflexivity.
  cbn [trace set_trace]. rewrite length_app, Nat.add_1_r. cbn [List.length].
  destruct (mem_VirtualMemory env (S (List.length (trace s)))) as [[m|] err]; cbn [fst];
    (erewrite bind_Done by reflexivity);
    destruct (is_err err); cbn [when];
    do 4 erewrite bind_Done by reflexivity;
    cbn [memInfo set_memInfo set_memHeap set_lastFetchMem set_trace set_logs];
    rewrite Hnil; cbn [ptr_eqb];
    (erewrite bind_Done by reflexivity);
    (do 2 eexists; split; [reflexivity|]);
    (split; [reflexivity|]);
    (split; [first [reflexivity | apply deref_Done; apply nth_error_snoc]|]);
    same_state.
Qed.

Lemma GetMemoryStats_first_fetch_witness :
  memInfo init = nil
  /\ MEM_STATS_UPDATE_INTERVAL <= elapsed (Samples.broken Samples.slow_clock) FMem init
  /\ exists s', GetMemoryStats (Samples.broken Samples.slow_clock) init = Done nil s'.
Proof.
  assert (H : MEM_STATS_UPDATE_INTERVAL <= elapsed (Samples.broken Samples.slow_clock) FMem init)
    by (vm_compute; discriminate).
  split; [reflexivity|]. split; [exact H|].
  destruct (GetMemoryStats_first_fetch (Samples.broken Samples.slow_clock) init eq_refl H)
    as (p & s' & Hrun & _ & Hp & _).
  exists s'. simpl in Hp. rewrite <- Hp. exact Hrun.
Defined.



(** ** The card's name *)

Lemma parse_lines_named info : forall s,
  forallb complete_line info = true ->
  exists s',
    for_each info (fun line =>
      if negb (string_eqb line "") then parseGPUNvidiaStats_line line else ret tt) s
    = Done tt s'
    /\ parsed_onto s s' (records_of_lines info)
    /\ GPU.Name (gpuInfo s') = last_card_name info (GPU.Name (gpuInfo s)).
Proof.
  induction info as [|line rest IH]; intros s Hc.
  - exists s. split; [reflexivity|]. unfold parsed_onto. simpl.
    rewrite app_nil_r. repeat split.
  - simpl in Hc. apply andb_true_iff in Hc. destruct Hc as [Hl Hrest].
    cbn [for_each last_card_name records_of_lines]. unfold complete_line in Hl.
    destruct (string_eqb line "") eqn:He; cbn [negb].
    + erewrite bind_Done by reflexivity. apply IH. exact Hrest.
    + simpl in Hl. destruct (line_record line) as [r|] eqn:Hr; [|discriminate].
      destruct (line_record_fields _ _ Hr) as (d0 & d1 & d2 & d3 & d4 & d5 & d6 & rst & Hs & Hrec).
      destruct (parse_line_appends line s _ _ _ _ _ _ _ _ Hs)
        as (s1 & Hrun & Hg & Hn & Hv & Ht & Hlf).
      erewrite bind_Done by exact Hrun.
      destruct (IH s1 Hrest) as (s2 & Hrun2 & (Hg2 & Hv2 & Hl2 & Ht2) & Hn2).
      exists s2. split; [exact Hrun2|]. unfold parsed_onto.
      rewrite Hg2, Hg, Hv2, Hv, Hl2, Hlf, Ht2, Ht, Hn2, Hn, Hs, <- Hrec, <- app_assoc.
      repeat split.
Qed.

(** X25: after a refresh that succeeds, [GPUName] returns field 1 of the
    last non-empty line of the tool's output: with several cards the name
    is the last card's, and with no line at all it is the name held
    before. *)
Theorem GPUName_after_refresh env s output :
  GPU.Vendor (gpuInfo s) = "nvidia" ->
  GPU_STATS_UPDATE_INTERVAL <= elapsed env FGPU s \/ cached FGPU s = false ->
  exec_Output env (S (List.length (trace s))) "nvidia-smi" nvidia_query = (output, None) ->
  complete output = true ->
  exists r s',
    GetGPUStats env s = Done r s'
    /\ GPUName s'
       = Done (last_card_name (strings.Split output LF) (GPU.Name (gpuInfo s))) s'.
Proof.
  intros Hv H Hout Hc. unfold GetGPUStats.
  do 2 erewrite bind_Done by reflexivity.
  decide_test Ht.
  { apply andb_false_iff. destruct H as [H|H]; [left; apply Z.ltb_ge; exact H | right; exact H]. }
  erewrite bind_Done by reflexivity.
  cbn [gpuInfo set_trace]. rewrite Hv. change (string_eqb "nvidia" "nvidia") with true. cbv iota.
  erewrite bind_Done by reflexivity.
  cbn [trace set_trace]. rewrite length_app, Nat.add_comm. cbn [List.length Nat.add].
  rewrite Hout. cbn [is_err].
  unfold parseGPUNvidiaStats.
  match goal with |- context [bind (bind (for_each _ _) _) _ ?st] =>
    destruct (parse_lines_named (strings.Split output LF) st Hc) as (s1 & Hrun & _ & Hn)
  end.
  erewrite bind_Done by (erewrite bind_Done by exact Hrun; reflexivity).
  do 3 erewrite bind_Done by reflexivity.
  do 2 eexists. split; [reflexivity|].
  unfold GPUName, gets. cbn [gpuInfo set_lastFetchGPU set_gpuStats set_trace].
  rewrite Hn. reflexivity.
Qed.

Lemma GPUName_after_refresh_witness :
  GPU.Vendor (gpuInfo Samples.probed) = "nvidia"
  /\ cached FGPU Samples.probed = false
  /\ complete Machines.two_cards_output = true
  /\ exists r s',
       GetGPUStats Machines.two_cards_box Samples.probed = Done r s'
       /\ GPUName s' = Done "NVIDIA GeForce GTX 1050" s'.
Proof.
  split; [reflexivity|]. split; [reflexivity|]. split; [reflexivity|].
  exact (GPUName_after_refresh Machines.two_cards_box Samples.probed Machines.two_cards_output
           eq_refl (or_intror eq_refl) eq_refl eq_refl).
Defined.

(** ** The older GPU accessor *)

Lemma bind_assoc {A B C} (m : M A) (k : A -> M B) (k' : B -> M C) s :
  bind (bind m k) k' s = bind m (fun a => bind (k a) k') s.
Proof. unfold bind. destruct (m s); reflexivity. Qed.

Lemma grows_legacy_lines info : forall acc, keeps grows (Legacy.parseGPUNvidiaData_lines info acc).
Proof.
  induction info as [|line rest IH]; intro acc; cbn [Legacy.parseGPUNvidiaData_lines].
  - apply (keeps_ret _ grows_refl).
  - apply (keeps_bind _ grows_trans); [|intro; apply IH].
    destruct (negb (string_eqb line "")); [|apply (keeps_ret _ grows_refl)].
    unfold Legacy.parseGPUNvidiaData_line, slog_Error.
    keeps_run grows_refl grows_trans grows_leaf.
Qed.

(** X26: the older [GetGPUInfo] runs the NVIDIA presence check first at
    every call, whatever the state: a cached answer still costs a spawned
    process. *)
Theorem legacy_GetGPUInfo_always_probes env s :
  exists tr, trace (final (Legacy.GetGPUInfo env s)) = (trace s ++ EvRun "nvidia-smi" :: tr)%list.
Proof.
  unfold Legacy.GetGPUInfo, Legacy.HasGPU.
  rewrite bind_assoc. erewrite bind_Done by reflexivity.
  apply (grows_from _ s [EvRun "nvidia-smi"]); [|reflexivity].
  unfold Legacy.parseGPUNvidiaData, time_Since, time_Now, slog_Error.
  keeps_run grows_refl grows_trans grows_leaf.
  apply grows_legacy_lines.
Qed.

(** X27: a refresh of the older [GetGPUInfo] that succeeds returns and
    stores exactly the records of the tool's output, one per non-empty
    line: the samples held before are replaced, not kept. *)
Theorem legacy_GetGPUInfo_refresh env s output :
  let n := List.length (trace s) in
  exec_Run env n "nvidia-smi" = None ->
  time.Second < time.Sub (clock env (S n)) (lastFetchGPU s) \/ cached FGPU s = false ->
  exec_Output env (S (S n)) "nvidia-smi" nvidia_query = (output, None) ->
  complete output = true ->
  exists s',
    Legacy.GetGPUInfo env s = Done (records output) s'
    /\ gpuStats s' = records output
    /\ lastFetchGPU s' = clock env (S (S (S n))).
Proof.
  intros n Hrun H Hout Hc. subst n.
  unfold Legacy.GetGPUInfo, Legacy.HasGPU.
  rewrite bind_assoc. erewrite bind_Done by reflexivity. rewrite Hrun. cbn [is_err negb].
  erewrite bind_Done by reflexivity. cbn [negb].
  do 2 erewrite bind_Done by reflexivity.
  cbn [trace lastFetchGPU gpuStats set_trace set_gpuVendor set_gpuInfo].
  rewrite length_app, Nat.add_1_r. cbn [List.length].
  decide_test Ht.
  { apply andb_false_iff. destruct H as [H|H]; [left; apply Z.leb_gt; exact H | right; exact H]. }
  erewrite bind_Done by reflexivity.
  cbn [gpuInfo GPU.Vendor set_trace set_gpuVendor set_gpuInfo].
  change (string_eqb "nvidia" "nvidia") with true. cbv iota.
  erewrite bind_Done by reflexivity.
  cbn [trace set_trace set_gpuVendor set_gpuInfo].
  rewrite !length_app, !Nat.add_1_r. cbn [List.length].
  rewrite Hout. cbn [is_err].
  unfold Legacy.parseGPUNvidiaData.
  match goal with |- context [bind (Legacy.parseGPUNvidiaData_lines _ _) _ ?st] =>
    destruct (legacy_lines (strings.Split output LF) [] st Hc) as (s1 & Hp & _ & Htr)
  end.
  erewrite bind_Done by exact Hp.
  do 3 erewrite bind_Done by reflexivity.
  eexists. split; [reflexivity|]. split; [reflexivity|].
  cbn [lastFetchGPU set_lastFetchGPU set_gpuStats set_trace trace].
  rewrite Htr. cbn [trace set_trace]. rewrite !length_app. cbn [List.length].
  f_equal. lia.
Qed.

Lemma legacy_GetGPUInfo_refresh_witness :
  let s := set_gpuStats [Samples.rtx3080] Samples.probed in
  cached FGPU s = true
  /\ time.Second < time.Sub (clock Samples.nvidia_box 2) (lastFetchGPU s)
  /\ exists s', Legacy.GetGPUInfo Samples.nvidia_box s = Done [Samples.rtx3080] s'.
Proof.
  cbv zeta. split; [reflexivity|].
  assert (H : time.Second < time.Sub (clock Samples.nvidia_box 2)
                              (lastFetchGPU (set_gpuStats [Samples.rtx3080] Samples.probed)))
    by (vm_compute; reflexivity).
  split; [exact H|].
  destruct (legacy_GetGPUInfo_refresh Samples.nvidia_box
              (set_gpuStats [Samples.rtx3080] Samples.probed) (Samples.rtx3080_line ++ LF)
              eq_refl (or_introl H) eq_refl eq_refl) as (s' & Hrun & _).
  exists s'. rewrite Hrun. vm_compute. reflexivity.
Defined.

(** ** The older disk usage cache *)

Lemma usage_String_length json u :
  (0 <? String.length (LegacyDisk.usage_String json u))%nat = LegacyDisk.encodable u.
Proof. unfold LegacyDisk.usage_String. destruct (LegacyDisk.encodable u); reflexivity. Qed.

(** X28: the older [GetDiskUsage] keeps one usage for all paths: after a
    fetch for [p1] that succeeded with a usage that prints (neither percent
    is NaN or infinite), a call within the hour returns the usage of [p1]
    whatever path [p2] it is asked about, and does not call [disk.Usage].
    The first call reads the clock before it fetches only when the usage
    held before prints. *)
Theorem legacy_GetDiskUsage_ignores_path env json st p1 p2 u :
  let pre := if LegacyDisk.encodable (LegacyDisk.diskUsage st) then [EvClock] else [] in
  let n := List.length (LegacyDisk.events st ++ pre)%list in
  (LegacyDisk.encodable (LegacyDisk.diskUsage st) = true ->
   LegacyDisk.Hour <= time.Sub (clock env (List.length (LegacyDisk.events st)))
                               (LegacyDisk.lastFetchDisk st)) ->
  disk_Usage env n p1 = (Some u, None) ->
  LegacyDisk.encodable u = true ->
  time.Sub (clock env (S (S n))) (clock env (S n)) < LegacyDisk.Hour ->
  exists st1 st2,
    LegacyDisk.GetDiskUsage env json p1 st = LegacyDisk.Returned (u, None) st1
    /\ LegacyDisk.GetDiskUsage env json p2 st1 = LegacyDisk.Returned (u, None) st2
    /\ LegacyDisk.events st2
       = (LegacyDisk.events st ++ pre ++ [EvCall (DiskUsage p1); EvClock; EvClock])%list.
Proof.
  intros pre n. subst pre n.
  unfold LegacyDisk.GetDiskUsage. rewrite !usage_String_length.
  destruct (LegacyDisk.encodable (LegacyDisk.diskUsage st)) eqn:He;
    intros Hstale Hp Hu Hfresh.
  - specialize (Hstale eq_refl). apply Z.ltb_ge in Hstale.
    unfold LegacyDisk.GetDiskUsage_fetch.
    cbn [LegacyDisk.record_event LegacyDisk.lastFetchDisk LegacyDisk.events].
    rewrite Hstale. rewrite Hp. cbn [is_err].
    do 2 eexists. split; [reflexivity|].
    rewrite usage_String_length.
    cbn [LegacyDisk.record_event LegacyDisk.record_message LegacyDisk.lastFetchDisk
         LegacyDisk.events LegacyDisk.diskUsage LegacyDisk.messages].
    rewrite Hu. rewrite ?length_app, ?Nat.add_1_r in *. cbn [List.length] in *.
    rewrite ?length_app, ?Nat.add_1_r in *. cbn [List.length] in *.
    apply Z.ltb_lt in Hfresh. rewrite Hfresh.
    split; [reflexivity|].
    cbn [LegacyDisk.record_event LegacyDisk.events]. rewrite <- !app_assoc. reflexivity.
  - rewrite app_nil_r in *.
    unfold LegacyDisk.GetDiskUsage_fetch. rewrite Hp. cbn [is_err].
    do 2 eexists. split; [reflexivity|].
    rewrite usage_String_length.
    cbn [LegacyDisk.record_event LegacyDisk.record_message LegacyDisk.lastFetchDisk
         LegacyDisk.events LegacyDisk.diskUsage LegacyDisk.messages].
    rewrite Hu. rewrite !length_app, !Nat.add_1_r. cbn [List.length].
    apply Z.ltb_lt in Hfresh. rewrite Hfresh.
    split; [reflexivity|].
    cbn [LegacyDisk.record_event LegacyDisk.events]. rewrite <- !app_assoc. reflexivity.
Qed.

Lemma legacy_GetDiskUsage_ignores_path_witness :
  let u := disk.mkUsageStat "C:" "NTFS" 1000 400 600 60%float 0%float in
  LegacyDisk.encodable u = true
  /\ exists st1 st2,
       LegacyDisk.GetDiskUsage Samples.nvidia_box (fun _ => "") "C:" LegacyDisk.start
       = LegacyDisk.Returned (u, None) st1
       /\ LegacyDisk.GetDiskUsage Samples.nvidia_box (fun _ => "") "D:" st1
          = LegacyDisk.Returned (u, None) st2.
Proof.
  cbv zeta. split; [reflexivity|].
  destruct (legacy_GetDiskUsage_ignores_path Samples.nvidia_box (fun _ => "") LegacyDisk.start
              "C:" "D:" (disk.mkUsageStat "C:" "NTFS" 1000 400 600 60%float 0%float))
    as (st1 & st2 & H1 & H2 & _).
  - intros _. vm_compute. discriminate.
  - reflexivity.
  - reflexivity.
  - vm_compute. reflexivity.
  - exists st1, st2. split; [exact H1 | exact H2].
Defined.

(** X29: a fetch of the older [GetDiskUsage] that fails returns the empty
    usage with the error and caches nothing: the usage and the timestamp
    held before stay, so the next call asks the provider again.  The call
    reads the clock before it fetches only when the usage held before
    prints; then the fetch happens once an hour has passed. *)
Theorem legacy_GetDiskUsage_failure env json st p d e :
  let pre := if LegacyDisk.encodable (LegacyDisk.diskUsage st) then [EvClock] else [] in
  let n := List.length (LegacyDisk.events st ++ pre)%list in
  (LegacyDisk.encodable (LegacyDisk.diskUsage st) = true ->
   LegacyDisk.Hour <= time.Sub (clock env (List.length (LegacyDisk.events st)))
                               (LegacyDisk.lastFetchDisk st)) ->
  disk_Usage env n p = (d, Some e) ->
  exists st1,
    LegacyDisk.GetDiskUsage env json p st = LegacyDisk.Returned (LegacyDisk.zeroUsage, Some e) st1
    /\ LegacyDisk.diskUsage st1 = LegacyDisk.diskUsage st
    /\ LegacyDisk.lastFetchDisk st1 = LegacyDisk.lastFetchDisk st
    /\ LegacyDisk.events st1 = (LegacyDisk.events st ++ pre ++ [EvCall (DiskUsage p)])%list.
Proof.
  intros pre n. subst pre n.
  unfold LegacyDisk.GetDiskUsage. rewrite usage_String_length.
  destruct (LegacyDisk.encodable (LegacyDisk.diskUsage st)) eqn:He; intros Hstale Hp.
  - specialize (Hstale eq_refl). apply Z.ltb_ge in Hstale.
    unfold LegacyDisk.GetDiskUsage_fetch.
    cbn [LegacyDisk.record_event LegacyDisk.lastFetchDisk LegacyDisk.events].
    rewrite Hstale, Hp. cbn [is_err].
    eexists. split; [reflexivity|].
    cbn [LegacyDisk.record_event LegacyDisk.record_message LegacyDisk.lastFetchDisk
         LegacyDisk.events LegacyDisk.diskUsage].
    rewrite <- !app_assoc. repeat split.
  - rewrite app_nil_r in Hp.
    unfold LegacyDisk.GetDiskUsage_fetch. rewrite Hp. cbn [is_err].
    eexists. split; [reflexivity|]. repeat split.
Qed.

Lemma legacy_GetDiskUsage_failure_witness :
  LegacyDisk.encodable (LegacyDisk.diskUsage LegacyDisk.start) = true
  /\ exists st1,
       LegacyDisk.GetDiskUsage Machines.no_usage_box (fun _ => "") "/media/cdrom" LegacyDisk.start
       = LegacyDisk.Returned (LegacyDisk.zeroUsage, Some "no medium found") st1
       /\ LegacyDisk.lastFetchDisk st1 = time.zero.
Proof.
  split; [reflexivity|].
  destruct (legacy_GetDiskUsage_failure Machines.no_usage_box (fun _ => "") LegacyDisk.start
              "/media/cdrom" None "no medium found") as (st1 & H1 & _ & H2 & _).
  - intros _. vm_compute. discriminate.
  - reflexivity.
  - exists st1. split; [exact H1 | exact H2].
Defined.
